(** * Date-range computation and filter construction of the Power BI date slicer

    A shallow embedding of the TypeScript sources, one module per class:

    - [DateRangeCalculator]   services/DateRangeCalculator.ts (src/unnamed/part_005)
    - [FilterManager]         services/FilterManager.ts       (src/unnamed/part_004)
    - [DateUtils], [FilterService], [DateTimePickerVisual]
                              the single-file visual          (src/unnamed/part_009)
    - [DirectQuery]           the single-file visual written for DirectQuery
                              models                          (src/unnamed/part_008)
    - [DateRangeType], [IDateRange]   settings.ts             (src/unnamed/part_007)
    - [DebugLogger]           services/DebugLogger.ts
    - [UIManager]             the handlers of services/UIManager.ts
    - [DateInput], [DateInputsComponent], [PickerVisual], [DirectQueryVisual]
                              the date inputs and the handlers of the two
                              single-file visuals

    The code runs on ECMAScript [Date] objects.  Module [ES] gives the part of
    ECMA-262 (section "Date Objects") that the sources call, over integers:
    every quantity the sources compute is an integral Number far below 2^53, so
    Number arithmetic on them is exact and [Z] carries it; the one non-integral
    value the sources meet is NaN, kept as a constructor of its own.  The
    sources are embedded over the local clock of any time zone ([Clock]);
    an [Engine] is the clock of a zone that keeps one offset from UTC, and
    the statements written for an [Engine] hold for such zones.

    Part I holds the definitions, Part II the lemmas on the calendar, on Date
    objects, on strings and on runs, Part III the properties of the
    specification, C1 to C10, Part IV further properties of the sources. *)

From Stdlib Require Import ZArith List String Ascii Bool Lia.
Import ListNotations.
Open Scope string_scope.
Open Scope Z_scope.

(** * Part I: definitions *)

(** ** Numbers, strings *)

(** An integral Number, or NaN. *)
Inductive Number : Type :=
| NaN
| Int (n : Z).

(** A [Date] object is its time value: milliseconds since the epoch (UTC), or
    NaN for an invalid date.  The sources copy a date ([new Date(d)]) before
    they mutate it, so dates are passed by value here. *)
Definition Date : Type := Number.

Module Str.

Definition eqb_ascii (a b : ascii) : bool := Ascii.eqb a b.

Definition is_digit (c : ascii) : bool :=
  let n := nat_of_ascii c in (48 <=? n)%nat && (n <=? 57)%nat.

Definition digit_char (n : Z) : ascii := ascii_of_nat (48 + Z.to_nat n).

Definition digit_value (c : ascii) : Z := Z.of_nat (nat_of_ascii c) - 48.

(** Decimal digits of a non-negative integer, most significant first. *)
Fixpoint decimal_digits (fuel : nat) (n : Z) (acc : string) : string :=
  match fuel with
  | O => acc
  | S fuel' =>
      let acc' := String (digit_char (n mod 10)) acc in
      if n <? 10 then acc' else decimal_digits fuel' (n / 10) acc'
  end.

Definition string_of_nonneg (n : Z) : string :=
  decimal_digits (S (Z.to_nat (Z.log2 n))) n "".

(** [String(n)] and template interpolation of an integral Number. *)
Definition string_of_Z (n : Z) : string :=
  if n <? 0 then String "-" (string_of_nonneg (- n)) else string_of_nonneg n.

Definition NumberToString (x : Number) : string :=
  match x with
  | NaN => "NaN"
  | Int n => string_of_Z n
  end.

(** The value of a string of decimal digits ([+m[1]] on a [\d+] group). *)
Fixpoint digits_value_from (acc : Z) (s : string) : Z :=
  match s with
  | EmptyString => acc
  | String c r => digits_value_from (10 * acc + digit_value c) r
  end.

Definition digits_value (s : string) : Z := digits_value_from 0 s.

Fixpoint repeat_char (c : ascii) (n : nat) : string :=
  match n with
  | O => EmptyString
  | S k => String c (repeat_char c k)
  end.

(** [s.padStart(n, c)] for a one-character filler. *)
Definition padStart (n : nat) (c : ascii) (s : string) : string :=
  repeat_char c (n - String.length s) ++ s.

(** White space and line terminators among the code units below 256. *)
Definition is_space (c : ascii) : bool :=
  let n := nat_of_ascii c in
  ((9 <=? n)%nat && (n <=? 13)%nat) || (n =? 32)%nat || (n =? 160)%nat.

Fixpoint trim_start (s : string) : string :=
  match s with
  | EmptyString => EmptyString
  | String c r => if is_space c then trim_start r else s
  end.

Fixpoint rev_onto (s acc : string) : string :=
  match s with
  | EmptyString => acc
  | String c r => rev_onto r (String c acc)
  end.

Definition rev (s : string) : string := rev_onto s EmptyString.

Definition trim (s : string) : string := rev (trim_start (rev (trim_start s))).

Fixpoint all_chars (p : ascii -> bool) (s : string) : bool :=
  match s with
  | EmptyString => true
  | String c r => p c && all_chars p r
  end.

Fixpoint contains_char (c : ascii) (s : string) : bool :=
  match s with
  | EmptyString => false
  | String d r => eqb_ascii c d || contains_char c r
  end.

(** [s.split(c)]: the pieces between the occurrences of [c]; never empty. *)
Fixpoint split_on (c : ascii) (s : string) : list string :=
  match s with
  | EmptyString => [EmptyString]
  | String d r =>
      match split_on c r with
      | [] => [EmptyString]
      | p :: ps => if eqb_ascii c d then EmptyString :: p :: ps else String d p :: ps
      end
  end.

(** [a || b] on strings: the empty string is falsy. *)
Definition or_else (a b : string) : string :=
  match a with
  | EmptyString => b
  | _ => a
  end.

Definition is_empty (s : string) : bool :=
  match s with
  | EmptyString => true
  | _ => false
  end.

Fixpoint last_char (s : string) : option ascii :=
  match s with
  | EmptyString => None
  | String c EmptyString => Some c
  | String _ r => last_char r
  end.

End Str.

(** ** ECMAScript time values and Date objects (ECMA-262, "Date Objects") *)

Module ES.

Definition msPerDay : Z := 86400000.
Definition msPerHour : Z := 3600000.
Definition msPerMinute : Z := 60000.
Definition msPerSecond : Z := 1000.

(** The largest magnitude of a time value: 100,000,000 days from the epoch. *)
Definition maxTimeValue : Z := 8640000000000000.

(** The local clock of the engine, for any time zone (ECMA-262, "LocalTime"
    and "UTC").  [LocalTime t] is the local time at the moment [t]: [t] plus
    the offset of the zone in force at [t].  [UTC lt] is the moment that the
    standard gives the local time [lt]: the earliest moment at which the
    zone's clocks show [lt] and, for a local time that the clocks skip at a
    change of offset, [lt] less the offset in force before the change.
    [Date_parse] is the engine's [Date.parse], whose result on strings
    outside the standard's own format is implementation-defined. *)
Class Clock : Type := {
  LocalTime : Z -> Z;
  UTC : Z -> Z;
  Date_parse : string -> Number
}.

(** An engine in a zone that keeps one offset from UTC, in milliseconds,
    with no daylight-saving change (real offsets stay well under a day), and
    its [Date.parse]. *)
Class Engine : Type := {
  LocalTZA : Z;
  LocalTZA_bound : - msPerDay < LocalTZA < msPerDay;
  DateParse : string -> Number
}.

(** The clock of such an engine. *)
#[export] Instance fixed_offset (E : Engine) : Clock :=
  {| LocalTime := fun t => t + LocalTZA;
     UTC := fun t => t - LocalTZA;
     Date_parse := DateParse |}.

Coercion fixed_offset : Engine >-> Clock.

(** A zone given by its changes of offset: the offset before the first
    change and the changes in order of time, each the moment from which an
    offset is in force, and that offset. *)
Record ZoneRules : Type := {
  first_offset : Z;
  changes : list (Z * Z)
}.

(** The offset in force at the moment [t]. *)
Definition offset_in (z : ZoneRules) (t : Z) : Z :=
  fold_left (fun o c => if fst c <=? t then snd c else o) (changes z) (first_offset z).

(** The moments at which the clocks of the zone show the local time [lt]. *)
Definition possible_instants (z : ZoneRules) (lt : Z) : list Z :=
  filter (fun t => t + offset_in z t =? lt)
         (map (fun o => lt - o) (first_offset z :: map snd (changes z))).

(** The offset before the change at which the clocks skip [lt]. *)
Fixpoint offset_before_gap (before : Z) (cs : list (Z * Z)) (lt : Z) : option Z :=
  match cs with
  | [] => None
  | c :: rest =>
      if (fst c + before <=? lt) && (lt <? fst c + snd c) then Some before
      else offset_before_gap (snd c) rest lt
  end.

Definition zone_UTC (z : ZoneRules) (lt : Z) : Z :=
  match possible_instants z lt with
  | t :: rest => fold_left Z.min rest t
  | [] =>
      match offset_before_gap (first_offset z) (changes z) lt with
      | Some o => lt - o
      | None => lt - first_offset z
      end
  end.

(** The clock of an engine in such a zone. *)
Definition zone_clock (z : ZoneRules) (parse : string -> Number) : Clock :=
  {| LocalTime := fun t => t + offset_in z t;
     UTC := zone_UTC z;
     Date_parse := parse |}.

Definition Day (t : Z) : Z := t / msPerDay.
Definition TimeWithinDay (t : Z) : Z := t mod msPerDay.

Definition IsLeapYear (y : Z) : bool :=
  (y mod 4 =? 0) && (negb (y mod 100 =? 0) || (y mod 400 =? 0)).

Definition DaysInYear (y : Z) : Z := if IsLeapYear y then 366 else 365.

Definition DayFromYear (y : Z) : Z :=
  365 * (y - 1970) + (y - 1969) / 4 - (y - 1901) / 100 + (y - 1601) / 400.

Definition TimeFromYear (y : Z) : Z := msPerDay * DayFromYear y.

(** The year holding day number [d]: the largest [y] with
    [DayFromYear y <= d] (lemma [YearFromDay_spec]), found from the mean
    year length and one step of adjustment. *)
Definition YearFromDay (d : Z) : Z :=
  let y0 := 1970 + (400 * d) / 146097 in
  if d <? DayFromYear y0 then y0 - 1
  else if DayFromYear (y0 + 1) <=? d then y0 + 1
  else y0.

Definition YearFromTime (t : Z) : Z := YearFromDay (Day t).

Definition InLeapYear (t : Z) : bool := IsLeapYear (YearFromTime t).

Definition DayWithinYear (t : Z) : Z := Day t - DayFromYear (YearFromTime t).

(** The day number within the year at which month [m] (0 = January) starts. *)
Definition DaysBeforeMonth (leap : bool) (m : Z) : Z :=
  let l := if leap then 1 else 0 in
  if m <=? 0 then 0
  else if m =? 1 then 31
  else if m =? 2 then 59 + l
  else if m =? 3 then 90 + l
  else if m =? 4 then 120 + l
  else if m =? 5 then 151 + l
  else if m =? 6 then 181 + l
  else if m =? 7 then 212 + l
  else if m =? 8 then 243 + l
  else if m =? 9 then 273 + l
  else if m =? 10 then 304 + l
  else 334 + l.

(** The month holding day [d] of a year. *)
Definition MonthOfDayWithinYear (leap : bool) (d : Z) : Z :=
  let l := if leap then 1 else 0 in
  if d <? 31 then 0
  else if d <? 59 + l then 1
  else if d <? 90 + l then 2
  else if d <? 120 + l then 3
  else if d <? 151 + l then 4
  else if d <? 181 + l then 5
  else if d <? 212 + l then 6
  else if d <? 243 + l then 7
  else if d <? 273 + l then 8
  else if d <? 304 + l then 9
  else if d <? 334 + l then 10
  else 11.

Definition MonthFromTime (t : Z) : Z :=
  MonthOfDayWithinYear (InLeapYear t) (DayWithinYear t).

Definition DateFromTime (t : Z) : Z :=
  DayWithinYear t - DaysBeforeMonth (InLeapYear t) (MonthFromTime t) + 1.

Definition HourFromTime (t : Z) : Z := (t / msPerHour) mod 24.
Definition MinFromTime (t : Z) : Z := (t / msPerMinute) mod 60.
Definition SecFromTime (t : Z) : Z := (t / msPerSecond) mod 60.
Definition msFromTime (t : Z) : Z := t mod msPerSecond.

Definition MakeTime (hour min sec ms : Z) : Z :=
  hour * msPerHour + min * msPerMinute + sec * msPerSecond + ms.

(** The day number of the [date]-th day of month [month] of [year]; months
    outside 0..11 carry into the year, dates outside the month into the
    neighbouring months. *)
Definition MakeDay (year month date : Z) : Z :=
  let ym := year + month / 12 in
  let mn := month mod 12 in
  DayFromYear ym + DaysBeforeMonth (IsLeapYear ym) mn + date - 1.

Definition MakeDate (day time : Z) : Z := day * msPerDay + time.

(** Two-digit years given to the [Date] constructor mean 19xx. *)
Definition MakeFullYear (y : Z) : Z :=
  if (0 <=? y) && (y <=? 99) then 1900 + y else y.

Definition TimeClip (t : Z) : Number :=
  if Z.abs t <=? maxTimeValue then Int t else NaN.

Section DateObjects.
Context {K : Clock}.

(** A field of the local civil time of a date; NaN on an invalid date. *)
Definition local_field (f : Z -> Z) (d : Date) : Number :=
  match d with
  | NaN => NaN
  | Int t => Int (f (LocalTime t))
  end.

Definition getFullYear : Date -> Number := local_field YearFromTime.
Definition getMonth : Date -> Number := local_field MonthFromTime.
Definition getDate : Date -> Number := local_field DateFromTime.
Definition getHours : Date -> Number := local_field HourFromTime.
Definition getMinutes : Date -> Number := local_field MinFromTime.
Definition getSeconds : Date -> Number := local_field SecFromTime.
Definition getMilliseconds : Date -> Number := local_field msFromTime.

Definition getTime (d : Date) : Number := d.

(** [isNaN(x)]. *)
Definition isNaN (x : Number) : bool :=
  match x with
  | NaN => true
  | Int _ => false
  end.

(** [new Date()] at the moment [now] of the system clock. *)
Definition new_Date_now (now : Z) : Date := TimeClip now.

(** [new Date(d)] for a Date [d]. *)
Definition new_Date_copy (d : Date) : Date :=
  match d with
  | NaN => NaN
  | Int t => TimeClip t
  end.

(** [new Date(s)] for a string [s]. *)
Definition new_Date_string (s : string) : Date :=
  match Date_parse s with
  | NaN => NaN
  | Int t => TimeClip t
  end.

(** [new Date(y, m, d)]: the moment of the local midnight of a civil date. *)
Definition new_Date_ymd (y m d : Number) : Date :=
  match y, m, d with
  | Int y, Int m, Int d =>
      TimeClip (UTC (MakeDate (MakeDay (MakeFullYear y) m d) (MakeTime 0 0 0 0)))
  | _, _, _ => NaN
  end.

(** [d.setHours(h, m, s, ms)]: the date after the call. *)
Definition setHours (d : Date) (h m s ms : Z) : Date :=
  match d with
  | NaN => NaN
  | Int t =>
      TimeClip (UTC (MakeDate (Day (LocalTime t)) (MakeTime h m s ms)))
  end.

(** [d.setDate(n)]: the date after the call. *)
Definition setDate (d : Date) (n : Number) : Date :=
  match d, n with
  | Int t, Int n =>
      let lt := LocalTime t in
      TimeClip (UTC (MakeDate (MakeDay (YearFromTime lt) (MonthFromTime lt) n)
                              (TimeWithinDay lt)))
  | _, _ => NaN
  end.

End DateObjects.

(** [x + k] and [x - k] on Numbers, for an integer [k]. *)
Definition num_add (x : Number) (k : Z) : Number :=
  match x with
  | NaN => NaN
  | Int n => Int (n + k)
  end.

(** [a <= b], [a < b], [a > b] on Dates (or Numbers): false when either side is NaN. *)
Definition le (a b : Number) : bool :=
  match a, b with
  | Int x, Int y => x <=? y
  | _, _ => false
  end.

Definition lt (a b : Number) : bool :=
  match a, b with
  | Int x, Int y => x <? y
  | _, _ => false
  end.

Definition gt (a b : Number) : bool := lt b a.

(** The year of [toISOString]: four digits from 0 to 9999, otherwise a sign
    and six digits. *)
Definition iso_year (y : Z) : string :=
  if (0 <=? y) && (y <=? 9999)
  then Str.padStart 4 "0" (Str.string_of_nonneg y)
  else String (if y <? 0 then "-"%char else "+"%char)
              (Str.padStart 6 "0" (Str.string_of_nonneg (Z.abs y))).

Definition pad_num (width : nat) (n : Z) : string :=
  Str.padStart width "0" (Str.string_of_nonneg n).

(** [d.toISOString()]: the UTC fields, closed by the letter Z; [None] stands
    for the RangeError thrown on an invalid date. *)
Definition toISOString (d : Date) : option string :=
  match d with
  | NaN => None
  | Int t =>
      Some (iso_year (YearFromTime t) ++ "-" ++ pad_num 2 (MonthFromTime t + 1)
            ++ "-" ++ pad_num 2 (DateFromTime t)
            ++ "T" ++ pad_num 2 (HourFromTime t)
            ++ ":" ++ pad_num 2 (MinFromTime t)
            ++ ":" ++ pad_num 2 (SecFromTime t)
            ++ "." ++ pad_num 3 (msFromTime t) ++ "Z")%string
  end.

End ES.

Import ES.

(** ** settings.ts: the range types *)

Inductive DateRangeType : Type :=
| Last7Days
| Last30Days
| Last90Days
| Custom.

Record IDateRange : Type := {
  startDate : Date;
  endDate : Date;
  type : DateRangeType
}.

(** ** services/DateRangeCalculator.ts *)

Module DateRangeCalculator.
Section WithEngine.
Context {K : Clock}.

Definition subtractDays (date : Date) (days : Z) : Date :=
  let result := new_Date_copy date in
  setDate result (num_add (getDate result) (- days)).

(** [calculateDateRange(rangeType)], run when the system clock reads [now]. *)
Definition calculateDateRange (now : Z) (rangeType : DateRangeType) : IDateRange :=
  let today := setHours (new_Date_now now) 23 59 59 999 in
  let endDate := new_Date_copy today in
  let startDate :=
    match rangeType with
    | Last7Days => subtractDays today 7
    | Last30Days => subtractDays today 30
    | Last90Days => subtractDays today 90
    | Custom => new_Date_copy today
    end in
  let startDate := setHours startDate 0 0 0 0 in
  {| startDate := startDate; endDate := endDate; type := rangeType |}.

Definition createCustomRange (startDate endDate : Date) : IDateRange :=
  let adjustedStartDate := new_Date_copy startDate in
  let adjustedEndDate := new_Date_copy endDate in
  let adjustedStartDate := setHours adjustedStartDate 0 0 0 0 in
  let adjustedEndDate := setHours adjustedEndDate 23 59 59 999 in
  {| startDate := adjustedStartDate; endDate := adjustedEndDate; type := Custom |}.

(** [isValidDateRange(dateRange)]; [None] is a null range.  The two guards
    on the fields pass on every Date object (an object is truthy whatever
    its time value), so the comparison decides. *)
Definition isValidDateRange (dateRange : option IDateRange) : bool :=
  match dateRange with
  | None => false
  | Some r => le (startDate r) (endDate r)
  end.

Definition getRangeTypeDisplayText (rangeType : DateRangeType) : string :=
  match rangeType with
  | Last7Days => "Last 7 Days"
  | Last30Days => "Last 30 Days"
  | Last90Days => "Last 90 Days"
  | Custom => "Custom Range"
  end.

End WithEngine.
End DateRangeCalculator.

(** ** The values a host hands over where the sources say [any] *)

Inductive JsValue : Type :=
| VUndefined
| VNull
| VString (s : string)
| VNumber (x : Number)
| VDate (d : Date).

(** [!v]. *)
Definition falsy (v : JsValue) : bool :=
  match v with
  | VUndefined | VNull => true
  | VString s => Str.is_empty s
  | VNumber NaN => true
  | VNumber (Int n) => n =? 0
  | VDate _ => false
  end.

(** ** The regular expressions of the sources *)

Module Regex.

Definition str2 (a b : ascii) : string := String a (String b EmptyString).
Definition str4 (a b c d : ascii) : string := String a (String b (str2 c d)).

(** [/^(\d{4})-(\d{2})-(\d{2})/]: the three groups of a match. *)
Definition match_iso (s : string) : option (string * string * string) :=
  match s with
  | String y1 (String y2 (String y3 (String y4 (String h1
      (String m1 (String m2 (String h2 (String d1 (String d2 _))))))))) =>
      if Str.is_digit y1 && Str.is_digit y2 && Str.is_digit y3 && Str.is_digit y4
         && Str.eqb_ascii h1 "-"
         && Str.is_digit m1 && Str.is_digit m2
         && Str.eqb_ascii h2 "-"
         && Str.is_digit d1 && Str.is_digit d2
      then Some (str4 y1 y2 y3 y4, str2 m1 m2, str2 d1 d2)
      else None
  | _ => None
  end.

(** [(\d{1,2})] at the head of [s], taking two digits when it can, and what follows. *)
Definition digits_1_2 (s : string) : option (string * string) :=
  match s with
  | String a r =>
      if Str.is_digit a then
        match r with
        | String b r' =>
            if Str.is_digit b then Some (str2 a b, r')
            else Some (String a EmptyString, r)
        | EmptyString => Some (String a EmptyString, EmptyString)
        end
      else None
  | EmptyString => None
  end.

Definition expect_char (c : ascii) (s : string) : option string :=
  match s with
  | String d r => if Str.eqb_ascii c d then Some r else None
  | EmptyString => None
  end.

(** [/^(\d{1,2})\/(\d{1,2})\/(\d{4})$/]: the three groups of a match.  After
    one or two digits only a slash can follow, so taking the longer run of
    digits first loses no match. *)
Definition match_slash (s : string) : option (string * string * string) :=
  match digits_1_2 s with
  | None => None
  | Some (a, r1) =>
      match expect_char "/" r1 with
      | None => None
      | Some r2 =>
          match digits_1_2 r2 with
          | None => None
          | Some (b, r3) =>
              match expect_char "/" r3 with
              | Some (String y1 (String y2 (String y3 (String y4 EmptyString)))) =>
                  if Str.is_digit y1 && Str.is_digit y2
                     && Str.is_digit y3 && Str.is_digit y4
                  then Some (a, b, str4 y1 y2 y3 y4)
                  else None
              | _ => None
              end
          end
      end
  end.

(** Line terminators (what [.] does not match) among the code units below 256. *)
Definition is_line_terminator (c : ascii) : bool :=
  let n := nat_of_ascii c in (n =? 10)%nat || (n =? 13)%nat.

(** [r] as [g ++ "]"] with [g] not empty. *)
Definition strip_closing_bracket (r : string) : option string :=
  match Str.rev r with
  | String c q =>
      if Str.eqb_ascii c "]" && negb (Str.is_empty q) then Some (Str.rev q) else None
  | EmptyString => None
  end.

(** The split of [s] at its last opening bracket that leaves both groups
    non-empty; [pre] holds, reversed, what was read before [s]. *)
Fixpoint bracket_split (pre : string) (s : string) : option (string * string) :=
  match s with
  | EmptyString => None
  | String c r =>
      match bracket_split (String c pre) r with
      | Some res => Some res
      | None =>
          if Str.eqb_ascii c "[" && negb (Str.is_empty pre) then
            match strip_closing_bracket r with
            | Some g => Some (Str.rev pre, g)
            | None => None
            end
          else None
      end
  end.

(** [/^(.+)\[(.+)\]$/]: the two groups of a match; the first group is greedy. *)
Definition match_bracket (s : string) : option (string * string) :=
  if Str.all_chars (fun c => negb (is_line_terminator c)) s
  then bracket_split EmptyString s
  else None.

End Regex.

(** ** The single-file visual: [DateUtils] *)

Inductive PredefinedRange : Type :=
| LATEST_7_DAYS
| LATEST_30_DAYS
| LATEST_90_DAYS
| CUSTOM.

(** The numeric value of the enum member. *)
Definition range_days (r : PredefinedRange) : Z :=
  match r with
  | LATEST_7_DAYS => 7
  | LATEST_30_DAYS => 30
  | LATEST_90_DAYS => 90
  | CUSTOM => 0
  end.

(** The interfaces that the single-file visuals declare: their range has no
    [type] field; an absent [minDate] or [maxDate] is [None]. *)
Module Picker.

Record IDateRange : Type := {
  startDate : Date;
  endDate : Date
}.

Record IDateColumnInfo : Type := {
  displayName : string;
  queryName : string;
  minDate : option Date;
  maxDate : option Date
}.

End Picker.

Record MinMax : Type := {
  minDate : option Date;
  maxDate : option Date
}.

Module DateUtils.
Section WithEngine.
Context {K : Clock}.

Definition pad2 (x : Number) : string :=
  Str.padStart 2 "0" (Str.NumberToString x).

(** [formatDate(date)]; [None] is a null date. *)
Definition formatDate (date : option Date) : string :=
  match date with
  | None => ""
  | Some date =>
      let y := getFullYear date in
      let m := pad2 (num_add (getMonth date) 1) in
      let d := pad2 (getDate date) in
      (Str.NumberToString y ++ "-" ++ m ++ "-" ++ d)%string
  end.

(** The body of [parseDate] once [String(input).trim()] is at hand. *)
Definition parseText (text : string) : Date :=
  let s := Str.trim text in
  match Regex.match_iso s with
  | Some (g1, g2, g3) =>
      new_Date_ymd (Int (Str.digits_value g1))
                   (Int (Str.digits_value g2 - 1))
                   (Int (Str.digits_value g3))
  | None =>
      match Regex.match_slash s with
      | Some (g1, g2, g3) =>
          let a := Str.digits_value g1 in
          let b := Str.digits_value g2 in
          let y := Str.digits_value g3 in
          let ddFirst := a >? 12 in
          let d := if ddFirst then a else b in
          let mo := if ddFirst then b else a in
          new_Date_ymd (Int y) (Int (mo - 1)) (Int d)
      | None =>
          let d := new_Date_string s in
          if isNaN (getTime d) then NaN
          else new_Date_ymd (getFullYear d) (getMonth d) (getDate d)
      end
  end.

Definition parseDate (input : JsValue) : Date :=
  if falsy input then NaN
  else
    match input with
    | VDate d => new_Date_ymd (getFullYear d) (getMonth d) (getDate d)
    | VString s => parseText s
    | VNumber x => parseText (Str.NumberToString x)
    | VUndefined => parseText "undefined"
    | VNull => parseText "null"
    end.

(** [getDateRange(range, maxDate)], run when the system clock reads [now];
    [None] is an omitted (or null) [maxDate].  [endDate] is the anchor
    object itself. *)
Definition getDateRange (now : Z) (range : PredefinedRange) (maxDate : option Date)
  : Picker.IDateRange :=
  let endDate :=
    match maxDate with
    | Some d => d
    | None => new_Date_now now
    end in
  let startDate := new_Date_copy endDate in
  let startDate :=
    match range with
    | CUSTOM => startDate
    | _ => setDate startDate (num_add (getDate endDate) (- range_days range))
    end in
  {| Picker.startDate := startDate; Picker.endDate := endDate |}.

Definition isValidDateRange (start end_ : Date) : bool := le start end_.

(** One turn of the loop of [findMinMaxDates] over the running [(min, max)]. *)
Definition minmax_step (parse : JsValue -> Date) (acc : option Date * option Date)
           (v : JsValue) : option Date * option Date :=
  let '(min, max) := acc in
  let dt := parse v in
  if negb (isNaN (getTime dt)) then
    let min' :=
      match min with
      | None => Some dt
      | Some m => if lt dt m then Some dt else min
      end in
    let max' :=
      match max with
      | None => Some dt
      | Some m => if gt dt m then Some dt else max
      end in
    (min', max')
  else (min, max).

(** The loop, for the parser in use. *)
Definition scanMinMax (parse : JsValue -> Date) (arr : list JsValue) : MinMax :=
  let '(min, max) := fold_left (minmax_step parse) arr (None, None) in
  {| minDate := min; maxDate := max |}.

(** [findMinMaxDates(arr)]; [None] is a null array. *)
Definition findMinMaxDates (arr : option (list JsValue)) : MinMax :=
  match arr with
  | None | Some [] => {| minDate := None; maxDate := None |}
  | Some arr => scanMinMax parseDate arr
  end.

End WithEngine.
End DateUtils.

(** ** The host, and what a run does to it *)

Record FilterTarget : Type := {
  table : string;
  column : string
}.

Record FilterCondition : Type := {
  operator : string;
  value : string
}.

(** The JSON of an advanced filter, as the host receives it. *)
Record AdvancedFilter : Type := {
  schema : string;
  target : FilterTarget;
  logicalOperator : string;
  conditions : list FilterCondition;
  filterType : option Z
}.

(** What a call of a host function does: it returns, or throws an error with a message. *)
Inductive Outcome : Type :=
| Returns
| Throws (message : string).

Record HostFilterManager : Type := {
  fm_applyFilter : option (AdvancedFilter -> Outcome);
  fm_clear : option Outcome
}.

Record SelectionManager : Type := {
  sm_clear : option Outcome
}.

(** The capabilities of a host; [None] is a member the host does not have.
    [createSelectionManager], where the host has it, returns a manager. *)
Record Host : Type := {
  applyJsonFilter : option (option AdvancedFilter -> string -> string -> Z -> Outcome);
  filterManager : option HostFilterManager;
  createSelectionManager : option SelectionManager
}.

(** What an observer of a run sees, in order: the messages shown to the user,
    the console lines (by their fixed text; interpolated values are left out)
    and the calls that reach the host. *)
Inductive Event : Type :=
| ShowSuccess (message : string)
| ShowError (message : string)
| ConsoleLog (text : string)
| ConsoleWarn (text : string)
| ConsoleError (text : string)
| HostApplyJsonFilter (filter : option AdvancedFilter) (scope property : string) (action : Z)
| HostFilterManagerApply (filter : AdvancedFilter)
| HostFilterManagerClear
| HostCreateSelectionManager
| HostSelectionManagerClear.

(** An event that is a call of one of the host's filter or selection functions. *)
Definition is_host_call (e : Event) : bool :=
  match e with
  | HostApplyJsonFilter _ _ _ _ | HostFilterManagerApply _ | HostFilterManagerClear
  | HostCreateSelectionManager | HostSelectionManagerClear => true
  | _ => false
  end.

Definition is_error_message (e : Event) : bool :=
  match e with
  | ShowError _ => true
  | _ => false
  end.

Definition is_success_message (e : Event) : bool :=
  match e with
  | ShowSuccess _ => true
  | _ => false
  end.

(** Runs with a trace of events and exceptions. *)
Module Eff.

Inductive Result (A : Type) : Type :=
| Done (a : A)
| Raised (message : string).
Arguments Done {A} a.
Arguments Raised {A} message.

Definition t (A : Type) : Type := (list Event * Result A)%type.

Definition ret {A} (a : A) : t A := ([], Done a).

Definition bind {A B} (m : t A) (f : A -> t B) : t B :=
  match m with
  | (tr, Done a) => let '(tr', r) := f a in ((tr ++ tr')%list, r)
  | (tr, Raised e) => (tr, Raised e)
  end.

Definition emit (e : Event) : t unit := ([e], Done tt).

Definition raise {A} (message : string) : t A := ([], Raised message).

(** [try { body } catch (e) { handler(e) }]. *)
Definition try_catch {A} (body : t A) (handler : string -> t A) : t A :=
  match body with
  | (tr, Done a) => (tr, Done a)
  | (tr, Raised e) => let '(tr', r) := handler e in ((tr ++ tr')%list, r)
  end.

(** A call of a host function: the call is seen, then it returns or throws. *)
Definition call (e : Event) (o : Outcome) : t unit :=
  bind (emit e) (fun _ =>
    match o with
    | Returns => ret tt
    | Throws message => raise message
    end).

Definition trace {A} (m : t A) : list Event := fst m.

Definition completed {A} (m : t A) : bool :=
  match snd m with
  | Done _ => true
  | Raised _ => false
  end.

End Eff.

Declare Scope eff_scope.
Delimit Scope eff_scope with eff.
Notation "x <- m ;; k" := (Eff.bind m (fun x => k))
  (at level 61, m at next level, right associativity) : eff_scope.
Notation "m ;; k" := (Eff.bind m (fun _ => k))
  (at level 61, right associativity) : eff_scope.

(** The error of calling a member the host does not have. *)
Definition not_a_function : string := "TypeError: not a function".

(** [host.applyJsonFilter(filter, scope, property, action)]. *)
Definition call_applyJsonFilter (host : Host) (filter : option AdvancedFilter)
           (scope property : string) (action : Z) : Eff.t unit :=
  match applyJsonFilter host with
  | Some f =>
      Eff.call (HostApplyJsonFilter filter scope property action)
               (f filter scope property action)
  | None => Eff.raise not_a_function
  end.

(** ** The single-file visual: [FilterService] *)

Module FilterService.
Section WithEngine.
Context {K : Clock}.

(** The fields of the service; messages go out as events. *)
Record State : Type := {
  host : Host;
  dateColumn : option Picker.IDateColumnInfo
}.

Definition setDateColumn (column : option Picker.IDateColumnInfo) (st : State) : State :=
  {| host := host st; dateColumn := column |}.

Definition getTargetFromQueryName (qn displayName : string) : FilterTarget :=
  if Str.is_empty qn then
    {| table := "Table"; column := Str.or_else displayName "Date" |}
  else if Str.contains_char "." qn then
    let parts := Str.split_on "." qn in
    {| table := nth 0 parts "";
       column := Str.or_else (nth 1 parts "") (Str.or_else displayName "Date") |}
  else
    match Regex.match_bracket qn with
    | Some (g1, g2) => {| table := g1; column := g2 |}
    | None => {| table := "Table"; column := Str.or_else displayName qn |}
    end.

Definition formatDateForDirectQuery (date : Date) (isStart : bool) : string :=
  let y := Str.NumberToString (getFullYear date) in
  let m := DateUtils.pad2 (num_add (getMonth date) 1) in
  let d := DateUtils.pad2 (getDate date) in
  if isStart
  then (y ++ "-" ++ m ++ "-" ++ d ++ "T00:00:00.000")%string
  else (y ++ "-" ++ m ++ "-" ++ d ++ "T23:59:59.999")%string.

(** [new models.AdvancedFilter(target, logicalOperator, conditions)] of
    powerbi-models, as its JSON: the three arguments under the schema of
    advanced filters, with the filter type that the constructor sets
    ([FilterType.Advanced], 0). *)
Definition models_AdvancedFilter (target : FilterTarget) (logicalOperator : string)
           (conditions : list FilterCondition) : AdvancedFilter :=
  {| schema := "http://powerbi.com/product/schema#advanced";
     target := target;
     logicalOperator := logicalOperator;
     conditions := conditions;
     filterType := Some 0 |}.

Definition createAdvancedFilter (st : State) (dateRange : Picker.IDateRange)
  : option AdvancedFilter :=
  match dateColumn st with
  | None => None
  | Some col =>
      let targetObj := getTargetFromQueryName (Picker.queryName col) (Picker.displayName col) in
      let target := {| table := table targetObj; column := column targetObj |} in
      let start := formatDateForDirectQuery (Picker.startDate dateRange) true in
      let end_ := formatDateForDirectQuery (Picker.endDate dateRange) false in
      let conditions :=
        [ {| operator := "GreaterThanOrEqual"; value := start |};
          {| operator := "LessThanOrEqual"; value := end_ |} ] in
      Some (models_AdvancedFilter target "And" conditions)
  end.

(** [FilterAction.merge] and [FilterAction.remove] of the visuals API, which
    are also the fall-back values of the sources. *)
Definition MERGE : Z := 0.
Definition REMOVE : Z := 1.

Definition applyFilter (st : State) (dateRange : Picker.IDateRange) : Eff.t unit :=
  match dateColumn st with
  | None => Eff.emit (ShowError "Unable to apply filter - add a date field")
  | Some _ =>
      Eff.try_catch
        (match createAdvancedFilter st dateRange with
         | None => Eff.emit (ShowError "Filter couldn't be built")
         | Some filter =>
             (call_applyJsonFilter (host st) (Some filter) "general" "filter" MERGE ;;
              Eff.emit (ShowSuccess "Filter applied successfully!"))%eff
         end)
        (fun e =>
           (Eff.emit (ConsoleError e) ;;
            Eff.emit (ShowError "Error applying filter."))%eff)
  end.

Definition clearFilter (st : State) : Eff.t unit :=
  Eff.try_catch
    (call_applyJsonFilter (host st) None "general" "filter" REMOVE ;;
     Eff.emit (ShowSuccess "All filters cleared - showing full data"))%eff
    (fun e =>
       (Eff.emit (ConsoleError e) ;;
        Eff.emit (ShowError "Error clearing filters."))%eff).

End WithEngine.
End FilterService.

(** ** The data view of a host update *)

Record ValueTypeDescriptor : Type := {
  dateTime : bool;
  date : bool
}.

(** [roles["date"]] and [roles["category"]] of a column. *)
Record ColumnRoles : Type := {
  role_date : bool;
  role_category : bool
}.

Record SQExprSource : Type := {
  entity : string
}.

Record SQExpr : Type := {
  source : option SQExprSource
}.

Record MetadataColumn : Type := {
  m_displayName : string;
  m_queryName : string;
  m_roles : option ColumnRoles;
  m_type : option ValueTypeDescriptor;
  m_expr : option SQExpr
}.

Record CategoryColumn : Type := {
  cat_source : MetadataColumn;
  cat_values : option (list JsValue)
}.

Record DataViewMetadata : Type := {
  md_columns : option (list MetadataColumn)
}.

Record DataView : Type := {
  dv_metadata : option DataViewMetadata;
  dv_categories : option (list CategoryColumn);  (* categorical.categories *)
  dv_rows : option (list (list JsValue))         (* table.rows *)
}.

(** ** services/FilterManager.ts *)

Module FilterManager.

Record State : Type := {
  dateColumnTarget : option SQExpr;
  dateColumnName : option string;
  tableQualifiedName : option string
}.

Definition initial : State :=
  {| dateColumnTarget := None; dateColumnName := None; tableQualifiedName := None |}.

(** A nullable string that is neither null nor empty. *)
Definition truthy_name (s : option string) : option string :=
  match s with
  | Some n => if Str.is_empty n then None else Some n
  | None => None
  end.

Definition isValidDateRange (dateRange : option IDateRange) : bool :=
  match dateRange with
  | None => false
  | Some r => le (startDate r) (endDate r)
  end.

Definition invalid_time : string := "RangeError: Invalid time value".

(** [d.toISOString()] inside a run. *)
Definition isoString (d : Date) : Eff.t string :=
  match toISOString d with
  | Some s => Eff.ret s
  | None => Eff.raise invalid_time
  end.

Definition applyDateFilter (st : State) (dateRange : option IDateRange) (host : Host)
  : Eff.t unit :=
  Eff.try_catch
    (match dateColumnTarget st, truthy_name (dateColumnName st),
           truthy_name (tableQualifiedName st) with
     | Some _, Some columnName, Some tableName =>
         match dateRange with
         | Some r =>
             if isValidDateRange dateRange then
               (startValue <- isoString (startDate r) ;;
                endValue <- isoString (endDate r) ;;
                let filter :=
                  {| schema := "https://powerbi.com/product/schema#advanced";
                     target := {| table := tableName; column := columnName |};
                     logicalOperator := "And";
                     conditions :=
                       [ {| operator := "GreaterThanOrEqual"; value := startValue |};
                         {| operator := "LessThanOrEqual"; value := endValue |} ];
                     filterType := None |} in
                call_applyJsonFilter host (Some filter) "general" "filter" 0 ;;
                Eff.emit (ConsoleLog "Applied date filter"))%eff
             else Eff.emit (ConsoleError "Invalid date range provided for filtering")
         | None => Eff.emit (ConsoleError "Invalid date range provided for filtering")
         end
     | _, _, _ => Eff.emit (ConsoleWarn "No date column available for filtering")
     end)
    (fun _ => Eff.emit (ConsoleError "Error applying date filter:")).

Definition clearFilters (host : Host) : Eff.t unit :=
  Eff.try_catch
    (call_applyJsonFilter host None "general" "filter" 1 ;;
     Eff.emit (ConsoleLog "Cleared all date filters"))%eff
    (fun _ => Eff.emit (ConsoleError "Error clearing filters:")).

Definition is_dateTime (c : MetadataColumn) : bool :=
  match m_type c with
  | Some ty => dateTime ty
  | None => false
  end.

(** [hasDateColumn(dataView)]: the answer and the fields after the call;
    [None] is a null data view.  Nothing in the body can throw on these
    data, so the [catch] of the source is not reached. *)
Definition hasDateColumn (st : State) (dataView : option DataView) : bool * State :=
  match dataView with
  | None => (false, st)
  | Some dv =>
      match dv_metadata dv with
      | None => (false, st)
      | Some metadata =>
          match md_columns metadata with
          | None => (false, st)
          | Some columns =>
              match find is_dateTime columns with
              | Some dateColumn =>
                  match m_expr dateColumn with
                  | Some expr =>
                      let table' :=
                        match source expr with
                        | Some src => Some (Str.or_else (entity src) "Table")
                        | None => tableQualifiedName st
                        end in
                      (true,
                       {| dateColumnTarget := Some expr;
                          dateColumnName :=
                            Some (Str.or_else (m_displayName dateColumn) "Date");
                          tableQualifiedName := table' |})
                  | None => (false, st)
                  end
              | None => (false, st)
              end
          end
      end
  end.

Definition getDateColumnTarget (st : State) : option SQExpr := dateColumnTarget st.

Definition setDateColumnTarget (target : SQExpr) (columnName tableName : string) : State :=
  {| dateColumnTarget := Some target;
     dateColumnName := Some columnName;
     tableQualifiedName := Some tableName |}.

End FilterManager.

(** ** The single-file visual: [DateTimePickerVisual] *)

Module DateTimePickerVisual.
Section WithEngine.
Context {K : Clock}.

(** The fields of the visual that the binding logic reads and writes; the
    widgets it redraws are left out. *)
Record State : Type := {
  dateColumn : option Picker.IDateColumnInfo;
  filterService : FilterService.State
}.

Definition is_date_type (c : MetadataColumn) : bool :=
  match m_type c with
  | Some ty => dateTime ty || date ty
  | None => false
  end.

Definition has_date_role (c : MetadataColumn) : bool :=
  match m_roles c with
  | Some r => role_date r || role_category r
  | None => false
  end.

(** The position of the first element that satisfies [p]. *)
Fixpoint find_index {A} (p : A -> bool) (l : list A) : option nat :=
  match l with
  | [] => None
  | x :: r => if p x then Some O else option_map S (find_index p r)
  end.

(** [pickMetaDateCol()], with the place of the column in [metaCols]
    (the column was found from the front, so [indexOf] gives that place). *)
Definition pickMetaDateCol (metaCols : list MetadataColumn)
  : option (MetadataColumn * nat) :=
  let both := fun c => has_date_role c && is_date_type c in
  match find both metaCols, find_index both metaCols with
  | Some c, Some i => Some (c, i)
  | _, _ =>
      match find is_date_type metaCols, find_index is_date_type metaCols with
      | Some c, Some i => Some (c, i)
      | _, _ => None
      end
  end.

(** [d || fallback] on a nullable Date. *)
Definition date_or (d : option Date) (fallback : Date) : Date :=
  match d with
  | Some x => x
  | None => fallback
  end.

Definition wide_minDate : Date := new_Date_ymd (Int 1900) (Int 0) (Int 1).

Definition wide_maxDate (now : Z) : Date :=
  new_Date_ymd (num_add (getFullYear (new_Date_now now)) 10) (Int 11) (Int 31).

Definition bind_column (now : Z) (c : MetadataColumn) (mm : MinMax) : Picker.IDateColumnInfo :=
  {| Picker.displayName := Str.or_else (m_displayName c) "Date";
     Picker.queryName := Str.or_else (m_queryName c) "";
     Picker.minDate := Some (date_or (minDate mm) wide_minDate);
     Picker.maxDate := Some (date_or (maxDate mm) (wide_maxDate now)) |}.

(** The column that [updateDataColumnInfo] binds from the first data view
    of an update ([None]: no data view), when the clock reads [now]. *)
Definition discover (now : Z) (dv : option DataView) : option Picker.IDateColumnInfo :=
  let cats := match dv with Some v => dv_categories v | None => None end in
  let metaCols :=
    match dv with
    | Some v =>
        match dv_metadata v with
        | Some md => match md_columns md with Some cs => cs | None => [] end
        | None => []
        end
    | None => []
    end in
  match cats with
  | Some (first :: more) =>
      let cat :=
        match find (fun c => has_date_role (cat_source c) || is_date_type (cat_source c))
                   (first :: more) with
        | Some c => c
        | None => first
        end in
      let mm :=
        DateUtils.findMinMaxDates
          (Some (match cat_values cat with Some vs => vs | None => [] end)) in
      Some (bind_column now (cat_source cat) mm)
  | _ =>
      match pickMetaDateCol metaCols with
      | Some (metaDate, idx) =>
          let mm :=
            match (match dv with Some v => dv_rows v | None => None end) with
            | Some rows =>
                DateUtils.findMinMaxDates
                  (Some (map (fun r => nth idx r VUndefined) rows))
            | None => {| minDate := None; maxDate := None |}
            end in
          Some (bind_column now metaDate mm)
      | None => None
      end
  end.

(** [updateDataColumnInfo(options)]: the binding is rebuilt from the update
    and handed to the filter service, also when it is null. *)
Definition updateDataColumnInfo (now : Z) (st : State) (dv : option DataView) : State :=
  let col := discover now dv in
  {| dateColumn := col;
     filterService := FilterService.setDateColumn col (filterService st) |}.

End WithEngine.
End DateTimePickerVisual.

(** ** The single-file visual written for DirectQuery models *)

Module DirectQuery.
Section WithEngine.
Context {K : Clock}.

(** [new Date(item)] for a value of any kind. *)
Definition new_Date_value (item : JsValue) : Date :=
  match item with
  | VUndefined => NaN
  | VNull => TimeClip 0
  | VString s => new_Date_string s
  | VNumber NaN => NaN
  | VNumber (Int n) => TimeClip n
  | VDate d => new_Date_copy d
  end.

Definition parseDate (dateString : string) : Date := new_Date_string dateString.

(** [findMinMaxDates(data)]; [None] is a null array.  The loop is the one
    of [DateUtils.findMinMaxDates], over [new Date(item)]. *)
Definition findMinMaxDates (data : option (list JsValue)) : MinMax :=
  match data with
  | None | Some [] => {| minDate := None; maxDate := None |}
  | Some data => DateUtils.scanMinMax new_Date_value data
  end.

Record State : Type := {
  host : option Host;
  dateColumn : option Picker.IDateColumnInfo
}.

Definition setDateColumn (column : option Picker.IDateColumnInfo) (st : State) : State :=
  {| host := host st; dateColumn := column |}.

Definition formatDateForDirectQuery (date : Date) (isStartDate : bool) : string :=
  let year := Str.NumberToString (getFullYear date) in
  let month := DateUtils.pad2 (num_add (getMonth date) 1) in
  let day := DateUtils.pad2 (getDate date) in
  if isStartDate
  then (year ++ "-" ++ month ++ "-" ++ day ++ "T00:00:00.000")%string
  else (year ++ "-" ++ month ++ "-" ++ day ++ "T23:59:59.999")%string.

Definition createAdvancedFilter (st : State) (dateRange : Picker.IDateRange)
  : option AdvancedFilter :=
  match dateColumn st with
  | None => None
  | Some col =>
      let queryName := Str.or_else (Picker.queryName col) (Picker.displayName col) in
      let tableName :=
        if Str.contains_char "." queryName
        then nth 0 (Str.split_on "." queryName) ""
        else "Table" in
      let columnName :=
        if Str.contains_char "." queryName
        then nth 1 (Str.split_on "." queryName) ""
        else queryName in
      Some {| schema := "http://powerbi.com/product/schema#advanced";
              target := {| table := tableName; column := columnName |};
              logicalOperator := "And";
              conditions :=
                [ {| operator := "GreaterThanOrEqual";
                     value := formatDateForDirectQuery (Picker.startDate dateRange) true |};
                  {| operator := "LessThanOrEqual";
                     value := formatDateForDirectQuery (Picker.endDate dateRange) false |} ];
              filterType := Some 6 |}
  end.

Definition applyFilter (st : State) (dateRange : Picker.IDateRange) : Eff.t unit :=
  match dateColumn st with
  | None => Eff.emit (ShowError "Unable to apply filter - add a date field")
  | Some _ =>
      Eff.try_catch
        (match createAdvancedFilter st dateRange, host st with
         | Some filter, Some h =>
             match createSelectionManager h with
             | Some _ =>
                 (Eff.emit HostCreateSelectionManager ;;
                  match filterManager h with
                  | Some {| fm_applyFilter := Some apply |} =>
                      Eff.call (HostFilterManagerApply filter) (apply filter) ;;
                      Eff.emit (ShowSuccess "Filter applied successfully!")
                  | _ =>
                      match applyJsonFilter h with
                      | Some _ =>
                          call_applyJsonFilter h (Some filter) "general" "filter" 2 ;;
                          Eff.emit (ShowSuccess "Filter applied successfully!")
                      | None =>
                          Eff.emit
                            (ShowError "Filter API not available for this data source")
                      end
                  end)%eff
             | None => Eff.emit (ShowError "Filter service not available")
             end
         | _, _ => Eff.emit (ShowError "Filter service not available")
         end)
        (fun _ =>
           (Eff.emit (ConsoleError "Filter error:") ;;
            Eff.emit (ShowError "Error applying filter. DirectQuery may have limitations."))%eff)
  end.

(** Method 1 of [clearFilter]: the filter manager; the flag [filterCleared] after it. *)
Definition clear_by_filterManager (st : State) : Eff.t bool :=
  match host st with
  | Some {| filterManager := Some {| fm_clear := Some o |} |} =>
      (Eff.call HostFilterManagerClear o ;;
       Eff.emit (ConsoleLog "Filters cleared using filterManager.clear()") ;;
       Eff.ret true)%eff
  | _ => Eff.ret false
  end.

(** Method 2: the general scope, then the advanced scope. *)
Definition clear_by_applyJsonFilter (st : State) (filterCleared : bool) : Eff.t bool :=
  match host st with
  | Some h =>
      match applyJsonFilter h with
      | Some _ =>
          (call_applyJsonFilter h None "general" "filter" 1 ;;
           call_applyJsonFilter h None "advanced" "filter" 1 ;;
           Eff.emit (ConsoleLog "Filters cleared using applyJsonFilter(null)") ;;
           Eff.ret true)%eff
      | None => Eff.ret filterCleared
      end
  | None => Eff.ret filterCleared
  end.

(** Method 3: the selection manager. *)
Definition clear_selection (st : State) : Eff.t unit :=
  match host st with
  | Some {| createSelectionManager := Some sm |} =>
      (Eff.emit HostCreateSelectionManager ;;
       match sm_clear sm with
       | Some o =>
           Eff.call HostSelectionManagerClear o ;;
           Eff.emit (ConsoleLog "Selection manager cleared")
       | None => Eff.ret tt
       end)%eff
  | _ => Eff.ret tt
  end.

Definition clearFilter (st : State) : Eff.t unit :=
  Eff.try_catch
    (Eff.emit (ConsoleLog "Clearing all filters to restore full data access") ;;
     filterCleared <- clear_by_filterManager st ;;
     filterCleared <- clear_by_applyJsonFilter st filterCleared ;;
     clear_selection st ;;
     if filterCleared : bool then
       Eff.emit (ShowSuccess "All filters cleared - showing full data") ;;
       Eff.emit
         (ConsoleLog
            "All filters cleared successfully - full dataset should now be accessible")
     else
       Eff.emit (ShowError "Unable to clear filters - API not available") ;;
       Eff.emit (ConsoleWarn "No filter clearing methods were available"))%eff
    (fun e =>
       (Eff.emit (ConsoleError "Clear filter error:") ;;
        Eff.emit (ShowError ("Error clearing filters: " ++ e)))%eff).

End WithEngine.
End DirectQuery.

(** ** Notions the statements below are written in *)

Module Civil.
Section WithEngine.
Context {K : Clock}.

(** The day number, in local time, on which a moment falls. *)
Definition local_day (t : Z) : Z := Day (LocalTime t).

(** The moments that the zone gives the first and the last millisecond of
    the local day of a date (00:00:00.000 and 23:59:59.999 where these are
    on the clock, see [on_the_clock]). *)
Definition start_of_day (d : Date) : Date :=
  match d with
  | NaN => NaN
  | Int t => Int (UTC (local_day t * msPerDay))
  end.

Definition end_of_day (d : Date) : Date :=
  match d with
  | NaN => NaN
  | Int t => Int (UTC (local_day t * msPerDay + (msPerDay - 1)))
  end.

(** [n] times 24 hours earlier: the same time of day, [n] days earlier, in a
    zone that keeps its offset. *)
Definition days_before (n : Z) (d : Date) : Date :=
  match d with
  | NaN => NaN
  | Int t => Int (t - n * msPerDay)
  end.

(** The civil fields of a date, as its getters give them. *)
Definition civil_date (d : Date) : Number * Number * Number :=
  (getFullYear d, getMonth d, getDate d).

Definition time_of_day (d : Date) : Number * Number * Number * Number :=
  (getHours d, getMinutes d, getSeconds d, getMilliseconds d).

(** The offset of local time from UTC at the moment [t]. *)
Definition offset_at (t : Z) : Z := LocalTime t - t.

(** The local time [lt] is on the clock: the moment that the standard gives
    it is a time value, and the clocks show [lt] at that moment.  A local
    time that a change of offset skips is not on the clock. *)
Definition on_the_clock (lt : Z) : Prop :=
  Z.abs (UTC lt) <= maxTimeValue /\ LocalTime (UTC lt) = lt.

End WithEngine.

(** Moments from which the sources' day arithmetic (up to 91 days back, to
    the end of the day forward) stays among the time values. *)
Definition in_window (t : Z) : Prop :=
  - maxTimeValue + 91 * msPerDay <= t <= maxTimeValue - msPerDay.


(** The days a preset reaches back. *)
Definition preset_days (rangeType : DateRangeType) : Z :=
  match rangeType with
  | Last7Days => 7
  | Last30Days => 30
  | Last90Days => 90
  | Custom => 0
  end.

(** The text after the first occurrence of [c]. *)
Fixpoint after_char (c : ascii) (s : string) : option string :=
  match s with
  | EmptyString => None
  | String d r => if Str.eqb_ascii c d then Some r else after_char c r
  end.

(** The filter that [FilterManager.applyDateFilter] builds. *)
Definition manager_filter (tableName columnName startValue endValue : string)
  : AdvancedFilter :=
  {| schema := "https://powerbi.com/product/schema#advanced";
     target := {| table := tableName; column := columnName |};
     logicalOperator := "And";
     conditions :=
       [ {| operator := "GreaterThanOrEqual"; value := startValue |};
         {| operator := "LessThanOrEqual"; value := endValue |} ];
     filterType := None |}.

(** The filters handed to the host in a run, in order. *)
Fixpoint filters_sent (tr : list Event) : list AdvancedFilter :=
  match tr with
  | [] => []
  | HostApplyJsonFilter (Some f) _ _ _ :: r => f :: filters_sent r
  | HostFilterManagerApply f :: r => f :: filters_sent r
  | _ :: r => filters_sent r
  end.

Definition host_calls (tr : list Event) : list Event := filter is_host_call tr.

Definition shows_success (tr : list Event) : bool := existsb is_success_message tr.
Definition shows_error (tr : list Event) : bool := existsb is_error_message tr.

(** Every call of the host that a run of [clearFilter] can make returns. *)
Definition host_returns (h : Host) : Prop :=
  (forall f, applyJsonFilter h = Some f -> forall a b c d, f a b c d = Returns)
  /\ (forall fm o, filterManager h = Some fm -> fm_clear fm = Some o -> o = Returns)
  /\ (forall sm o, createSelectionManager h = Some sm -> sm_clear sm = Some o -> o = Returns).

Definition filterManager_clear_returns (h : Host) : Prop :=
  forall fm o, filterManager h = Some fm -> fm_clear fm = Some o -> o = Returns.

(** The host has one of the two capabilities that set [filterCleared]. *)
Definition has_clearing_capability (h : Host) : bool :=
  match filterManager h, applyJsonFilter h with
  | Some {| fm_clear := Some _ |}, _ => true
  | _, Some _ => true
  | _, _ => false
  end.

(** The characters of a formatted date: digits, the sign, and the letters of "NaN". *)
Definition date_char (c : ascii) : bool :=
  Str.is_digit c || Str.eqb_ascii c "-" || Str.eqb_ascii c "N" || Str.eqb_ascii c "a".

(** What [findMinMaxDates] promises of its result [r] on [arr], for the
    parser [parse] in use. *)
Definition extremes_of (parse : JsValue -> Date) (arr : option (list JsValue))
           (r : MinMax) : Prop :=
  (minDate r = None <-> maxDate r = None)
  /\ (forall lo hi, minDate r = Some lo -> maxDate r = Some hi ->
        le lo hi = true
        /\ exists l, arr = Some l
             /\ (exists x, In x l /\ parse x = lo)
             /\ (exists y, In y l /\ parse y = hi)
             /\ (forall z, In z l ->
                   parse z = NaN \/ (le lo (parse z) = true /\ le (parse z) hi = true)))
  /\ ((forall l, arr = Some l -> forall x, In x l -> parse x = NaN) ->
      minDate r = None /\ maxDate r = None).

(** What the loop of [findMinMaxDates] keeps true of its two variables once
    it has read the values [seen]. *)
Definition scan_inv (parse : JsValue -> Date) (seen : list JsValue)
           (acc : option Date * option Date) : Prop :=
  (acc = (None, None) /\ forall x, In x seen -> parse x = NaN)
  \/ exists a b,
       acc = (Some (Int a), Some (Int b)) /\ a <= b
       /\ (exists x, In x seen /\ parse x = Int a)
       /\ (exists y, In y seen /\ parse y = Int b)
       /\ (forall z n, In z seen -> parse z = Int n -> a <= n <= b).

(** The text [dddd-dd-dd]. *)
Definition iso_text (a b c d e f g h : ascii) : string :=
  (Regex.str4 a b c d ++ "-" ++ Regex.str2 e f ++ "-" ++ Regex.str2 g h)%string.

(** The integers from [lo], [n] of them. *)
Definition Z_range (lo n : Z) : list Z :=
  map (fun i => lo + Z.of_nat i) (seq 0 (Z.to_nat n)).

End Civil.

(** ** Engines for the worked examples *)

Module Engines.

(** The number of days of month [m] (1 = January) of year [y]. *)
Definition days_in_month (y m : Z) : Z :=
  if m =? 12 then 31
  else DaysBeforeMonth (IsLeapYear y) m - DaysBeforeMonth (IsLeapYear y) (m - 1).

(** The time value of a date-only string: UTC midnight of a real civil date. *)
Definition utc_midnight (y m d : Z) : Number :=
  if (1 <=? m) && (m <=? 12) && (1 <=? d) && (d <=? days_in_month y m)
  then TimeClip (MakeDate (MakeDay y (m - 1) d) 0)
  else NaN.

(** [-MM-DD] after the year. *)
Definition month_and_day (s : string) : option (Z * Z) :=
  match s with
  | String h1 (String m1 (String m2 (String h2 (String d1 (String d2 EmptyString))))) =>
      if Str.eqb_ascii h1 "-" && Str.is_digit m1 && Str.is_digit m2
         && Str.eqb_ascii h2 "-" && Str.is_digit d1 && Str.is_digit d2
      then Some (Str.digits_value (Regex.str2 m1 m2), Str.digits_value (Regex.str2 d1 d2))
      else None
  | _ => None
  end.

(** A [Date.parse] that reads the date-only forms of the standard's date-time
    string format, [YYYY-MM-DD] and the expanded years [+YYYYYY-MM-DD] and
    [-YYYYYY-MM-DD], as UTC (which the standard fixes for these forms), and
    no other string. *)
Definition parse_date_only (s : string) : Number :=
  match s with
  | String c0 (String c1 (String c2 (String c3 (String c4 (String c5 (String c6 rest)))))) =>
      if (Str.eqb_ascii c0 "+" || Str.eqb_ascii c0 "-")
         && Str.all_chars Str.is_digit (String c1 (String c2 (String c3 (String c4
              (String c5 (String c6 EmptyString))))))
      then
        let n := Str.digits_value (String c1 (String c2 (String c3 (String c4
                   (String c5 (String c6 EmptyString)))))) in
        match month_and_day rest with
        | Some (m, d) =>
            if Str.eqb_ascii c0 "-"
            then if n =? 0 then NaN else utc_midnight (- n) m d
            else utc_midnight n m d
        | None => NaN
        end
      else if Str.all_chars Str.is_digit (Regex.str4 c0 c1 c2 c3)
      then
        match month_and_day (String c4 (String c5 (String c6 rest))) with
        | Some (m, d) => utc_midnight (Str.digits_value (Regex.str4 c0 c1 c2 c3)) m d
        | None => NaN
        end
      else NaN
  | _ => NaN
  end.

(** Local time is UTC. *)
Definition utc : Engine :=
  {| LocalTZA := 0;
     LocalTZA_bound := conj eq_refl eq_refl;
     DateParse := parse_date_only |}.

(** Local time is five hours behind UTC. *)
Definition utc_minus_5 : Engine :=
  {| LocalTZA := - 18000000;
     LocalTZA_bound := conj eq_refl eq_refl;
     DateParse := parse_date_only |}.

(** America/Havana in 2024: five hours behind UTC, and four hours behind from
    2024-03-10, when the clocks go from 00:00 straight to 01:00 (at 05:00
    UTC), to 2024-11-03, when they go from 01:00 back to 00:00. *)
Definition havana_2024 : Clock :=
  zone_clock
    {| first_offset := - 5 * msPerHour;
       changes :=
         [ (MakeDate (MakeDay 2024 2 10) (MakeTime 5 0 0 0), - 4 * msPerHour);
           (MakeDate (MakeDay 2024 10 3) (MakeTime 5 0 0 0), - 5 * msPerHour) ] |}
    parse_date_only.

(** America/New_York in 2024: five hours behind UTC, and four hours behind
    from 2024-03-10, when the clocks go from 02:00 to 03:00 (at 07:00 UTC),
    to 2024-11-03, when they go from 02:00 back to 01:00. *)
Definition new_york_2024 : Clock :=
  zone_clock
    {| first_offset := - 5 * msPerHour;
       changes :=
         [ (MakeDate (MakeDay 2024 2 10) (MakeTime 7 0 0 0), - 4 * msPerHour);
           (MakeDate (MakeDay 2024 10 3) (MakeTime 6 0 0 0), - 5 * msPerHour) ] |}
    parse_date_only.

End Engines.

(** ** Hosts and updates for the worked examples *)

Module Examples.

(** A host that has [applyJsonFilter] only, and accepts every filter. *)
Definition accepting_host : Host :=
  {| applyJsonFilter := Some (fun _ _ _ _ => Returns);
     filterManager := None;
     createSelectionManager := None |}.

(** A host that has [applyJsonFilter] only, and rejects the scope "advanced". *)
Definition general_scope_only_host : Host :=
  {| applyJsonFilter :=
       Some (fun _ scope _ _ =>
               if String.eqb scope "advanced"
               then Throws "unsupported scope"
               else Returns);
     filterManager := None;
     createSelectionManager := None |}.

Definition order_date_column : MetadataColumn :=
  {| m_displayName := "OrderDate";
     m_queryName := "Sales.OrderDate";
     m_roles := Some {| role_date := true; role_category := false |};
     m_type := Some {| dateTime := true; date := false |};
     m_expr := Some {| source := Some {| entity := "Sales" |} |} |}.

Definition amount_column : MetadataColumn :=
  {| m_displayName := "Amount";
     m_queryName := "Sales.Amount";
     m_roles := None;
     m_type := Some {| dateTime := false; date := false |};
     m_expr := Some {| source := Some {| entity := "Sales" |} |} |}.

(** An update whose data view holds the date column [Sales.OrderDate]. *)
Definition update_with_date_column : option DataView :=
  Some {| dv_metadata := Some {| md_columns := Some [amount_column; order_date_column] |};
          dv_categories := None;
          dv_rows := None |}.

(** An update whose data view holds no date-typed column. *)
Definition update_without_date_column : option DataView :=
  Some {| dv_metadata := Some {| md_columns := Some [amount_column] |};
          dv_categories := None;
          dv_rows := None |}.

(** 2024-12-31T00:00:00.000Z, 2024-12-31T13:00:00.000Z. *)
Definition dec_31_2024_midnight : Z := 1735603200000.
Definition dec_31_2024_afternoon : Z := 1735650000000.

(** 2024-03-20T15:00:00.000Z and 2024-03-10T12:00:00.000Z. *)
Definition mar_20_2024_15h : Z := 1710946800000.
Definition mar_10_2024_noon : Z := 1710072000000.

Definition mar_10_2025_09h : Z := 1741597200000.

(** 06:00 UTC of 1 January of the year -100000: one in the morning, local
    time, five hours behind UTC. *)
Definition jan_1_year_minus_100000 : Z :=
  DayFromYear (-100000) * msPerDay + 6 * msPerHour.

End Examples.

(** ** services/DebugLogger.ts *)

Module DebugLogger.
Section WithLocale.

(** [d.toLocaleTimeString()]: the text is the host locale's. *)
Variable toLocaleTimeString : Date -> string.

(** The buffer [debugLogs]; [maxLogs] is 50 and never assigned again. *)
Record State : Type := {
  debugLogs : list string
}.

Definition maxLogs : nat := 50.

Definition initial : State := {| debugLogs := [] |}.

(** [a.slice(-n)] for a positive [n]: the last [n] elements, all of them
    when there are fewer. *)
Definition slice_last {A : Type} (n : nat) (a : list A) : list A :=
  skipn (List.length a - n) a.

Definition addLog (log : string) (st : State) : Eff.t State :=
  let pushed := (debugLogs st ++ [log])%list in
  let kept :=
    if (maxLogs <? List.length pushed)%nat then slice_last maxLogs pushed else pushed in
  (Eff.emit (ConsoleLog log) ;;
   Eff.ret {| debugLogs := kept |})%eff.

(** The three entry points, called when the system clock reads [now]. *)
Definition logInfo (now : Z) (message : string) (st : State) : Eff.t State :=
  addLog ("[INFO] " ++ toLocaleTimeString (new_Date_now now) ++ ": " ++ message) st.

Definition logWarning (now : Z) (message : string) (st : State) : Eff.t State :=
  addLog ("[WARNING] " ++ toLocaleTimeString (new_Date_now now) ++ ": " ++ message) st.

Definition logError (now : Z) (message : string) (st : State) : Eff.t State :=
  addLog ("[ERROR] " ++ toLocaleTimeString (new_Date_now now) ++ ": " ++ message) st.

Definition getLogs (st : State) : list string := debugLogs st.

Definition clearLogs (st : State) : State := {| debugLogs := [] |}.

(** [debugLogs.join('\n')]. *)
Definition getFormattedLogs (st : State) : string :=
  String.concat (String "010" EmptyString) (debugLogs st).

End WithLocale.
End DebugLogger.

(** ** services/UIManager.ts: the handlers behind the controls *)

Module UIManager.
Section WithEngine.
Context {K : Clock}.

(** What the handlers read and write of the controls: the value of the range
    selector, the values of the two custom date inputs, whether the block of
    custom inputs is shown, whether the apply button is disabled, and the
    two callbacks.  [None] is a control that is still null (before
    [createUI]) or a callback that was not set. *)
Record State : Type := {
  rangeSelector : option DateRangeType;
  customStartDate : option string;
  customEndDate : option string;
  customDateContainer : option bool;
  applyButton : option bool;
  onApplyFilter : option (IDateRange -> Outcome);
  onClearFilter : option Outcome
}.

(** What a handler does besides changing the controls: the calls of the
    debug logger, with their messages, and the calls of the two callbacks. *)
Inductive Action : Type :=
| LogInfo (message : string)
| LogWarning (message : string)
| LogError (message : string)
| OnApplyFilter (dateRange : IDateRange)
| OnClearFilter.

(** The text of a caught error inside a template: an [Error] with the given message. *)
Definition error_text (message : string) : string := "Error: " ++ message.

(** The string value of the enum member. *)
Definition range_value (rangeType : DateRangeType) : string :=
  match rangeType with
  | Last7Days => "last7days"
  | Last30Days => "last30days"
  | Last90Days => "last90days"
  | Custom => "custom"
  end.


Definition set_customDateContainer (show : bool) (st : State) : State :=
  {| rangeSelector := rangeSelector st;
     customStartDate := customStartDate st;
     customEndDate := customEndDate st;
     customDateContainer := Some show;
     applyButton := applyButton st;
     onApplyFilter := onApplyFilter st;
     onClearFilter := onClearFilter st |}.

Definition set_rangeSelector (rangeType : DateRangeType) (st : State) : State :=
  {| rangeSelector := Some rangeType;
     customStartDate := customStartDate st;
     customEndDate := customEndDate st;
     customDateContainer := customDateContainer st;
     applyButton := applyButton st;
     onApplyFilter := onApplyFilter st;
     onClearFilter := onClearFilter st |}.

Definition setOnApplyFilter (handler : IDateRange -> Outcome) (st : State) : State :=
  {| rangeSelector := rangeSelector st;
     customStartDate := customStartDate st;
     customEndDate := customEndDate st;
     customDateContainer := customDateContainer st;
     applyButton := applyButton st;
     onApplyFilter := Some handler;
     onClearFilter := onClearFilter st |}.

Definition setOnClearFilter (handler : Outcome) (st : State) : State :=
  {| rangeSelector := rangeSelector st;
     customStartDate := customStartDate st;
     customEndDate := customEndDate st;
     customDateContainer := customDateContainer st;
     applyButton := applyButton st;
     onApplyFilter := onApplyFilter st;
     onClearFilter := Some handler |}.

Definition handleRangeSelectionChange (st : State) : list Action * State :=
  match rangeSelector st, customDateContainer st with
  | Some selectedRange, Some _ =>
      match selectedRange with
      | Custom =>
          ([LogInfo "Switched to custom date range mode"], set_customDateContainer true st)
      | _ =>
          ([LogInfo ("Switched to predefined range: " ++ range_value selectedRange)],
           set_customDateContainer false st)
      end
  | _, _ => ([], st)
  end.

Definition setSelectedRangeType (rangeType : DateRangeType) (st : State)
  : list Action * State :=
  match rangeSelector st with
  | Some _ => handleRangeSelectionChange (set_rangeSelector rangeType st)
  | None => ([], st)
  end.

(** The two custom values when both inputs exist and neither is empty. *)
Definition custom_values (st : State) : option (string * string) :=
  match customStartDate st, customEndDate st with
  | Some startValue, Some endValue =>
      if Str.is_empty startValue || Str.is_empty endValue then None
      else Some (startValue, endValue)
  | _, _ => None
  end.

(** [handleApplyFilter()], run when the system clock reads [now]. *)
Definition handleApplyFilter (now : Z) (st : State) : list Action :=
  match rangeSelector st with
  | None => []
  | Some selectedRange =>
      let chosen :=
        match selectedRange with
        | Custom =>
            match custom_values st with
            | Some (startValue, endValue) =>
                let startDate := new_Date_string startValue in
                let endDate := new_Date_string endValue in
                Some (DateRangeCalculator.createCustomRange startDate endDate)
            | None => None
            end
        | _ => Some (DateRangeCalculator.calculateDateRange now selectedRange)
        end in
      match chosen with
      | None => [LogWarning "Custom dates not provided"]
      | Some dateRange =>
          if negb (DateRangeCalculator.isValidDateRange (Some dateRange))
          then [LogError "Invalid date range selected"]
          else
            match onApplyFilter st with
            | Some handler =>
                OnApplyFilter dateRange ::
                match handler dateRange with
                | Returns => [LogInfo "Apply filter action triggered"]
                | Throws e => [LogError ("Failed to apply filter: " ++ error_text e)]
                end
            | None => [LogInfo "Apply filter action triggered"]
            end
      end
  end.

Definition handleClearFilter (st : State) : list Action :=
  match onClearFilter st with
  | Some handler =>
      OnClearFilter ::
      match handler with
      | Returns => [LogInfo "Clear filter action triggered"]
      | Throws e => [LogError ("Failed to clear filter: " ++ error_text e)]
      end
  | None => [LogInfo "Clear filter action triggered"]
  end.


End WithEngine.
End UIManager.

(** ** The date inputs of the single-file visuals *)

(** An [<input type="date">], as far as the sources use it.  Assigning to
    [value] keeps a valid date string (four or more digits of a year above
    0, a month, a day of that month) and stores the empty string for any
    other text (HTML, value sanitization of the Date state); [min] and [max]
    reflect their attributes and take any text. *)
Module DateInput.

Record t : Type := {
  value : string;
  min : string;
  max : string
}.

Definition empty : t := {| value := ""; min := ""; max := "" |}.

(** The digits at the head of [s], and what follows them. *)
Fixpoint leading_digits (s : string) : string * string :=
  match s with
  | String c r =>
      if Str.is_digit c
      then let '(ds, rest) := leading_digits r in (String c ds, rest)
      else (EmptyString, s)
  | EmptyString => (EmptyString, EmptyString)
  end.

Definition valid_date_string (s : string) : bool :=
  let '(ys, rest) := leading_digits s in
  let y := Str.digits_value ys in
  (4 <=? String.length ys)%nat && (0 <? y)
  && match Engines.month_and_day rest with
     | Some (m, d) =>
         (1 <=? m) && (m <=? 12) && (1 <=? d) && (d <=? Engines.days_in_month y m)
     | None => false
     end.

Definition set_value (s : string) (i : t) : t :=
  {| value := if valid_date_string s then s else ""; min := min i; max := max i |}.

Definition set_min (s : string) (i : t) : t :=
  {| value := value i; min := s; max := max i |}.

Definition set_max (s : string) (i : t) : t :=
  {| value := value i; min := min i; max := s |}.

End DateInput.

(** [DateInputsComponent]; the class is the same in the two files but for
    the parser behind [getDateRange]. *)
Module DateInputsComponent.
Section WithEngine.
Context {K : Clock}.

Record State : Type := {
  startDateInput : DateInput.t;
  endDateInput : DateInput.t;
  minDate : option Date;
  maxDate : option Date
}.

Definition initial : State :=
  {| startDateInput := DateInput.empty; endDateInput := DateInput.empty;
     minDate := None; maxDate := None |}.

Definition applyConstraints (st : State) : State :=
  let st :=
    match minDate st with
    | Some d =>
        let s := DateUtils.formatDate (Some d) in
        {| startDateInput := DateInput.set_min s (startDateInput st);
           endDateInput := DateInput.set_min s (endDateInput st);
           minDate := minDate st; maxDate := maxDate st |}
    | None => st
    end in
  match maxDate st with
  | Some d =>
      let e := DateUtils.formatDate (Some d) in
      {| startDateInput := DateInput.set_max e (startDateInput st);
         endDateInput := DateInput.set_max e (endDateInput st);
         minDate := minDate st; maxDate := maxDate st |}
  | None => st
  end.

(** [update(data)]; [None] is an omitted [data]. *)
Definition update (data : option (option Date * option Date)) (st : State) : State :=
  match data with
  | Some (dataMin, dataMax) =>
      applyConstraints
        {| startDateInput := startDateInput st; endDateInput := endDateInput st;
           minDate := dataMin; maxDate := dataMax |}
  | None => st
  end.

Definition setDateRange (startDate endDate : Date) (st : State) : State :=
  {| startDateInput :=
       DateInput.set_value (DateUtils.formatDate (Some startDate)) (startDateInput st);
     endDateInput :=
       DateInput.set_value (DateUtils.formatDate (Some endDate)) (endDateInput st);
     minDate := minDate st; maxDate := maxDate st |}.

(** [getDateRange()] of part_009, over [DateUtils.parseDate]. *)
Definition getDateRange (st : State) : Picker.IDateRange :=
  {| Picker.startDate := DateUtils.parseDate (VString (DateInput.value (startDateInput st)));
     Picker.endDate := DateUtils.parseDate (VString (DateInput.value (endDateInput st))) |}.

(** [getDateRange()] of part_008, whose [DateUtils.parseDate] is [new Date(text)]. *)
Definition getDateRange_by_constructor (st : State) : Picker.IDateRange :=
  {| Picker.startDate := DirectQuery.parseDate (DateInput.value (startDateInput st));
     Picker.endDate := DirectQuery.parseDate (DateInput.value (endDateInput st)) |}.

End WithEngine.
End DateInputsComponent.

(** ** The single-file visual: the handlers of [DateTimePickerVisual] *)

Module PickerVisual.
Section WithEngine.
Context {K : Clock}.

(** The fields of the visual; of the controls, the date inputs and the text
    of the field-information line (colours and sizes are left out). *)
Record State : Type := {
  dateColumn : option Picker.IDateColumnInfo;
  currentRange : PredefinedRange;
  dateInputsComponent : DateInputsComponent.State;
  fieldInfo : string;
  filterService : FilterService.State
}.

(** The visual as its constructor leaves it, for a host. *)
Definition initial (host : Host) : State :=
  {| dateColumn := None;
     currentRange := LATEST_7_DAYS;
     dateInputsComponent := DateInputsComponent.initial;
     fieldInfo := "Add a date field to the Fields area";
     filterService := {| FilterService.host := host; FilterService.dateColumn := None |} |}.

(** [updateFieldInfoLabel(startDate, endDate)]; [None] is an omitted argument. *)
Definition updateFieldInfoLabel (startDate endDate : option Date) (st : State) : State :=
  let text :=
    match dateColumn st with
    | Some col =>
        let label := "Connected to: " ++ Picker.displayName col in
        match startDate, endDate with
        | Some s, Some e =>
            label ++ " | Selected: " ++ DateUtils.formatDate (Some s)
                  ++ " to " ++ DateUtils.formatDate (Some e)
        | _, _ =>
            match Picker.minDate col, Picker.maxDate col with
            | Some lo, Some hi =>
                label ++ " | Range: " ++ DateUtils.formatDate (Some lo)
                      ++ " to " ++ DateUtils.formatDate (Some hi)
            | _, _ => label
            end
        end
    | None => "Add a date field to the Fields area"
    end in
  {| dateColumn := dateColumn st;
     currentRange := currentRange st;
     dateInputsComponent := dateInputsComponent st;
     fieldInfo := text;
     filterService := filterService st |}.

Definition set_inputs (inputs : DateInputsComponent.State) (st : State) : State :=
  {| dateColumn := dateColumn st;
     currentRange := currentRange st;
     dateInputsComponent := inputs;
     fieldInfo := fieldInfo st;
     filterService := filterService st |}.

(** [handleRangeSelection(range)], run when the system clock reads [now]. *)
Definition handleRangeSelection (now : Z) (range : PredefinedRange) (st : State) : State :=
  let st :=
    {| dateColumn := dateColumn st;
       currentRange := range;
       dateInputsComponent := dateInputsComponent st;
       fieldInfo := fieldInfo st;
       filterService := filterService st |} in
  match range with
  | CUSTOM =>
      let r := DateInputsComponent.getDateRange (dateInputsComponent st) in
      updateFieldInfoLabel (Some (Picker.startDate r)) (Some (Picker.endDate r)) st
  | _ =>
      let maxRef :=
        match dateColumn st with
        | Some {| Picker.maxDate := Some d |} => d
        | _ => new_Date_now now
        end in
      let r := DateUtils.getDateRange now range (Some maxRef) in
      let st :=
        set_inputs
          (DateInputsComponent.setDateRange (Picker.startDate r) (Picker.endDate r)
             (dateInputsComponent st))
          st in
      updateFieldInfoLabel (Some (Picker.startDate r)) (Some (Picker.endDate r)) st
  end.

Definition handleDateChange (start end_ : string) (st : State) : Eff.t State :=
  if negb (Str.is_empty start) && negb (Str.is_empty end_) then
    let s := DateUtils.parseDate (VString start) in
    let e := DateUtils.parseDate (VString end_) in
    ((if negb (DateUtils.isValidDateRange s e)
      then Eff.emit (ShowError "Start date must be before end date")
      else Eff.ret tt) ;;
     Eff.ret (updateFieldInfoLabel (Some s) (Some e) st))%eff
  else Eff.ret st.

Definition applyFilter (st : State) : Eff.t unit :=
  let r := DateInputsComponent.getDateRange (dateInputsComponent st) in
  if falsy (VDate (Picker.startDate r)) || falsy (VDate (Picker.endDate r))
  then Eff.emit (ShowError "Please select both start and end dates")
  else if negb (DateUtils.isValidDateRange (Picker.startDate r) (Picker.endDate r))
  then Eff.emit (ShowError "Start date must be before end date")
  else FilterService.applyFilter (filterService st) r.

Definition clearFilter (st : State) : Eff.t unit :=
  FilterService.clearFilter (filterService st).

(** [updateDataColumnInfo(options)] with all it does to the fields above;
    [dv] is the first data view of the update. *)
Definition updateDataColumnInfo (now : Z) (st : State) (dv : option DataView) : State :=
  let col := DateTimePickerVisual.discover now dv in
  match col with
  | Some c =>
      let inputs :=
        DateInputsComponent.update (Some (Picker.minDate c, Picker.maxDate c))
                                   (dateInputsComponent st) in
      let initial := DateUtils.getDateRange now LATEST_7_DAYS (Picker.maxDate c) in
      let inputs :=
        DateInputsComponent.setDateRange (Picker.startDate initial) (Picker.endDate initial)
                                         inputs in
      updateFieldInfoLabel None None
        {| dateColumn := col;
           currentRange := currentRange st;
           dateInputsComponent := inputs;
           fieldInfo := fieldInfo st;
           filterService := FilterService.setDateColumn col (filterService st) |}
  | None =>
      updateFieldInfoLabel None None
        {| dateColumn := None;
           currentRange := currentRange st;
           dateInputsComponent := dateInputsComponent st;
           fieldInfo := fieldInfo st;
           filterService := FilterService.setDateColumn None (filterService st) |}
  end.

End WithEngine.
End PickerVisual.

(** ** The DirectQuery visual: the handlers of [DateTimePickerVisual] *)

Module DirectQueryVisual.
Section WithEngine.
Context {K : Clock}.

(** The fields of the visual; [timers] holds the calls of
    [handleRangeSelection] that [setTimeout] has queued and not yet run. *)
Record State : Type := {
  dateColumn : option Picker.IDateColumnInfo;
  currentRange : PredefinedRange;
  dateInputsComponent : DateInputsComponent.State;
  fieldInfo : string;
  filterService : DirectQuery.State;
  timers : list PredefinedRange
}.

Definition initial (host : option Host) : State :=
  {| dateColumn := None;
     currentRange := LATEST_7_DAYS;
     dateInputsComponent := DateInputsComponent.initial;
     fieldInfo := "Add a date field to the Fields area";
     filterService := {| DirectQuery.host := host; DirectQuery.dateColumn := None |};
     timers := [] |}.

Definition handleRangeSelection (now : Z) (range : PredefinedRange) (st : State)
  : Eff.t State :=
  let st :=
    {| dateColumn := dateColumn st;
       currentRange := range;
       dateInputsComponent := dateInputsComponent st;
       fieldInfo := fieldInfo st;
       filterService := filterService st;
       timers := timers st |} in
  match range with
  | CUSTOM => Eff.ret st
  | _ =>
      let today := new_Date_now now in
      let dateRange := DateUtils.getDateRange now range (Some today) in
      (Eff.emit (ConsoleLog "Range selected:") ;;
       Eff.emit (ConsoleLog "Calculated range:") ;;
       Eff.emit (ConsoleLog "Using current date to avoid dataView limitations in DirectQuery") ;;
       Eff.ret
         {| dateColumn := dateColumn st;
            currentRange := currentRange st;
            dateInputsComponent :=
              DateInputsComponent.setDateRange
                (Picker.startDate dateRange) (Picker.endDate dateRange)
                (dateInputsComponent st);
            fieldInfo := fieldInfo st;
            filterService := filterService st;
            timers := timers st |})%eff
  end.

Definition handleDateChange (startDate endDate : string) : Eff.t unit :=
  if negb (Str.is_empty startDate) && negb (Str.is_empty endDate) then
    let start := DirectQuery.parseDate startDate in
    let end_ := DirectQuery.parseDate endDate in
    if negb (DateUtils.isValidDateRange start end_)
    then Eff.emit (ShowError "Start date must be before end date")
    else Eff.ret tt
  else Eff.ret tt.

Definition applyFilter (st : State) : Eff.t unit :=
  let dateRange := DateInputsComponent.getDateRange_by_constructor (dateInputsComponent st) in
  if falsy (VDate (Picker.startDate dateRange)) || falsy (VDate (Picker.endDate dateRange))
  then Eff.emit (ShowError "Please select both start and end dates")
  else if negb (DateUtils.isValidDateRange (Picker.startDate dateRange)
                                           (Picker.endDate dateRange))
  then Eff.emit (ShowError "Start date must be before end date")
  else DirectQuery.applyFilter (filterService st) dateRange.

Definition clearFilter (st : State) : Eff.t unit :=
  DirectQuery.clearFilter (filterService st).

(** [updateDataColumnInfo(options)], run when the system clock reads [now];
    [dv] is [options.dataViews[0]], [None] when there is none. *)
Definition updateDataColumnInfo (now : Z) (st : State) (dv : option DataView)
  : Eff.t State :=
  match dv with
  | None => Eff.ret st
  | Some dataView =>
      match dv_categories dataView with
      | Some (categoryData :: _) =>
          let col :=
            {| Picker.displayName :=
                 Str.or_else (m_displayName (cat_source categoryData)) "Unknown Field";
               Picker.queryName := Str.or_else (m_queryName (cat_source categoryData)) "";
               Picker.minDate := Some DateTimePickerVisual.wide_minDate;
               Picker.maxDate := Some (DateTimePickerVisual.wide_maxDate now) |} in
          (Eff.emit (ConsoleLog
             "DirectQuery detected - setting wide date range to allow full data access") ;;
           Eff.emit (ConsoleLog "Setting wide date range:") ;;
           Eff.emit (ConsoleLog
             "This allows the slicer to work with the full dataset without dataView limitations") ;;
           Eff.ret
             {| dateColumn := Some col;
                currentRange := currentRange st;
                dateInputsComponent :=
                  DateInputsComponent.update
                    (Some (Picker.minDate col, Picker.maxDate col))
                    (dateInputsComponent st);
                fieldInfo :=
                  "Connected to: " ++ Picker.displayName col ++ " (Full Data Access)"
                  ++ " - Range: " ++ DateUtils.formatDate (Picker.minDate col)
                  ++ " to " ++ DateUtils.formatDate (Picker.maxDate col);
                filterService := DirectQuery.setDateColumn (Some col) (filterService st);
                timers := (timers st ++ [LATEST_7_DAYS])%list |})%eff
      | _ =>
          Eff.ret
            {| dateColumn := None;
               currentRange := currentRange st;
               dateInputsComponent := dateInputsComponent st;
               fieldInfo := "Add a date field to the Fields area";
               filterService := DirectQuery.setDateColumn None (filterService st);
               timers := timers st |}
      end
  end.


End WithEngine.
End DirectQueryVisual.

(** ** Notions for the further properties *)

(** A client of the debug logger: the calls it makes, in order. *)
Module LogCalls.

Inductive Call : Type :=
| Info (now : Z) (message : string)
| Warning (now : Z) (message : string)
| Error (now : Z) (message : string)
| Clear.

Section WithLocale.
Variable toLocaleTimeString : Date -> string.

(** The line that a call adds: the level, the time of the call, the message. *)
Definition line (c : Call) : option string :=
  match c with
  | Info now m => Some ("[INFO] " ++ toLocaleTimeString (new_Date_now now) ++ ": " ++ m)
  | Warning now m => Some ("[WARNING] " ++ toLocaleTimeString (new_Date_now now) ++ ": " ++ m)
  | Error now m => Some ("[ERROR] " ++ toLocaleTimeString (new_Date_now now) ++ ": " ++ m)
  | Clear => None
  end.

Definition step (c : Call) (st : DebugLogger.State) : Eff.t DebugLogger.State :=
  match c with
  | Info now m => DebugLogger.logInfo toLocaleTimeString now m st
  | Warning now m => DebugLogger.logWarning toLocaleTimeString now m st
  | Error now m => DebugLogger.logError toLocaleTimeString now m st
  | Clear => Eff.ret (DebugLogger.clearLogs st)
  end.

Fixpoint run (calls : list Call) (st : DebugLogger.State) : Eff.t DebugLogger.State :=
  match calls with
  | [] => Eff.ret st
  | c :: rest => (st' <- step c st ;; run rest st')%eff
  end.

(** The lines added after the last [Clear], oldest first, behind [before]. *)
Fixpoint since_clear (calls : list Call) (before : list string) : list string :=
  match calls with
  | [] => before
  | c :: rest =>
      match line c with
      | Some l => since_clear rest (before ++ [l])%list
      | None => since_clear rest []
      end
  end.

(** Every line added, oldest first. *)
Fixpoint all_lines (calls : list Call) : list string :=
  match calls with
  | [] => []
  | c :: rest =>
      match line c with
      | Some l => l :: all_lines rest
      | None => all_lines rest
      end
  end.

End WithLocale.
End LogCalls.
(** Dates as texts. *)
Module Texts.

(** A month (1 = January) and a day of it, in year [y]. *)
Definition valid_civil_date (y m d : Z) : Prop :=
  1 <= m <= 12 /\ 1 <= d <= Engines.days_in_month y m.

(** The date written [YYYY-MM-DD]. *)
Definition date_text (y m d : Z) : string :=
  Str.string_of_Z y ++ "-" ++ DateUtils.pad2 (Int m) ++ "-" ++ DateUtils.pad2 (Int d).




(** The engine reads the date, written [YYYY-MM-DD], as the standard says:
    midnight of that date in UTC. *)
Definition reads_date_as_utc (K : Clock) (y m d : Z) : Prop :=
  @Date_parse K (date_text y m d) = Int (MakeDay y (m - 1) d * msPerDay).



End Texts.

(** * Part II: lemmas *)

(** [lia] after division and remainder by constants are put as their
    Euclidean equations. *)
Ltac div_lia := Z.to_euclidean_division_equations; lia.

(** A year read off a valid Date is the year of its local time. *)
Lemma getFullYear_Int {K : Clock} (t y : Z) :
  getFullYear (Int t) = Int y -> YearFromTime (LocalTime t) = y.
Proof. intros H. injection H as H. exact H. Qed.

(** ** The calendar *)

Section Calendar.

Lemma YearFromDay_spec (d : Z) :
  DayFromYear (YearFromDay d) <= d < DayFromYear (YearFromDay d + 1).
Proof.
  unfold YearFromDay.
  set (y0 := 1970 + 400 * d / 146097).
  assert (H0 : 146097 * (y0 - 1970) <= 400 * d < 146097 * (y0 - 1970) + 146097)
    by (unfold y0; div_lia).
  clearbody y0.
  destruct (Z.ltb_spec d (DayFromYear y0)) as [Hlt | Hge].
  - replace (y0 - 1 + 1) with y0 by div_lia.
    split; [unfold DayFromYear in *; div_lia | exact Hlt].
  - destruct (Z.leb_spec (DayFromYear (y0 + 1)) d) as [Hle | Hgt].
    + split; [exact Hle | unfold DayFromYear in *; div_lia].
    + split; assumption.
Qed.

Lemma IsLeapYear_days (y : Z) :
  DayFromYear (y + 1) - DayFromYear y = DaysInYear y.
Proof.
  unfold DaysInYear, IsLeapYear, DayFromYear.
  destruct (Z.eqb_spec (y mod 4) 0); destruct (Z.eqb_spec (y mod 100) 0);
    destruct (Z.eqb_spec (y mod 400) 0); cbn [andb orb negb]; div_lia.
Qed.

Lemma DayWithinYear_range (t : Z) :
  0 <= DayWithinYear t < DaysInYear (YearFromTime t).
Proof.
  unfold DayWithinYear, YearFromTime.
  pose proof (YearFromDay_spec (Day t)) as H.
  pose proof (IsLeapYear_days (YearFromDay (Day t))) as L.
  div_lia.
Qed.

Lemma MonthOfDayWithinYear_range (leap : bool) (d : Z) :
  0 <= MonthOfDayWithinYear leap d <= 11.
Proof.
  unfold MonthOfDayWithinYear.
  repeat match goal with
         | |- context [if ?c then _ else _] => destruct c
         end; div_lia.
Qed.

Lemma MonthFromTime_range (t : Z) : 0 <= MonthFromTime t <= 11.
Proof. apply MonthOfDayWithinYear_range. Qed.

(** The month found for a day of the year starts on or before that day, and
    the next month starts after it. *)
Lemma DaysBeforeMonth_MonthOfDay (leap : bool) (d : Z) :
  0 <= d < (if leap then 366 else 365) ->
  DaysBeforeMonth leap (MonthOfDayWithinYear leap d) <= d
  /\ d - DaysBeforeMonth leap (MonthOfDayWithinYear leap d) < 31.
Proof.
  intros Hd. unfold MonthOfDayWithinYear.
  destruct leap; cbn zeta;
    repeat match goal with
           | |- context [if ?a <? ?b then _ else _] => destruct (Z.ltb_spec a b)
           end; cbn; div_lia.
Qed.

Lemma DateFromTime_range (t : Z) : 1 <= DateFromTime t <= 31.
Proof.
  unfold DateFromTime, MonthFromTime.
  pose proof (DayWithinYear_range t) as H.
  unfold DaysInYear, InLeapYear in *.
  pose proof (DaysBeforeMonth_MonthOfDay (IsLeapYear (YearFromTime t)) (DayWithinYear t)) as M.
  destruct (IsLeapYear (YearFromTime t)); specialize (M H); div_lia.
Qed.

(** [MakeDay] undoes the split of a moment into year, month and date; a date
    moved by [k] moves the day by [k]. *)
Lemma MakeDay_of_fields (t k : Z) :
  MakeDay (YearFromTime t) (MonthFromTime t) (DateFromTime t + k) = Day t + k.
Proof.
  unfold MakeDay.
  pose proof (MonthFromTime_range t) as Hm.
  replace (MonthFromTime t / 12) with 0 by div_lia.
  replace (MonthFromTime t mod 12) with (MonthFromTime t) by div_lia.
  rewrite Z.add_0_r.
  unfold DateFromTime, DayWithinYear, InLeapYear. div_lia.
Qed.

(** The civil fields of a moment depend on its day only. *)
Lemma YearFromTime_day (t u : Z) : Day t = Day u -> YearFromTime t = YearFromTime u.
Proof. unfold YearFromTime. intros ->. reflexivity. Qed.

Lemma MonthFromTime_day (t u : Z) : Day t = Day u -> MonthFromTime t = MonthFromTime u.
Proof.
  intros H. unfold MonthFromTime, InLeapYear, DayWithinYear.
  rewrite (YearFromTime_day t u H), H. reflexivity.
Qed.

Lemma DateFromTime_day (t u : Z) : Day t = Day u -> DateFromTime t = DateFromTime u.
Proof.
  intros H. unfold DateFromTime, InLeapYear, DayWithinYear.
  rewrite (MonthFromTime_day t u H), (YearFromTime_day t u H), H. reflexivity.
Qed.

Lemma Day_MakeDate (day time : Z) :
  0 <= time < msPerDay -> Day (MakeDate day time) = day.
Proof. unfold Day, MakeDate, msPerDay. intros H. div_lia. Qed.

Lemma TimeWithinDay_MakeDate (day time : Z) :
  0 <= time < msPerDay -> TimeWithinDay (MakeDate day time) = time.
Proof. unfold TimeWithinDay, MakeDate, msPerDay. intros H. div_lia. Qed.

Lemma Day_TimeWithinDay (t : Z) : MakeDate (Day t) (TimeWithinDay t) = t.
Proof. unfold MakeDate, Day, TimeWithinDay, msPerDay. div_lia. Qed.

Lemma TimeClip_in_range (t : Z) :
  - maxTimeValue <= t <= maxTimeValue -> TimeClip t = Int t.
Proof.
  intros H. unfold TimeClip.
  destruct (Z.leb_spec (Z.abs t) maxTimeValue); [reflexivity | div_lia].
Qed.

(** Years are monotone in days. *)
Lemma DayFromYear_mono (y z : Z) : y <= z -> DayFromYear y <= DayFromYear z.
Proof. unfold DayFromYear. div_lia. Qed.


End Calendar.

(** ** Date objects, in any time zone *)

Section AnyClock.
Context {K : Clock}.

Lemma TimeClip_abs (t : Z) : Z.abs t <= maxTimeValue -> TimeClip t = Int t.
Proof.
  intros H. unfold TimeClip.
  destruct (Z.leb_spec (Z.abs t) maxTimeValue); [reflexivity | lia].
Qed.

(** A local time on the clock belongs to a valid Date, which shows it. *)
Lemma on_the_clock_valid (lt : Z) :
  Civil.on_the_clock lt -> TimeClip (UTC lt) = Int (UTC lt).
Proof. intros [H _]. apply TimeClip_abs, H. Qed.

Lemma on_the_clock_day (day time : Z) :
  0 <= time < msPerDay ->
  Civil.on_the_clock (day * msPerDay + time) ->
  Civil.local_day (UTC (day * msPerDay + time)) = day.
Proof.
  intros Ht [_ H]. unfold Civil.local_day. rewrite H.
  unfold Day, msPerDay in *. div_lia.
Qed.

Lemma on_the_clock_midnight_day (day : Z) :
  Civil.on_the_clock (day * msPerDay) ->
  Civil.local_day (UTC (day * msPerDay)) = day.
Proof.
  intros [_ H]. unfold Civil.local_day. rewrite H.
  unfold Day, msPerDay. div_lia.
Qed.

Lemma time_of_day_midnight (day : Z) :
  LocalTime (UTC (day * msPerDay)) = day * msPerDay ->
  Civil.time_of_day (Int (UTC (day * msPerDay))) = (Int 0, Int 0, Int 0, Int 0).
Proof.
  intros H. unfold Civil.time_of_day.
  cbn [getHours getMinutes getSeconds getMilliseconds local_field]. rewrite H.
  unfold HourFromTime, MinFromTime, SecFromTime, msFromTime, msPerDay, msPerHour,
    msPerMinute, msPerSecond.
  repeat f_equal; div_lia.
Qed.

Lemma time_of_day_last_ms (day : Z) :
  Civil.on_the_clock (day * msPerDay + (msPerDay - 1)) ->
  Civil.time_of_day (Int (UTC (day * msPerDay + (msPerDay - 1))))
  = (Int 23, Int 59, Int 59, Int 999).
Proof.
  intros [_ H]. unfold Civil.time_of_day.
  cbn [getHours getMinutes getSeconds getMilliseconds local_field]. rewrite H.
  unfold HourFromTime, MinFromTime, SecFromTime, msFromTime, msPerDay, msPerHour,
    msPerMinute, msPerSecond.
  repeat f_equal; div_lia.
Qed.

Lemma div_mod_shift (x n c m k : Z) :
  0 < c -> ((x - n * (k * m * c)) / c) mod m = (x / c) mod m.
Proof.
  intros Hc.
  replace (x - n * (k * m * c)) with (x + (- n * k * m) * c) by ring.
  rewrite Z.div_add by lia.
  replace (x / c + - n * k * m) with (x / c + (- n * k) * m) by ring.
  apply Z_mod_plus_full.
Qed.

(** The time of day of two moments whose local times differ by whole days. *)
Lemma time_of_day_days_apart (t u n : Z) :
  LocalTime u = LocalTime t - n * msPerDay ->
  Civil.time_of_day (Int u) = Civil.time_of_day (Int t)
  /\ Civil.local_day u = Civil.local_day t - n.
Proof.
  intros H. unfold Civil.time_of_day, Civil.local_day.
  cbn [getHours getMinutes getSeconds getMilliseconds local_field]. rewrite H.
  generalize (LocalTime t). intros x.
  unfold HourFromTime, MinFromTime, SecFromTime, msFromTime, Day, msPerDay, msPerHour,
    msPerMinute, msPerSecond.
  split.
  - pose proof (div_mod_shift x n 3600000 24 1 eq_refl) as H1.
    pose proof (div_mod_shift x n 60000 60 24 eq_refl) as H2.
    pose proof (div_mod_shift x n 1000 60 1440 eq_refl) as H3.
    change (1 * 24 * 3600000) with 86400000 in H1.
    change (24 * 60 * 60000) with 86400000 in H2.
    change (1440 * 60 * 1000) with 86400000 in H3.
    rewrite H1, H2, H3.
    replace (x - n * 86400000) with (x + (- n * 86400) * 1000) by ring.
    rewrite Z_mod_plus_full. reflexivity.
  - replace (x - n * 86400000) with (x + (- n) * 86400000) by ring.
    rewrite Z.div_add by lia. lia.
Qed.

Lemma civil_date_same_day (t u : Z) :
  Civil.local_day t = Civil.local_day u ->
  Civil.civil_date (Int t) = Civil.civil_date (Int u).
Proof.
  unfold Civil.local_day, Civil.civil_date. intros H.
  cbn [getFullYear getMonth getDate local_field].
  rewrite (YearFromTime_day _ _ H), (MonthFromTime_day _ _ H), (DateFromTime_day _ _ H).
  reflexivity.
Qed.

(** [setHours] keeps the local day and replaces the time of day. *)
Lemma setHours_local_day (t h m s ms : Z) :
  setHours (Int t) h m s ms
  = TimeClip (UTC (Civil.local_day t * msPerDay + MakeTime h m s ms)).
Proof. reflexivity. Qed.

(** [d.setDate(d.getDate() - n)] moves the local time back by [n] whole days. *)
Lemma setDate_local_days_back (t n : Z) :
  setDate (Int t) (num_add (getDate (Int t)) (- n))
  = TimeClip (UTC (LocalTime t - n * msPerDay)).
Proof.
  cbn [setDate getDate local_field num_add].
  rewrite MakeDay_of_fields.
  f_equal. f_equal. unfold MakeDate.
  pose proof (Day_TimeWithinDay (LocalTime t)) as R. unfold MakeDate in R.
  unfold msPerDay in *. lia.
Qed.

Lemma subtractDays_local_days_back (t n : Z) :
  Z.abs t <= maxTimeValue ->
  DateRangeCalculator.subtractDays (Int t) n = TimeClip (UTC (LocalTime t - n * msPerDay)).
Proof.
  intros H. unfold DateRangeCalculator.subtractDays.
  cbn [new_Date_copy]. rewrite (TimeClip_abs t H).
  apply setDate_local_days_back.
Qed.

(** The range of [calculateDateRange] where the three local times it passes
    through are on the clock. *)
Lemma calculateDateRange_on_the_clock (now : Z) (rangeType : DateRangeType) :
  Z.abs now <= maxTimeValue ->
  Civil.on_the_clock (Civil.local_day now * msPerDay + (msPerDay - 1)) ->
  Civil.on_the_clock
    ((Civil.local_day now - Civil.preset_days rangeType) * msPerDay + (msPerDay - 1)) ->
  Civil.on_the_clock ((Civil.local_day now - Civil.preset_days rangeType) * msPerDay) ->
  DateRangeCalculator.calculateDateRange now rangeType =
    {| startDate :=
         Int (UTC ((Civil.local_day now - Civil.preset_days rangeType) * msPerDay));
       endDate := Civil.end_of_day (Int now);
       type := rangeType |}.
Proof.
  intros Hn He Hb Hs.
  unfold DateRangeCalculator.calculateDateRange, new_Date_now.
  rewrite (TimeClip_abs now Hn), setHours_local_day.
  change (MakeTime 23 59 59 999) with (msPerDay - 1).
  rewrite (on_the_clock_valid _ He). cbn [new_Date_copy Civil.end_of_day].
  set (e := UTC (Civil.local_day now * msPerDay + (msPerDay - 1))) in *.
  rewrite (TimeClip_abs e (proj1 He)).
  assert (Le : LocalTime e = Civil.local_day now * msPerDay + (msPerDay - 1))
    by exact (proj2 He).
  assert (De : Civil.local_day e = Civil.local_day now)
    by (apply on_the_clock_day; [unfold msPerDay; lia | exact He]).
  assert (S : forall n,
             Civil.on_the_clock ((Civil.local_day now - n) * msPerDay + (msPerDay - 1)) ->
             Civil.on_the_clock ((Civil.local_day now - n) * msPerDay) ->
             setHours (DateRangeCalculator.subtractDays (Int e) n) 0 0 0 0
             = Int (UTC ((Civil.local_day now - n) * msPerDay))).
  { intros n Hb' Hs'. rewrite (subtractDays_local_days_back e n (proj1 He)), Le.
    replace (Civil.local_day now * msPerDay + (msPerDay - 1) - n * msPerDay)
      with ((Civil.local_day now - n) * msPerDay + (msPerDay - 1)) by lia.
    rewrite (on_the_clock_valid _ Hb'), setHours_local_day.
    rewrite on_the_clock_day by (unfold msPerDay; lia || exact Hb').
    change (MakeTime 0 0 0 0) with 0. rewrite Z.add_0_r.
    apply on_the_clock_valid, Hs'. }
  f_equal.
  destruct rangeType; cbn [Civil.preset_days] in *; try (apply S; assumption).
  rewrite setHours_local_day, De.
  change (MakeTime 0 0 0 0) with 0. rewrite Z.add_0_r.
  rewrite Z.sub_0_r in Hs |- *. apply on_the_clock_valid, Hs.
Qed.

(** The range of [getDateRange] on an anchor: the anchor itself, and the
    moment of the anchor's local time [n] days earlier. *)
Lemma getDateRange_local_days_back (now a : Z) (range : PredefinedRange) :
  Z.abs a <= maxTimeValue ->
  DateUtils.getDateRange now range (Some (Int a)) =
    {| Picker.startDate :=
         match range with
         | CUSTOM => Int a
         | _ => TimeClip (UTC (LocalTime a - range_days range * msPerDay))
         end;
       Picker.endDate := Int a |}.
Proof.
  intros H. unfold DateUtils.getDateRange. cbn [new_Date_copy].
  rewrite (TimeClip_abs a H).
  destruct range; cbn [range_days]; try (rewrite setDate_local_days_back); reflexivity.
Qed.

(** [createCustomRange] reads the first and the last millisecond of the two
    local days. *)
Lemma createCustomRange_local_days (a b : Z) :
  Z.abs a <= maxTimeValue -> Z.abs b <= maxTimeValue ->
  DateRangeCalculator.createCustomRange (Int a) (Int b) =
    {| startDate := TimeClip (UTC (Civil.local_day a * msPerDay));
       endDate := TimeClip (UTC (Civil.local_day b * msPerDay + (msPerDay - 1)));
       type := Custom |}.
Proof.
  intros Ha Hb. unfold DateRangeCalculator.createCustomRange. cbn [new_Date_copy].
  rewrite (TimeClip_abs a Ha), (TimeClip_abs b Hb), !setHours_local_day.
  change (MakeTime 0 0 0 0) with 0. rewrite Z.add_0_r. reflexivity.
Qed.

Lemma MakeFullYear_outside (y : Z) : y < 0 \/ 99 < y -> MakeFullYear y = y.
Proof.
  intros H. unfold MakeFullYear.
  destruct (Z.leb_spec 0 y); destruct (Z.leb_spec y 99); cbn; lia || reflexivity.
Qed.

(** [new Date(y, m, d)] of the local fields of a moment: the moment of the
    midnight of its local day, unless the year is one of 0 to 99. *)
Lemma new_Date_ymd_of_local_day (t : Z) :
  YearFromTime (LocalTime t) < 0 \/ 99 < YearFromTime (LocalTime t) ->
  new_Date_ymd (getFullYear (Int t)) (getMonth (Int t)) (getDate (Int t))
  = TimeClip (UTC (Civil.local_day t * msPerDay)).
Proof.
  intros Hy. cbn [getFullYear getMonth getDate local_field new_Date_ymd].
  rewrite (MakeFullYear_outside _ Hy).
  pose proof (MakeDay_of_fields (LocalTime t) 0) as D. rewrite !Z.add_0_r in D.
  rewrite D. unfold Civil.local_day, MakeDate.
  change (MakeTime 0 0 0 0) with 0. rewrite Z.add_0_r. reflexivity.
Qed.

(** Whatever its arguments, [new Date(y, m, d)] is invalid or the moment of
    a local midnight. *)
Lemma new_Date_ymd_reads_a_midnight (y m d : Number) :
  new_Date_ymd y m d = NaN
  \/ exists day, new_Date_ymd y m d = Int (UTC (day * msPerDay)).
Proof.
  destruct y as [|y]; [left; reflexivity |].
  destruct m as [|m]; [left; reflexivity |].
  destruct d as [|d]; [left; reflexivity |].
  cbn [new_Date_ymd]. unfold TimeClip.
  destruct (_ <=? _); [right | left; reflexivity].
  exists (MakeDay (MakeFullYear y) m d). unfold MakeDate.
  change (MakeTime 0 0 0 0) with 0. rewrite Z.add_0_r. reflexivity.
Qed.

Lemma parseDate_reads_a_midnight (input : JsValue) :
  DateUtils.parseDate input = NaN
  \/ exists day, DateUtils.parseDate input = Int (UTC (day * msPerDay)).
Proof.
  assert (T : forall s,
             DateUtils.parseText s = NaN
             \/ exists day, DateUtils.parseText s = Int (UTC (day * msPerDay))).
  { intros s. unfold DateUtils.parseText.
    destruct (Regex.match_iso _) as [[[g1 g2] g3]|]; [apply new_Date_ymd_reads_a_midnight |].
    destruct (Regex.match_slash _) as [[[g1 g2] g3]|]; [apply new_Date_ymd_reads_a_midnight |].
    destruct (isNaN _); [left; reflexivity | apply new_Date_ymd_reads_a_midnight]. }
  unfold DateUtils.parseDate.
  destruct (falsy input); [left; reflexivity |].
  destruct input; try apply T. apply new_Date_ymd_reads_a_midnight.
Qed.

Lemma parseDate_unrecognised (s : string) :
  Regex.match_iso (Str.trim s) = None ->
  Regex.match_slash (Str.trim s) = None ->
  Date_parse (Str.trim s) = NaN ->
  DateUtils.parseDate (VString s) = NaN.
Proof.
  intros H1 H2 H3. unfold DateUtils.parseDate.
  destruct (falsy _); [reflexivity |].
  unfold DateUtils.parseText, new_Date_string. rewrite H1, H2, H3. reflexivity.
Qed.

End AnyClock.

Section DateObjectLemmas.
Context {E : Engine}.

Lemma LocalTime_UTC (t : Z) : LocalTime (UTC t) = t.
Proof. unfold LocalTime, UTC, fixed_offset. div_lia. Qed.

Lemma UTC_LocalTime (t : Z) : UTC (LocalTime t) = t.
Proof. unfold LocalTime, UTC, fixed_offset. div_lia. Qed.

(** In a zone that keeps one offset every local time of a valid Date is on
    the clock. *)
Lemma on_the_clock_fixed_offset (lt : Z) :
  Z.abs (lt - LocalTZA) <= maxTimeValue -> Civil.on_the_clock lt.
Proof. intros H. split; [exact H | apply LocalTime_UTC]. Qed.

Lemma local_day_bounds (t : Z) :
  t - msPerDay < UTC (Civil.local_day t * msPerDay) <= t.
Proof.
  unfold Civil.local_day, Day, UTC, LocalTime, fixed_offset, msPerDay. div_lia.
Qed.

(** [setHours] keeps the local day and replaces the time of day. *)
Lemma setHours_eq (t h m s ms : Z) :
  - maxTimeValue <= UTC (MakeDate (Civil.local_day t) (MakeTime h m s ms)) <= maxTimeValue ->
  setHours (Int t) h m s ms = Int (UTC (Civil.local_day t * msPerDay + MakeTime h m s ms)).
Proof.
  intros H. unfold setHours. fold (Civil.local_day t).
  rewrite TimeClip_in_range by exact H. reflexivity.
Qed.

Lemma setHours_start_of_day (t : Z) :
  - maxTimeValue + msPerDay <= t <= maxTimeValue ->
  setHours (Int t) 0 0 0 0 = Civil.start_of_day (Int t).
Proof.
  intros H. pose proof (local_day_bounds t) as B.
  rewrite setHours_eq.
  - cbn [Civil.start_of_day]. f_equal. unfold MakeTime. f_equal. div_lia.
  - unfold MakeDate, MakeTime.
    replace (0 * msPerHour + 0 * msPerMinute + 0 * msPerSecond + 0) with 0 by reflexivity.
    unfold UTC, fixed_offset in *. div_lia.
Qed.

Lemma setHours_end_of_day (t : Z) :
  - maxTimeValue <= t <= maxTimeValue - msPerDay ->
  setHours (Int t) 23 59 59 999 = Civil.end_of_day (Int t).
Proof.
  intros H. pose proof (local_day_bounds t) as B.
  assert (MT : MakeTime 23 59 59 999 = msPerDay - 1) by reflexivity.
  rewrite setHours_eq.
  - cbn [Civil.end_of_day]. rewrite MT. reflexivity.
  - unfold MakeDate. rewrite MT. unfold UTC, fixed_offset, msPerDay in *. div_lia.
Qed.

(** [d.setDate(d.getDate() - n)] moves a date back by [n] whole days. *)
Lemma setDate_back (t n : Z) :
  setDate (Int t) (num_add (getDate (Int t)) (- n)) = TimeClip (t - n * msPerDay).
Proof.
  cbn [setDate getDate local_field num_add].
  rewrite MakeDay_of_fields.
  f_equal. unfold MakeDate, UTC, fixed_offset.
  pose proof (Day_TimeWithinDay (LocalTime t)) as R. unfold MakeDate in R.
  unfold LocalTime, fixed_offset in *. div_lia.
Qed.

Lemma local_day_shift (t n : Z) :
  Civil.local_day (t - n * msPerDay) = Civil.local_day t - n.
Proof. unfold Civil.local_day, Day, LocalTime, fixed_offset, msPerDay. div_lia. Qed.

Lemma local_day_end_of_day (t : Z) :
  Civil.local_day (UTC (Civil.local_day t * msPerDay + (msPerDay - 1))) = Civil.local_day t.
Proof.
  unfold Civil.local_day at 1. rewrite LocalTime_UTC.
  unfold Day, msPerDay. div_lia.
Qed.


Lemma in_window_time (t : Z) :
  Civil.in_window t -> - maxTimeValue <= t <= maxTimeValue.
Proof. unfold Civil.in_window, maxTimeValue, msPerDay. div_lia. Qed.

Lemma subtractDays_eq (t n : Z) :
  - maxTimeValue <= t <= maxTimeValue ->
  DateRangeCalculator.subtractDays (Int t) n = TimeClip (t - n * msPerDay).
Proof.
  intros H. unfold DateRangeCalculator.subtractDays.
  cbn [new_Date_copy]. rewrite TimeClip_in_range by exact H.
  apply setDate_back.
Qed.

(** The range of [calculateDateRange], for every range type. *)
Lemma calculateDateRange_eq (now : Z) (rangeType : DateRangeType) :
  Civil.in_window now ->
  DateRangeCalculator.calculateDateRange now rangeType =
    {| startDate := Civil.start_of_day (Civil.days_before (Civil.preset_days rangeType) (Int now));
       endDate := Civil.end_of_day (Int now);
       type := rangeType |}.
Proof.
  intros W. pose proof (in_window_time now W) as R.
  unfold DateRangeCalculator.calculateDateRange, new_Date_now.
  rewrite TimeClip_in_range by exact R.
  rewrite setHours_end_of_day by (unfold Civil.in_window in W; div_lia).
  cbn [Civil.end_of_day new_Date_copy].
  set (e := UTC (Civil.local_day now * msPerDay + (msPerDay - 1))).
  assert (Be : now <= e < now + msPerDay).
  { subst e. pose proof (local_day_bounds now). unfold UTC, fixed_offset, msPerDay in *. div_lia. }
  assert (Re : - maxTimeValue <= e <= maxTimeValue)
    by (unfold Civil.in_window, msPerDay, maxTimeValue in *; div_lia).
  rewrite (TimeClip_in_range e Re).
  assert (Le : Civil.local_day e = Civil.local_day now)
    by (subst e; apply local_day_end_of_day).
  assert (S : forall n, 0 <= n <= 90 ->
    setHours (DateRangeCalculator.subtractDays (Int e) n) 0 0 0 0 =
    Civil.start_of_day (Civil.days_before n (Int now))).
  { intros n Hn. rewrite subtractDays_eq by exact Re.
    rewrite TimeClip_in_range
      by (unfold Civil.in_window, msPerDay, maxTimeValue in *; div_lia).
    rewrite setHours_start_of_day
      by (unfold Civil.in_window, msPerDay, maxTimeValue in *; div_lia).
    cbn [Civil.start_of_day Civil.days_before].
    rewrite !local_day_shift, Le. reflexivity. }
  f_equal.
  destruct rangeType; cbn [Civil.preset_days]; try (apply S; div_lia).
  rewrite setHours_start_of_day
    by (unfold Civil.in_window, msPerDay, maxTimeValue in *; div_lia).
  cbn [Civil.start_of_day Civil.days_before].
  rewrite Le. do 3 f_equal. unfold Civil.local_day, Day, LocalTime, fixed_offset, msPerDay. div_lia.
Qed.



Lemma start_le_end_iff (a b : Z) :
  le (Civil.start_of_day (Int a)) (Civil.end_of_day (Int b)) = true
  <-> Civil.local_day a <= Civil.local_day b.
Proof.
  cbn [Civil.start_of_day Civil.end_of_day le]. rewrite Z.leb_le.
  unfold UTC, fixed_offset, msPerDay. div_lia.
Qed.


End DateObjectLemmas.

Section Clearing.
Context {E : Engine}.

Lemma clearFilter_when_host_returns (st : DirectQuery.State) (h : Host) :
  DirectQuery.host st = Some h ->
  Civil.host_returns h ->
  Civil.shows_success (Eff.trace (DirectQuery.clearFilter st)) = Civil.has_clearing_capability h
  /\ Civil.shows_error (Eff.trace (DirectQuery.clearFilter st))
     = negb (Civil.has_clearing_capability h).
Proof.
  intros Hh (Hj & Hf & Hs).
  unfold DirectQuery.clearFilter, DirectQuery.clear_by_filterManager,
    DirectQuery.clear_by_applyJsonFilter, DirectQuery.clear_selection,
    Civil.has_clearing_capability, call_applyJsonFilter.
  rewrite Hh. destruct h as [aj fm sm].
  cbn [applyJsonFilter filterManager createSelectionManager] in *.
  destruct fm as [[fa [o|]]|]; destruct aj as [f|]; destruct sm as [[[o'|]]|];
    repeat match goal with
    | H : forall f0, Some ?f = Some f0 -> _ |- _ => specialize (H f eq_refl)
    | H : forall fm0 o0, Some ?fm = Some fm0 -> _ |- _ =>
        specialize (H fm _ eq_refl eq_refl); cbn in H
    | H : forall sm0 o0, Some ?sm = Some sm0 -> _ |- _ =>
        specialize (H sm _ eq_refl eq_refl); cbn in H
    end; subst; cbn; rewrite ?Hj; cbn; split; reflexivity.
Qed.

Lemma clearFilter_when_advanced_scope_throws (st : DirectQuery.State) (h : Host)
      (f : option AdvancedFilter -> string -> string -> Z -> Outcome) (m : string) :
  DirectQuery.host st = Some h ->
  applyJsonFilter h = Some f ->
  Civil.filterManager_clear_returns h ->
  f None "general" "filter" 1 = Returns ->
  f None "advanced" "filter" 1 = Throws m ->
  Civil.shows_success (Eff.trace (DirectQuery.clearFilter st)) = false
  /\ In (ShowError ("Error clearing filters: " ++ m)) (Eff.trace (DirectQuery.clearFilter st))
  /\ In (HostApplyJsonFilter None "general" "filter" 1) (Eff.trace (DirectQuery.clearFilter st)).
Proof.
  intros Hh Hj Hf Hg Ha.
  unfold DirectQuery.clearFilter, DirectQuery.clear_by_filterManager,
    DirectQuery.clear_by_applyJsonFilter, DirectQuery.clear_selection,
    call_applyJsonFilter, Civil.filterManager_clear_returns in *.
  rewrite Hh. destruct h as [aj fm sm].
  cbn [applyJsonFilter filterManager createSelectionManager] in *.
  subst aj.
  destruct fm as [[fa [o|]]|];
    try (specialize (Hf _ _ eq_refl eq_refl); subst o);
    cbn; rewrite Hg; cbn; rewrite Ha; cbn; repeat split; auto 10.
Qed.

End Clearing.

Section Strings.

Lemma append_assoc (a b c : string) : ((a ++ b) ++ c = a ++ (b ++ c))%string.
Proof. induction a as [|x a IH]; cbn; [reflexivity | rewrite IH; reflexivity]. Qed.

Lemma all_chars_app (p : ascii -> bool) (a b : string) :
  Str.all_chars p (a ++ b) = Str.all_chars p a && Str.all_chars p b.
Proof.
  induction a as [|x a IH]; cbn; [reflexivity |].
  rewrite IH, andb_assoc. reflexivity.
Qed.

Lemma contains_char_app (c : ascii) (a b : string) :
  Str.contains_char c (a ++ b) = Str.contains_char c a || Str.contains_char c b.
Proof.
  induction a as [|x a IH]; cbn; [reflexivity |].
  rewrite IH, orb_assoc. reflexivity.
Qed.

Lemma after_char_app (c : ascii) (a r : string) :
  Str.contains_char c a = false ->
  Civil.after_char c (a ++ String c r) = Some r.
Proof.
  induction a as [|x a IH]; cbn; intros H.
  - unfold Str.eqb_ascii. rewrite Ascii.eqb_refl. reflexivity.
  - apply orb_false_elim in H as [H1 H2]. rewrite H1. apply IH, H2.
Qed.

Lemma last_char_app (a b : string) :
  b <> EmptyString -> Str.last_char (a ++ b) = Str.last_char b.
Proof.
  intros Hb. induction a as [|x a IH]; [reflexivity |].
  cbn [append]. cbn [Str.last_char]. rewrite IH.
  destruct (a ++ b)%string eqn:Eab; [| reflexivity].
  destruct a; cbn in Eab; [contradiction | discriminate].
Qed.

Lemma last_char_cons_app (c : ascii) (a b : string) :
  b <> EmptyString -> Str.last_char (String c (a ++ b)) = Str.last_char b.
Proof.
  intros Hb. change (String c (a ++ b)) with (String c a ++ b)%string.
  apply last_char_app, Hb.
Qed.

Lemma digit_char_is_digit (k : Z) :
  0 <= k < 10 -> Str.is_digit (Str.digit_char k) = true.
Proof.
  intros H.
  assert (C : k = 0 \/ k = 1 \/ k = 2 \/ k = 3 \/ k = 4 \/ k = 5 \/ k = 6 \/ k = 7
              \/ k = 8 \/ k = 9) by lia.
  repeat (destruct C as [-> | C]; [reflexivity |]). subst. reflexivity.
Qed.

Lemma decimal_digits_all_digits (fuel : nat) :
  forall n acc, Str.all_chars Str.is_digit acc = true ->
                Str.all_chars Str.is_digit (Str.decimal_digits fuel n acc) = true.
Proof.
  induction fuel as [|fuel IH]; intros n acc Hacc; cbn [Str.decimal_digits].
  - exact Hacc.
  - assert (Hd : Str.all_chars Str.is_digit (String (Str.digit_char (n mod 10)) acc) = true).
    { cbn [Str.all_chars]. rewrite Hacc, digit_char_is_digit by div_lia. reflexivity. }
    destruct (n <? 10); [exact Hd | apply IH, Hd].
Qed.

Lemma string_of_nonneg_digits (n : Z) :
  Str.all_chars Str.is_digit (Str.string_of_nonneg n) = true.
Proof. apply decimal_digits_all_digits. reflexivity. Qed.

Lemma all_chars_weaken (p q : ascii -> bool) (s : string) :
  (forall c, p c = true -> q c = true) ->
  Str.all_chars p s = true -> Str.all_chars q s = true.
Proof.
  intros W. induction s as [|x s IH]; cbn; [reflexivity |].
  intros H. apply andb_prop in H as [H1 H2]. rewrite (W _ H1), (IH H2). reflexivity.
Qed.

Lemma digit_is_date_char (c : ascii) : Str.is_digit c = true -> Civil.date_char c = true.
Proof. unfold Civil.date_char. intros ->. reflexivity. Qed.

Lemma NumberToString_date_chars (x : Number) :
  Str.all_chars Civil.date_char (Str.NumberToString x) = true.
Proof.
  destruct x as [|n]; [reflexivity |]. cbn [Str.NumberToString]. unfold Str.string_of_Z.
  destruct (n <? 0).
  - cbn [Str.all_chars].
    rewrite (all_chars_weaken _ _ _ digit_is_date_char (string_of_nonneg_digits _)).
    reflexivity.
  - apply (all_chars_weaken _ _ _ digit_is_date_char (string_of_nonneg_digits _)).
Qed.

Lemma repeat_char_all (p : ascii -> bool) (c : ascii) (n : nat) :
  p c = true -> Str.all_chars p (Str.repeat_char c n) = true.
Proof. intros H. induction n; cbn; [reflexivity | rewrite H, IHn; reflexivity]. Qed.

Lemma pad2_date_chars (x : Number) : Str.all_chars Civil.date_char (DateUtils.pad2 x) = true.
Proof.
  unfold DateUtils.pad2, Str.padStart. rewrite all_chars_app.
  rewrite repeat_char_all by reflexivity. apply NumberToString_date_chars.
Qed.

Lemma date_chars_no_T (s : string) :
  Str.all_chars Civil.date_char s = true -> Str.contains_char "T" s = false.
Proof.
  induction s as [|c s IH]; cbn [Str.all_chars Str.contains_char]; [reflexivity |].
  intros H. apply andb_prop in H as [H1 H2]. rewrite (IH H2), orb_false_r.
  unfold Str.eqb_ascii. destruct (Ascii.eqb "T" c) eqn:Heq; [| reflexivity].
  apply Ascii.eqb_eq in Heq. subst c. discriminate.
Qed.

End Strings.

Section Printing.

Lemma digit_value_digit_char (k : Z) :
  0 <= k < 10 -> Str.digit_value (Str.digit_char k) = k.
Proof.
  intros H.
  assert (C : k = 0 \/ k = 1 \/ k = 2 \/ k = 3 \/ k = 4 \/ k = 5 \/ k = 6 \/ k = 7
              \/ k = 8 \/ k = 9) by lia.
  repeat (destruct C as [-> | C]; [reflexivity |]). subst. reflexivity.
Qed.

Lemma digits_value_from_app (a : Z) (s r : string) :
  Str.digits_value_from a (s ++ r) = Str.digits_value_from (Str.digits_value_from a s) r.
Proof.
  revert a. induction s as [|c s IH]; intros a; cbn; [reflexivity | apply IH].
Qed.

(** The digits written for [n] are in front of [acc], and read back as [n]. *)
Lemma decimal_digits_value (fuel : nat) :
  forall n acc,
    0 <= n < 2 ^ Z.of_nat fuel ->
    exists ds,
      Str.decimal_digits fuel n acc = (ds ++ acc)%string
      /\ forall a, Str.digits_value_from a ds = a * 10 ^ Z.of_nat (String.length ds) + n.
Proof.
  induction fuel as [|fuel IH]; intros n acc Hn.
  - exists EmptyString. split; [reflexivity |]. intros a. cbn in *. lia.
  - cbn [Str.decimal_digits].
    destruct (Z.ltb_spec n 10) as [Hs | Hb].
    + exists (String (Str.digit_char (n mod 10)) EmptyString). split; [reflexivity |].
      intros a. cbn [Str.digits_value_from String.length].
      rewrite Z.mod_small by lia. rewrite digit_value_digit_char by lia.
      change (10 ^ Z.of_nat 1) with 10. lia.
    + assert (Hq : 0 <= n / 10 < 2 ^ Z.of_nat fuel).
      { rewrite Nat2Z.inj_succ, Z.pow_succ_r in Hn by lia.
        split; [apply Z.div_pos; lia |].
        apply Z.div_lt_upper_bound; lia. }
      destruct (IH (n / 10) (String (Str.digit_char (n mod 10)) acc) Hq) as (ds & E & V).
      exists (ds ++ String (Str.digit_char (n mod 10)) EmptyString)%string. split.
      * rewrite E. clear. induction ds as [|c ds IHd]; cbn [append];
          [reflexivity | f_equal; exact IHd].
      * intros a. rewrite digits_value_from_app, V.
        cbn [Str.digits_value_from].
        rewrite digit_value_digit_char by (apply Z.mod_pos_bound; lia).
        assert (L : String.length (ds ++ String (Str.digit_char (n mod 10)) EmptyString)
                    = S (String.length ds)).
        { clear. induction ds as [|c ds IHd]; cbn [append String.length];
            [reflexivity | f_equal; exact IHd]. }
        rewrite L, Nat2Z.inj_succ, Z.pow_succ_r by lia.
        pose proof (Z.div_mod n 10 ltac:(lia)) as D.
        set (p := 10 ^ Z.of_nat (String.length ds)) in *. clearbody p.
        set (q := n / 10) in *. set (r := n mod 10) in *. clearbody q r. nia.
Qed.

(** What the sources print for a non-negative integer reads back as that integer. *)
Lemma string_of_nonneg_value (n : Z) :
  0 <= n -> Str.digits_value (Str.string_of_nonneg n) = n.
Proof.
  intros Hn. unfold Str.string_of_nonneg, Str.digits_value.
  assert (B : 0 <= n < 2 ^ Z.of_nat (S (Z.to_nat (Z.log2 n)))).
  { split; [exact Hn |].
    rewrite Nat2Z.inj_succ, Z2Nat.id by apply Z.log2_nonneg.
    destruct (Z.eq_dec n 0) as [-> | Hz]; [reflexivity |].
    apply Z.log2_spec. lia. }
  destruct (decimal_digits_value _ n EmptyString B) as (ds & E & V).
  rewrite E. replace (ds ++ "")%string with ds
    by (clear; induction ds as [|c ds IHd]; cbn [append];
        [reflexivity | f_equal; exact IHd]).
  rewrite V. lia.
Qed.

End Printing.

Section Formatting.
Context {E : Engine}.

Lemma formatDate_date_chars (d : Date) :
  Str.all_chars Civil.date_char (DateUtils.formatDate (Some d)) = true.
Proof.
  unfold DateUtils.formatDate.
  rewrite !all_chars_app, NumberToString_date_chars, !pad2_date_chars. reflexivity.
Qed.

Lemma formatDateForDirectQuery_eq (d : Date) (isStart : bool) :
  FilterService.formatDateForDirectQuery d isStart =
    (DateUtils.formatDate (Some d)
     ++ String "T" (if isStart then "00:00:00.000" else "23:59:59.999"))%string.
Proof.
  unfold FilterService.formatDateForDirectQuery, DateUtils.formatDate.
  destruct isStart; rewrite !append_assoc; reflexivity.
Qed.


(** The text of a bound: the local calendar date, the letter T, the fixed
    time; it does not end in Z. *)
Lemma formatDateForDirectQuery_shape (d : Date) (isStart : bool) :
  let v := FilterService.formatDateForDirectQuery d isStart in
  let time := if isStart then "00:00:00.000" else "23:59:59.999" in
  v = (DateUtils.formatDate (Some d) ++ String "T" time)%string
  /\ Civil.after_char "T" v = Some time
  /\ Str.last_char v <> Some "Z"%char.
Proof.
  cbn zeta. rewrite formatDateForDirectQuery_eq. split; [reflexivity | split].
  - apply after_char_app, date_chars_no_T, formatDate_date_chars.
  - rewrite last_char_app by discriminate. destruct isStart; cbn; discriminate.
Qed.

End Formatting.

Lemma toISOString_ends_in_Z (d : Date) (s : string) :
  toISOString d = Some s -> Str.last_char s = Some "Z"%char.
Proof.
  destruct d as [|t]; cbn [toISOString]; [discriminate |].
  intros [= <-].
  rewrite last_char_app by discriminate.
  repeat (rewrite last_char_cons_app by discriminate).
  reflexivity.
Qed.

Section Enumeration.

Lemma Z_range_In (lo n z : Z) :
  lo <= z < lo + n -> In z (Civil.Z_range lo n).
Proof.
  intros H. unfold Civil.Z_range. apply in_map_iff.
  exists (Z.to_nat (z - lo)). split; [lia |].
  apply in_seq. lia.
Qed.

Lemma forallb_Z_range (p : Z -> bool) (lo n : Z) :
  forallb p (Civil.Z_range lo n) = true ->
  forall z, lo <= z < lo + n -> p z = true.
Proof.
  intros H z Hz. rewrite forallb_forall in H. apply H, Z_range_In, Hz.
Qed.

(** A year of four digits prints as its four digits. *)
Lemma year_text_checked :
  forallb (fun y =>
             match Str.string_of_Z y with
             | String a (String b (String c (String d EmptyString))) =>
                 Str.is_digit a && Str.is_digit b && Str.is_digit c && Str.is_digit d
                 && (Str.digits_value (Regex.str4 a b c d) =? y)
             | _ => false
             end)
          (Civil.Z_range 1000 9000) = true.
Proof. vm_compute. reflexivity. Qed.

Lemma year_text (y : Z) :
  1000 <= y <= 9999 ->
  exists a b c d,
    Str.string_of_Z y = Regex.str4 a b c d
    /\ Str.is_digit a = true /\ Str.is_digit b = true
    /\ Str.is_digit c = true /\ Str.is_digit d = true
    /\ Str.digits_value (Regex.str4 a b c d) = y.
Proof.
  intros H.
  pose proof (forallb_Z_range _ _ _ year_text_checked y ltac:(lia)) as C.
  cbv beta in C.
  destruct (Str.string_of_Z y) as [|a [|b [|c [|d [|]]]]]; try discriminate.
  exists a, b, c, d.
  apply andb_prop in C as [C He]. apply andb_prop in C as [C Hd].
  apply andb_prop in C as [C Hc]. apply andb_prop in C as [Ha Hb].
  apply Z.eqb_eq in He.
  repeat split; assumption || reflexivity.
Qed.

(** A month or a date prints, padded, as two digits. *)
Lemma two_digit_text_checked :
  forallb (fun k =>
             match DateUtils.pad2 (Int k) with
             | String a (String b EmptyString) =>
                 Str.is_digit a && Str.is_digit b
                 && (Str.digits_value (Regex.str2 a b) =? k)
             | _ => false
             end)
          (Civil.Z_range 0 100) = true.
Proof. vm_compute. reflexivity. Qed.

Lemma two_digit_text (k : Z) :
  0 <= k <= 99 ->
  exists a b,
    DateUtils.pad2 (Int k) = Regex.str2 a b
    /\ Str.is_digit a = true /\ Str.is_digit b = true
    /\ Str.digits_value (Regex.str2 a b) = k.
Proof.
  intros H.
  pose proof (forallb_Z_range _ _ _ two_digit_text_checked k ltac:(lia)) as C.
  cbv beta in C.
  destruct (DateUtils.pad2 (Int k)) as [|a [|b [|]]]; try discriminate.
  exists a, b.
  apply andb_prop in C as [C He]. apply andb_prop in C as [Ha Hb].
  apply Z.eqb_eq in He.
  repeat split; assumption || reflexivity.
Qed.

Lemma digit_not_space (c : ascii) : Str.is_digit c = true -> Str.is_space c = false.
Proof.
  unfold Str.is_digit, Str.is_space. cbv zeta.
  set (n := nat_of_ascii c). clearbody n.
  intros H. apply andb_prop in H as [H1 H2].
  apply Nat.leb_le in H1. apply Nat.leb_le in H2.
  repeat match goal with
         | |- context [(?a <=? ?b)%nat] => destruct (Nat.leb_spec a b)
         | |- context [(?a =? ?b)%nat] => destruct (Nat.eqb_spec a b)
         end; cbn; try reflexivity; lia.
Qed.

End Enumeration.

Section RoundTrip.
Context {E : Engine}.

Lemma trim_iso_text (a b c d e f g h : ascii) :
  Str.is_digit a = true -> Str.is_digit h = true ->
  Str.trim (Civil.iso_text a b c d e f g h) = Civil.iso_text a b c d e f g h.
Proof.
  intros Ha Hh. unfold Str.trim, Civil.iso_text, Regex.str4, Regex.str2.
  cbn [append Str.trim_start]. rewrite (digit_not_space a Ha).
  cbn [Str.rev Str.rev_onto Str.trim_start]. rewrite (digit_not_space h Hh).
  reflexivity.
Qed.

Lemma match_iso_text (a b c d e f g h : ascii) :
  Str.is_digit a = true -> Str.is_digit b = true -> Str.is_digit c = true ->
  Str.is_digit d = true -> Str.is_digit e = true -> Str.is_digit f = true ->
  Str.is_digit g = true -> Str.is_digit h = true ->
  Regex.match_iso (Civil.iso_text a b c d e f g h)
  = Some (Regex.str4 a b c d, Regex.str2 e f, Regex.str2 g h).
Proof.
  intros Ha Hb Hc Hd He Hf Hg Hh.
  unfold Civil.iso_text, Regex.str4, Regex.str2. cbn [append Regex.match_iso].
  rewrite Ha, Hb, Hc, Hd, He, Hf, Hg, Hh. reflexivity.
Qed.



End RoundTrip.

Section RoundTripAnyClock.
Context {K : Clock}.

(** [parseDate] reads back what [formatDate] writes of a date in a four-digit
    year: the moment of the midnight of its local day. *)
Lemma parseDate_formatDate_local_day (t : Z) :
  1000 <= YearFromTime (LocalTime t) <= 9999 ->
  DateUtils.parseDate (VString (DateUtils.formatDate (Some (Int t))))
  = TimeClip (UTC (Civil.local_day t * msPerDay)).
Proof.
  intros Hy.
  pose proof (MonthFromTime_range (LocalTime t)) as Hm.
  pose proof (DateFromTime_range (LocalTime t)) as Hd.
  assert (Rm : 0 <= MonthFromTime (LocalTime t) + 1 <= 99) by lia.
  assert (Rd : 0 <= DateFromTime (LocalTime t) <= 99) by lia.
  destruct (year_text _ Hy) as (a & b & c & d & Ey & Da & Db & Dc & Dd & Vy).
  destruct (two_digit_text _ Rm) as (e & f & Em & De & Df & Vm).
  destruct (two_digit_text _ Rd) as (g & h & Ed & Dg & Dh & Vd).
  assert (F : DateUtils.formatDate (Some (Int t)) = Civil.iso_text a b c d e f g h).
  { unfold DateUtils.formatDate, Civil.iso_text.
    cbn [getFullYear getMonth getDate local_field num_add Str.NumberToString].
    rewrite Ey, Em, Ed. reflexivity. }
  rewrite F. unfold DateUtils.parseDate.
  replace (falsy (VString (Civil.iso_text a b c d e f g h))) with false by reflexivity.
  unfold DateUtils.parseText.
  rewrite trim_iso_text by assumption.
  rewrite match_iso_text by assumption.
  rewrite Vy, Vm, Vd.
  replace (MonthFromTime (LocalTime t) + 1 - 1) with (MonthFromTime (LocalTime t)) by lia.
  apply (new_Date_ymd_of_local_day t). lia.
Qed.

End RoundTripAnyClock.

Section MinMaxScan.
Variable parse : JsValue -> Date.

Lemma scan_inv_step (seen : list JsValue) (acc : option Date * option Date) (v : JsValue) :
  Civil.scan_inv parse seen acc ->
  Civil.scan_inv parse (seen ++ [v]) (DateUtils.minmax_step parse acc v).
Proof.
  assert (Old : forall z, In z seen -> In z (seen ++ [v]))
    by (intros z Hz; apply in_or_app; left; exact Hz).
  assert (New : In v (seen ++ [v])) by (apply in_or_app; right; left; reflexivity).
  intros [[-> Hall] | (a & b & -> & Hab & (x & Hx & Px) & (y & Hy & Py) & Hb)];
    unfold DateUtils.minmax_step, getTime; destruct (parse v) as [|n] eqn:Pv; cbn [isNaN negb].
  - left. split; [reflexivity |]. intros z Hz.
    apply in_app_or in Hz as [Hz | [<- | []]]; [apply Hall, Hz | exact Pv].
  - right. exists n, n. split; [reflexivity |]. split; [lia |].
    split; [exists v; auto |]. split; [exists v; auto |].
    intros z k Hz Pz. apply in_app_or in Hz as [Hz | [<- | []]].
    + rewrite (Hall z Hz) in Pz. discriminate.
    + rewrite Pv in Pz. injection Pz as <-. lia.
  - right. exists a, b. split; [reflexivity |]. split; [exact Hab |].
    split; [exists x; auto |]. split; [exists y; auto |].
    intros z k Hz Pz. apply in_app_or in Hz as [Hz | [<- | []]].
    + apply (Hb z k Hz Pz).
    + rewrite Pv in Pz. discriminate.
  - right. unfold gt. cbn [lt].
    assert (Bound : forall a' b', a' <= a -> b <= b' -> a' <= n <= b' ->
              forall z k, In z (seen ++ [v]) -> parse z = Int k -> a' <= k <= b').
    { intros a' b' Ha Hb' Hn z k Hz Pz. apply in_app_or in Hz as [Hz | [<- | []]].
      - pose proof (Hb z k Hz Pz). lia.
      - rewrite Pv in Pz. injection Pz as <-. exact Hn. }
    destruct (Z.ltb_spec n a) as [Hlt | Hge]; destruct (Z.ltb_spec b n) as [Hgt | Hle];
      try lia.
    + exists n, b. split; [reflexivity |]. split; [lia |].
      split; [exists v; auto |]. split; [exists y; auto |]. apply Bound; lia.
    + exists a, n. split; [reflexivity |]. split; [lia |].
      split; [exists x; auto |]. split; [exists v; auto |]. apply Bound; lia.
    + exists a, b. split; [reflexivity |]. split; [lia |].
      split; [exists x; auto |]. split; [exists y; auto |]. apply Bound; lia.
Qed.

Lemma scan_inv_fold (arr : list JsValue) :
  forall seen acc,
    Civil.scan_inv parse seen acc ->
    Civil.scan_inv parse (seen ++ arr) (fold_left (DateUtils.minmax_step parse) arr acc).
Proof.
  induction arr as [|v arr IH]; intros seen acc H; cbn [fold_left].
  - rewrite app_nil_r. exact H.
  - replace (seen ++ v :: arr)%list with ((seen ++ [v]) ++ arr)%list
      by (rewrite <- app_assoc; reflexivity).
    apply IH, scan_inv_step, H.
Qed.

Lemma scanMinMax_extremes (arr : list JsValue) :
  Civil.extremes_of parse (Some arr) (DateUtils.scanMinMax parse arr).
Proof.
  pose proof (scan_inv_fold arr [] (None, None)
                (or_introl (conj eq_refl (fun x (H : In x []) => match H with end)))) as I.
  cbn [app] in I. unfold DateUtils.scanMinMax, Civil.extremes_of.
  destruct (fold_left _ arr (None, None)) as [mn mx].
  destruct I as [[[= -> ->] Hall] | (a & b & [= -> ->] & Hab & Hx & Hy & Hb)];
    cbn [minDate maxDate].
  - split; [tauto |]. split; [discriminate |]. intros _. split; reflexivity.
  - split; [split; discriminate |]. split.
    + intros lo hi [= <-] [= <-]. split; [cbn [le]; apply Z.leb_le, Hab |].
      exists arr. split; [reflexivity |]. split; [assumption |]. split; [assumption |].
      intros z Hz. destruct (parse z) as [|k] eqn:Pz; [left; reflexivity | right].
      pose proof (Hb z k Hz Pz). cbn [le]. split; apply Z.leb_le; lia.
    + intros Hall. destruct Hx as (x & Hin & Px).
      rewrite (Hall arr eq_refl x Hin) in Px. discriminate.
Qed.

Lemma no_extremes (arr : option (list JsValue)) :
  Civil.extremes_of parse arr {| minDate := None; maxDate := None |}.
Proof.
  unfold Civil.extremes_of. cbn [minDate maxDate].
  split; [tauto |]. split; [discriminate |]. intros _. split; reflexivity.
Qed.

End MinMaxScan.

Section MinMax.
Context {E : Engine}.

Lemma findMinMaxDates_extremes (arr : option (list JsValue)) :
  Civil.extremes_of DateUtils.parseDate arr (DateUtils.findMinMaxDates arr).
Proof.
  destruct arr as [[|v arr]|]; cbn [DateUtils.findMinMaxDates];
    [apply no_extremes | apply scanMinMax_extremes | apply no_extremes].
Qed.

Lemma DirectQuery_findMinMaxDates_extremes (arr : option (list JsValue)) :
  Civil.extremes_of DirectQuery.new_Date_value arr (DirectQuery.findMinMaxDates arr).
Proof.
  destruct arr as [[|v arr]|]; cbn [DirectQuery.findMinMaxDates];
    [apply no_extremes | apply scanMinMax_extremes | apply no_extremes].
Qed.

End MinMax.

Section FilterConstruction.
Context {E : Engine}.

Lemma createAdvancedFilter_bound (st : FilterService.State) (range : Picker.IDateRange)
      (col : Picker.IDateColumnInfo) :
  FilterService.dateColumn st = Some col ->
  FilterService.createAdvancedFilter st range =
    Some {| schema := "http://powerbi.com/product/schema#advanced";
            target :=
              FilterService.getTargetFromQueryName (Picker.queryName col)
                                                   (Picker.displayName col);
            logicalOperator := "And";
            conditions :=
              [ {| operator := "GreaterThanOrEqual";
                   value := FilterService.formatDateForDirectQuery (Picker.startDate range) true |};
                {| operator := "LessThanOrEqual";
                   value :=
                     FilterService.formatDateForDirectQuery (Picker.endDate range) false |} ];
            filterType := Some 0 |}.
Proof.
  intros H. unfold FilterService.createAdvancedFilter, FilterService.models_AdvancedFilter.
  rewrite H.
  destruct (FilterService.getTargetFromQueryName (Picker.queryName col) (Picker.displayName col)).
  reflexivity.
Qed.

Lemma createAdvancedFilter_unbound (st : FilterService.State) (range : Picker.IDateRange) :
  FilterService.dateColumn st = None ->
  FilterService.createAdvancedFilter st range = None.
Proof. intros H. unfold FilterService.createAdvancedFilter. rewrite H. reflexivity. Qed.

Lemma applyFilter_unbound (st : FilterService.State) (range : Picker.IDateRange) :
  FilterService.dateColumn st = None ->
  FilterService.applyFilter st range
  = ([ShowError "Unable to apply filter - add a date field"], Eff.Done tt).
Proof. intros H. unfold FilterService.applyFilter. rewrite H. reflexivity. Qed.

Lemma DirectQuery_applyFilter_unbound (st : DirectQuery.State) (range : Picker.IDateRange) :
  DirectQuery.dateColumn st = None ->
  DirectQuery.applyFilter st range
  = ([ShowError "Unable to apply filter - add a date field"], Eff.Done tt).
Proof. intros H. unfold DirectQuery.applyFilter. rewrite H. reflexivity. Qed.

End FilterConstruction.

Section FilterManagerRuns.

Lemma valid_range_dates (r : IDateRange) :
  FilterManager.isValidDateRange (Some r) = true ->
  exists a b, startDate r = Int a /\ endDate r = Int b /\ a <= b.
Proof.
  cbn [FilterManager.isValidDateRange]. destruct (startDate r) as [|a], (endDate r) as [|b];
    cbn [le]; try discriminate.
  intros H. exists a, b. repeat split. apply Z.leb_le, H.
Qed.

Lemma toISOString_valid (t : Z) : exists s, toISOString (Int t) = Some s.
Proof. cbn [toISOString]. eexists. reflexivity. Qed.

(** A run of [applyDateFilter] on bound fields, a valid range and a host
    that has [applyJsonFilter]: one call, with the one filter. *)
Lemma applyDateFilter_bound (st : FilterManager.State) (r : IDateRange) (host : Host)
      (js : option AdvancedFilter -> string -> string -> Z -> Outcome)
      (tgt : SQExpr) (columnName tableName : string) :
  FilterManager.dateColumnTarget st = Some tgt ->
  FilterManager.truthy_name (FilterManager.dateColumnName st) = Some columnName ->
  FilterManager.truthy_name (FilterManager.tableQualifiedName st) = Some tableName ->
  FilterManager.isValidDateRange (Some r) = true ->
  applyJsonFilter host = Some js ->
  exists s e,
    toISOString (startDate r) = Some s /\ toISOString (endDate r) = Some e
    /\ Civil.host_calls (Eff.trace (FilterManager.applyDateFilter st (Some r) host))
       = [HostApplyJsonFilter (Some (Civil.manager_filter tableName columnName s e))
                              "general" "filter" 0]
    /\ Civil.filters_sent (Eff.trace (FilterManager.applyDateFilter st (Some r) host))
       = [Civil.manager_filter tableName columnName s e].
Proof.
  intros Ht Hc Hn Hv Hj.
  destruct (valid_range_dates r Hv) as (a & b & Ha & Hb & _).
  destruct (toISOString_valid a) as (s & Hs).
  destruct (toISOString_valid b) as (e & He).
  exists s, e. rewrite Ha, Hb. split; [exact Hs | split; [exact He |]].
  unfold FilterManager.applyDateFilter. rewrite Ht, Hc, Hn, Hv.
  unfold FilterManager.isoString. rewrite Ha, Hb, Hs, He.
  unfold call_applyJsonFilter. rewrite Hj.
  unfold Civil.manager_filter.
  unfold Eff.bind, Eff.ret, Eff.call, Eff.emit. cbv beta iota.
  match goal with |- context [js ?f ?x ?y ?z] => destruct (js f x y z) end;
    split; reflexivity.
Qed.

(** Every filter that [applyDateFilter] hands to the host carries the two
    bounds as [toISOString] writes them. *)
Lemma applyDateFilter_filters (st : FilterManager.State) (r : option IDateRange)
      (host : Host) (f : AdvancedFilter) :
  In f (Civil.filters_sent (Eff.trace (FilterManager.applyDateFilter st r host))) ->
  exists rg s e,
    r = Some rg
    /\ toISOString (startDate rg) = Some s /\ toISOString (endDate rg) = Some e
    /\ map value (conditions f) = [s; e].
Proof.
  unfold FilterManager.applyDateFilter.
  destruct (FilterManager.dateColumnTarget st) as [tgt|]; [| intros []].
  destruct (FilterManager.truthy_name (FilterManager.dateColumnName st)) as [cn|];
    [| intros []].
  destruct (FilterManager.truthy_name (FilterManager.tableQualifiedName st)) as [tn|];
    [| intros []].
  destruct r as [rg|]; [| intros []].
  destruct (FilterManager.isValidDateRange (Some rg)) eqn:Hv; [| intros []].
  destruct (valid_range_dates rg Hv) as (a & b & Ha & Hb & _).
  destruct (toISOString_valid a) as (s & Hs).
  destruct (toISOString_valid b) as (e & He).
  unfold FilterManager.isoString. rewrite Ha, Hb, Hs, He.
  unfold call_applyJsonFilter.
  destruct (applyJsonFilter host) as [js|]; [| intros []].
  unfold Eff.bind, Eff.ret, Eff.call, Eff.emit. cbv beta iota.
  match goal with |- context [js ?f ?x ?y ?z] => destruct (js f x y z) end;
    (intros [<- | []]; exists rg, s, e; rewrite Ha, Hb; repeat split; assumption).
Qed.

Lemma applyDateFilter_unbound (st : FilterManager.State) (r : option IDateRange)
      (host : Host) :
  FilterManager.dateColumnTarget st = None
  \/ FilterManager.truthy_name (FilterManager.dateColumnName st) = None
  \/ FilterManager.truthy_name (FilterManager.tableQualifiedName st) = None ->
  FilterManager.applyDateFilter st r host
  = ([ConsoleWarn "No date column available for filtering"], Eff.Done tt).
Proof.
  unfold FilterManager.applyDateFilter.
  intros [H | [H | H]]; rewrite H;
    repeat match goal with
           | |- context [match ?x with _ => _ end] => destruct x
           end; reflexivity.
Qed.

(** [hasDateColumn] changes the fields only when it answers true. *)
Lemma hasDateColumn_false_keeps_fields (st : FilterManager.State) (dv : option DataView) :
  fst (FilterManager.hasDateColumn st dv) = false ->
  snd (FilterManager.hasDateColumn st dv) = st.
Proof.
  unfold FilterManager.hasDateColumn.
  repeat match goal with
         | |- context [match ?x with _ => _ end] => destruct x
         end; cbn [fst snd]; intros H; reflexivity || discriminate.
Qed.

End FilterManagerRuns.

(** * Part III: the claims *)

(** ** C1: the preset ranges *)

(** C1, as the code has it, in any time zone.  [DateRangeCalculator.calculateDateRange],
    run at the moment [now], passes through three local times: 23:59:59.999
    of today, the same time the preset's number of days earlier, and
    00:00:00.000 of that earlier day.  Where the three are on the clock, the
    range runs from 00:00:00.000 of the earlier day to 23:59:59.999 of today.
    [DateUtils.getDateRange], the computation that takes an anchor,
    normalises nothing: its end is the anchor itself and its start is the
    moment of the anchor's local time, the preset's number of days earlier,
    at the anchor's own time of day where that local time is on the clock. *)
Theorem preset_range_computation {K : Clock} (now anchor : Z)
        (rangeType : DateRangeType) (range : PredefinedRange) :
  let today := Civil.local_day now in
  let first := today - Civil.preset_days rangeType in
  let back := LocalTime anchor - range_days range * msPerDay in
  let r := DateRangeCalculator.calculateDateRange now rangeType in
  let g := DateUtils.getDateRange now range (Some (Int anchor)) in
  Z.abs now <= maxTimeValue ->
  Z.abs anchor <= maxTimeValue ->
  Civil.on_the_clock (today * msPerDay + (msPerDay - 1)) ->
  Civil.on_the_clock (first * msPerDay + (msPerDay - 1)) ->
  Civil.on_the_clock (first * msPerDay) ->
  r = {| startDate := Int (UTC (first * msPerDay));
         endDate := Civil.end_of_day (Int now);
         type := rangeType |}
  /\ Civil.time_of_day (startDate r) = (Int 0, Int 0, Int 0, Int 0)
  /\ Civil.local_day (UTC (first * msPerDay)) = first
  /\ Civil.time_of_day (endDate r) = (Int 23, Int 59, Int 59, Int 999)
  /\ Civil.civil_date (endDate r) = Civil.civil_date (Int now)
  /\ Picker.endDate g = Int anchor
  /\ (range <> CUSTOM -> Picker.startDate g = TimeClip (UTC back))
  /\ (Civil.on_the_clock back ->
      Civil.time_of_day (Int (UTC back)) = Civil.time_of_day (Int anchor)
      /\ Civil.local_day (UTC back) = Civil.local_day anchor - range_days range).
Proof.
  cbv zeta. intros Hn Ha He Hb Hs.
  rewrite (calculateDateRange_on_the_clock now rangeType Hn He Hb Hs).
  rewrite (getDateRange_local_days_back now anchor range Ha).
  cbn [startDate endDate Picker.startDate Picker.endDate Civil.end_of_day].
  split; [reflexivity |].
  split; [apply time_of_day_midnight, Hs |].
  split; [apply on_the_clock_midnight_day, Hs |].
  split; [apply time_of_day_last_ms, He |].
  split.
  { apply civil_date_same_day, on_the_clock_day; [unfold msPerDay; lia | exact He]. }
  split; [reflexivity |].
  split; [destruct range; intros N; reflexivity || (exfalso; apply N; reflexivity) |].
  intros [_ L]. apply time_of_day_days_apart, L.
Qed.

(** Last7Days computed on 2024-12-31 (at 13:00, local time being UTC):
    from 2024-12-24T00:00:00.000 to 2024-12-31T23:59:59.999. *)
Lemma preset_range_computation_witness :
  let r := @DateRangeCalculator.calculateDateRange Engines.utc
             Examples.dec_31_2024_afternoon Last7Days in
  toISOString (startDate r) = Some "2024-12-24T00:00:00.000Z"
  /\ toISOString (endDate r) = Some "2024-12-31T23:59:59.999Z".
Proof.
  assert (A1 : Z.abs Examples.dec_31_2024_afternoon <= maxTimeValue)
    by (vm_compute; discriminate).
  assert (A2 : Z.abs Examples.dec_31_2024_midnight <= maxTimeValue)
    by (vm_compute; discriminate).
  assert (C1 : @Civil.on_the_clock Engines.utc
                 (@Civil.local_day Engines.utc Examples.dec_31_2024_afternoon * msPerDay
                  + (msPerDay - 1)))
    by (split; vm_compute; [discriminate | reflexivity]).
  assert (C2 : @Civil.on_the_clock Engines.utc
                 ((@Civil.local_day Engines.utc Examples.dec_31_2024_afternoon
                   - Civil.preset_days Last7Days) * msPerDay + (msPerDay - 1)))
    by (split; vm_compute; [discriminate | reflexivity]).
  assert (C3 : @Civil.on_the_clock Engines.utc
                 ((@Civil.local_day Engines.utc Examples.dec_31_2024_afternoon
                   - Civil.preset_days Last7Days) * msPerDay))
    by (split; vm_compute; [discriminate | reflexivity]).
  destruct (@preset_range_computation Engines.utc Examples.dec_31_2024_afternoon
              Examples.dec_31_2024_midnight Last7Days LATEST_7_DAYS A1 A2 C1 C2 C3)
    as [H _].
  cbv zeta. rewrite H. split; vm_compute; reflexivity.
Defined.

(** C1, as stated, fails on [DateUtils.getDateRange]: anchored at
    2024-12-31T00:00:00.000 the end of the Last7Days range is that very
    moment, not 23:59:59.999 of the day. *)
Lemma getDateRange_leaves_the_anchor :
  let anchor := Int Examples.dec_31_2024_midnight in
  let r := @DateUtils.getDateRange Engines.utc 0 LATEST_7_DAYS (Some anchor) in
  ~ (Picker.endDate r = @Civil.end_of_day Engines.utc anchor
     /\ Picker.startDate r = @Civil.start_of_day Engines.utc (Civil.days_before 7 anchor)).
Proof. cbv zeta. vm_compute. intros [H _]. discriminate H. Qed.

(** ** C2: custom ranges *)




(** ** C3: the text of the two bounds *)

(** C3, as the code has it.  The filter service (both single-file visuals)
    writes each bound as the local calendar date of the Date, the letter T and
    a fixed time, 00:00:00.000 for the start and 23:59:59.999 for the end, and
    the text does not end in Z.  [FilterManager.applyDateFilter] writes the
    bounds with [toISOString]: the UTC fields of the moment, closed by Z. *)
Theorem filter_bounds_as_text {E : Engine} :
  (forall (d : Date) (isStart : bool),
      let v := FilterService.formatDateForDirectQuery d isStart in
      let time := if isStart then "00:00:00.000" else "23:59:59.999" in
      v = (DateUtils.formatDate (Some d) ++ String "T" time)%string
      /\ Civil.after_char "T" v = Some time
      /\ Str.last_char v <> Some "Z"%char
      /\ DirectQuery.formatDateForDirectQuery d isStart = v)
  /\ (forall st range f,
         FilterService.createAdvancedFilter st range = Some f ->
         map value (conditions f)
         = [FilterService.formatDateForDirectQuery (Picker.startDate range) true;
            FilterService.formatDateForDirectQuery (Picker.endDate range) false])
  /\ (forall st range f,
         DirectQuery.createAdvancedFilter st range = Some f ->
         map value (conditions f)
         = [DirectQuery.formatDateForDirectQuery (Picker.startDate range) true;
            DirectQuery.formatDateForDirectQuery (Picker.endDate range) false])
  /\ (forall st r host f,
         In f (Civil.filters_sent (Eff.trace (FilterManager.applyDateFilter st r host))) ->
         exists rg s e,
           r = Some rg
           /\ toISOString (startDate rg) = Some s /\ toISOString (endDate rg) = Some e
           /\ map value (conditions f) = [s; e]
           /\ Str.last_char s = Some "Z"%char /\ Str.last_char e = Some "Z"%char).
Proof.
  split; [| split; [| split]].
  - intros d isStart. cbv zeta.
    destruct (formatDateForDirectQuery_shape d isStart) as (H1 & H2 & H3).
    repeat split; assumption || reflexivity.
  - intros st range f H. unfold FilterService.createAdvancedFilter in H.
    destruct (FilterService.dateColumn st); [| discriminate].
    injection H as <-. reflexivity.
  - intros st range f H. unfold DirectQuery.createAdvancedFilter in H.
    destruct (DirectQuery.dateColumn st); [| discriminate].
    injection H as <-. reflexivity.
  - intros st r host f H.
    destruct (applyDateFilter_filters st r host f H) as (rg & s & e & Hr & Hs & He & Hv).
    exists rg, s, e. repeat split; try assumption; eapply toISOString_ends_in_Z; eassumption.
Qed.

(** The bounds of the last seven days of 2024 as the filter service writes them. *)
Lemma filter_bounds_as_text_witness :
  let st := {| FilterService.host := Examples.accepting_host;
               FilterService.dateColumn :=
                 Some {| Picker.displayName := "OrderDate"; Picker.queryName := "Sales.OrderDate";
                         Picker.minDate := None; Picker.maxDate := None |} |} in
  let range := {| Picker.startDate := Int (Examples.dec_31_2024_midnight - 7 * msPerDay);
                  Picker.endDate := Int Examples.dec_31_2024_midnight |} in
  option_map (fun f => map value (conditions f))
             (@FilterService.createAdvancedFilter Engines.utc_minus_5 st range)
  = Some ["2024-12-23T00:00:00.000"; "2024-12-30T23:59:59.999"].
Proof.
  cbv zeta.
  destruct (@FilterService.createAdvancedFilter Engines.utc_minus_5 _ _) as [f|] eqn:H;
    [| vm_compute in H; discriminate H].
  cbn [option_map].
  rewrite (proj1 (proj2 (@filter_bounds_as_text Engines.utc_minus_5)) _ _ _ H).
  vm_compute. reflexivity.
Defined.

(** C3, as stated, fails on [FilterManager.applyDateFilter]: five hours behind
    UTC, the range of the last seven days of 2024 goes to the host as UTC
    text, closed by Z and with the time of day of the UTC moment. *)
Lemma applyDateFilter_writes_utc_text :
  let st := FilterManager.setDateColumnTarget
              {| source := Some {| entity := "Sales" |} |} "OrderDate" "Sales" in
  let range := @DateRangeCalculator.calculateDateRange Engines.utc_minus_5
                 Examples.dec_31_2024_afternoon Last7Days in
  map (fun f => map value (conditions f))
      (Civil.filters_sent
         (Eff.trace (FilterManager.applyDateFilter st (Some range) Examples.accepting_host)))
  = [["2024-12-24T05:00:00.000Z"; "2025-01-01T04:59:59.999Z"]].
Proof. vm_compute. reflexivity. Qed.

(** ** C4: the shape of the filter *)

(** C4.  On a bound column the filter has the target that the column's
    reference parses to, the operator And and exactly two conditions,
    GreaterThanOrEqual on the start and LessThanOrEqual on the end; the filter
    manager hands the host one such filter for a valid range. *)
Theorem advanced_filter_shape {E : Engine} :
  (forall st range col,
      FilterService.dateColumn st = Some col ->
      FilterService.createAdvancedFilter st range =
        Some {| schema := "http://powerbi.com/product/schema#advanced";
                target :=
                  FilterService.getTargetFromQueryName (Picker.queryName col)
                                                       (Picker.displayName col);
                logicalOperator := "And";
                conditions :=
                  [ {| operator := "GreaterThanOrEqual";
                       value :=
                         FilterService.formatDateForDirectQuery (Picker.startDate range) true |};
                    {| operator := "LessThanOrEqual";
                       value :=
                         FilterService.formatDateForDirectQuery (Picker.endDate range) false |} ];
                filterType := Some 0 |})
  /\ (forall st range f,
         DirectQuery.createAdvancedFilter st range = Some f ->
         logicalOperator f = "And"
         /\ map operator (conditions f) = ["GreaterThanOrEqual"; "LessThanOrEqual"]
         /\ map value (conditions f)
            = [DirectQuery.formatDateForDirectQuery (Picker.startDate range) true;
               DirectQuery.formatDateForDirectQuery (Picker.endDate range) false])
  /\ (forall st r host js tgt columnName tableName,
         FilterManager.dateColumnTarget st = Some tgt ->
         FilterManager.truthy_name (FilterManager.dateColumnName st) = Some columnName ->
         FilterManager.truthy_name (FilterManager.tableQualifiedName st) = Some tableName ->
         FilterManager.isValidDateRange (Some r) = true ->
         applyJsonFilter host = Some js ->
         exists s e,
           toISOString (startDate r) = Some s /\ toISOString (endDate r) = Some e
           /\ Civil.filters_sent (Eff.trace (FilterManager.applyDateFilter st (Some r) host))
              = [ {| schema := "https://powerbi.com/product/schema#advanced";
                     target := {| table := tableName; column := columnName |};
                     logicalOperator := "And";
                     conditions :=
                       [ {| operator := "GreaterThanOrEqual"; value := s |};
                         {| operator := "LessThanOrEqual"; value := e |} ];
                     filterType := None |} ]).
Proof.
  split; [| split].
  - intros st range col H. apply createAdvancedFilter_bound, H.
  - intros st range f H. unfold DirectQuery.createAdvancedFilter in H.
    destruct (DirectQuery.dateColumn st); [| discriminate].
    injection H as <-. repeat split.
  - intros st r host js tgt columnName tableName Ht Hc Hn Hv Hj.
    destruct (applyDateFilter_bound st r host js tgt columnName tableName Ht Hc Hn Hv Hj)
      as (s & e & Hs & He & _ & Hf).
    exists s, e. repeat split; assumption.
Qed.

(** The filter for the column [Sales.OrderDate]. *)
Lemma advanced_filter_shape_witness :
  let col := {| Picker.displayName := "OrderDate"; Picker.queryName := "Sales.OrderDate";
                Picker.minDate := None; Picker.maxDate := None |} in
  let st := {| FilterService.host := Examples.accepting_host;
               FilterService.dateColumn := Some col |} in
  let range := {| Picker.startDate := Int (Examples.dec_31_2024_midnight - 7 * msPerDay);
                  Picker.endDate := Int Examples.dec_31_2024_midnight |} in
  option_map (fun f => (target f, logicalOperator f, map operator (conditions f)))
             (@FilterService.createAdvancedFilter Engines.utc st range)
  = Some ({| table := "Sales"; column := "OrderDate" |}, "And",
          ["GreaterThanOrEqual"; "LessThanOrEqual"]).
Proof.
  intros col st range.
  rewrite (proj1 (@advanced_filter_shape Engines.utc) st range col eq_refl).
  vm_compute. reflexivity.
Defined.

(** ** C5: qualified references *)

(** C5, as the code has it.  [getTargetFromQueryName] reads "Sales.OrderDate"
    and "Sales[OrderDate]" as table Sales, column OrderDate, whatever the
    display name.  A reference of neither form gets the table "Table" and, as
    column, the display name; the reference itself is the column only when
    the display name is empty.  The function is total: the empty reference
    gets "Table" and the display name, or "Date" without one.  The DirectQuery
    visual splits at dots only: it leaves "Sales[OrderDate]" whole, as the
    column of "Table". *)
Theorem getTargetFromQueryName_cases (displayName : string) :
  FilterService.getTargetFromQueryName "Sales.OrderDate" displayName
  = {| table := "Sales"; column := "OrderDate" |}
  /\ FilterService.getTargetFromQueryName "Sales[OrderDate]" displayName
     = {| table := "Sales"; column := "OrderDate" |}
  /\ FilterService.getTargetFromQueryName "OrderDate" displayName
     = {| table := "Table"; column := Str.or_else displayName "OrderDate" |}
  /\ FilterService.getTargetFromQueryName "" displayName
     = {| table := "Table"; column := Str.or_else displayName "Date" |}
  /\ (forall qn,
         Str.is_empty qn = false ->
         Str.contains_char "." qn = false ->
         Regex.match_bracket qn = None ->
         FilterService.getTargetFromQueryName qn displayName
         = {| table := "Table"; column := Str.or_else displayName qn |})
  /\ (forall qn, exists t, FilterService.getTargetFromQueryName qn displayName = t)
  /\ (forall (E : Engine) host range reference,
         In reference ["Sales.OrderDate"; "Sales[OrderDate]"; "OrderDate"] ->
         option_map target
           (DirectQuery.createAdvancedFilter
              {| DirectQuery.host := host;
                 DirectQuery.dateColumn :=
                   Some {| Picker.displayName := displayName; Picker.queryName := reference;
                           Picker.minDate := None; Picker.maxDate := None |} |}
              range)
         = Some (if String.eqb reference "Sales.OrderDate"
                 then {| table := "Sales"; column := "OrderDate" |}
                 else {| table := "Table"; column := reference |})).
Proof.
  split; [reflexivity |]. split; [reflexivity |]. split; [reflexivity |].
  split; [reflexivity |]. split; [| split].
  - intros qn H1 H2 H3. unfold FilterService.getTargetFromQueryName.
    rewrite H1, H2, H3. reflexivity.
  - intros qn. eexists. reflexivity.
  - intros E host range reference [<- | [<- | [<- | []]]]; reflexivity.
Qed.

(** The fall-back on a reference of neither form, with and without a display name. *)
Lemma getTargetFromQueryName_cases_witness :
  FilterService.getTargetFromQueryName "OrderDate" "Order Date"
  = {| table := "Table"; column := "Order Date" |}
  /\ FilterService.getTargetFromQueryName "OrderDate" ""
     = {| table := "Table"; column := "OrderDate" |}.
Proof.
  split.
  - exact (proj1 (proj2 (proj2 (proj2 (proj2 (getTargetFromQueryName_cases "Order Date")))))
             "OrderDate" eq_refl eq_refl eq_refl).
  - exact (proj1 (proj2 (proj2 (proj2 (proj2 (getTargetFromQueryName_cases "")))))
             "OrderDate" eq_refl eq_refl eq_refl).
Defined.

(** C5, as stated, fails when the column has a display name of its own: the
    reference "OrderDate" of a column shown as "Order Date" gets the column
    "Order Date". *)
Lemma unparsable_reference_takes_the_display_name :
  column (FilterService.getTargetFromQueryName "OrderDate" "Order Date") <> "OrderDate".
Proof. vm_compute. discriminate. Qed.

(** ** C6: apply without a column *)

(** C6.  With no column bound, apply reports that and makes no call of the
    host: the filter service (both visuals) shows the error "Unable to apply
    filter - add a date field", the filter manager warns "No date column
    available for filtering"; the run ends there. *)
Theorem apply_without_column_calls_no_host {E : Engine} :
  (forall st range,
      FilterService.dateColumn st = None ->
      FilterService.applyFilter st range
      = ([ShowError "Unable to apply filter - add a date field"], Eff.Done tt)
      /\ Civil.host_calls (Eff.trace (FilterService.applyFilter st range)) = [])
  /\ (forall st range,
         DirectQuery.dateColumn st = None ->
         DirectQuery.applyFilter st range
         = ([ShowError "Unable to apply filter - add a date field"], Eff.Done tt)
         /\ Civil.host_calls (Eff.trace (DirectQuery.applyFilter st range)) = [])
  /\ (forall st range host,
         FilterManager.dateColumnTarget st = None
         \/ FilterManager.truthy_name (FilterManager.dateColumnName st) = None
         \/ FilterManager.truthy_name (FilterManager.tableQualifiedName st) = None ->
         FilterManager.applyDateFilter st range host
         = ([ConsoleWarn "No date column available for filtering"], Eff.Done tt)
         /\ Civil.host_calls (Eff.trace (FilterManager.applyDateFilter st range host)) = []).
Proof.
  split; [| split].
  - intros st range H. rewrite (applyFilter_unbound st range H). split; reflexivity.
  - intros st range H. rewrite (DirectQuery_applyFilter_unbound st range H). split; reflexivity.
  - intros st range host H. rewrite (applyDateFilter_unbound st range host H).
    split; reflexivity.
Qed.

(** Apply after the binding was set to null, and on a fresh filter manager. *)
Lemma apply_without_column_calls_no_host_witness :
  Eff.trace
    (@FilterService.applyFilter Engines.utc
       (FilterService.setDateColumn None
          {| FilterService.host := Examples.accepting_host;
             FilterService.dateColumn :=
               Some {| Picker.displayName := "OrderDate"; Picker.queryName := "Sales.OrderDate";
                       Picker.minDate := None; Picker.maxDate := None |} |})
       {| Picker.startDate := Int 0; Picker.endDate := Int msPerDay |})
  = [ShowError "Unable to apply filter - add a date field"]
  /\ Eff.trace
       (FilterManager.applyDateFilter FilterManager.initial
          (Some {| startDate := Int 0; endDate := Int msPerDay; type := Custom |})
          Examples.accepting_host)
     = [ConsoleWarn "No date column available for filtering"].
Proof.
  split.
  - match goal with
    | |- Eff.trace (FilterService.applyFilter ?st ?r) = _ =>
        rewrite (proj1 (proj1 (@apply_without_column_calls_no_host Engines.utc)
                          st r eq_refl))
    end.
    reflexivity.
  - match goal with
    | |- Eff.trace (FilterManager.applyDateFilter ?st ?r ?h) = _ =>
        rewrite (proj1 (proj2 (proj2 (@apply_without_column_calls_no_host Engines.utc))
                          st r h (or_introl eq_refl)))
    end.
    reflexivity.
Defined.

(** ** C7: clearing *)

(** C7, as the code has it.  [clearFilter] of the DirectQuery visual skips the
    capabilities the host does not have.  When every call it makes returns, it
    shows success exactly if the host has the filter manager's [clear] or
    [applyJsonFilter], and the error "Unable to clear filters" otherwise.  A
    call that throws ends the run in the one [catch]: when the general scope
    is cleared and the advanced scope throws, no success is shown and the
    error, with the message thrown, is.  [clearFilter] of the other visual
    clears the general scope only, with the same two outcomes. *)
Theorem clearFilter_outcomes :
  (forall st h,
      DirectQuery.host st = Some h ->
      Civil.host_returns h ->
      Civil.shows_success (Eff.trace (DirectQuery.clearFilter st))
      = Civil.has_clearing_capability h
      /\ Civil.shows_error (Eff.trace (DirectQuery.clearFilter st))
         = negb (Civil.has_clearing_capability h))
  /\ (forall st h f m,
         DirectQuery.host st = Some h ->
         applyJsonFilter h = Some f ->
         Civil.filterManager_clear_returns h ->
         f None "general" "filter" 1 = Returns ->
         f None "advanced" "filter" 1 = Throws m ->
         Civil.shows_success (Eff.trace (DirectQuery.clearFilter st)) = false
         /\ In (ShowError ("Error clearing filters: " ++ m))
               (Eff.trace (DirectQuery.clearFilter st))
         /\ In (HostApplyJsonFilter None "general" "filter" 1)
               (Eff.trace (DirectQuery.clearFilter st)))
  /\ (forall st f,
         applyJsonFilter (FilterService.host st) = Some f ->
         Eff.trace (FilterService.clearFilter st)
         = match f None "general" "filter" 1 with
           | Returns =>
               [HostApplyJsonFilter None "general" "filter" 1;
                ShowSuccess "All filters cleared - showing full data"]
           | Throws m =>
               [HostApplyJsonFilter None "general" "filter" 1;
                ConsoleError m;
                ShowError "Error clearing filters."]
           end).
Proof.
  split; [| split].
  - intros st h Hh Hr. apply clearFilter_when_host_returns; assumption.
  - intros st h f m Hh Hj Hf Hg Ha.
    apply (clearFilter_when_advanced_scope_throws st h f m); assumption.
  - intros st f Hj. unfold FilterService.clearFilter, call_applyJsonFilter.
    rewrite Hj. unfold FilterService.REMOVE, Eff.bind, Eff.call, Eff.emit, Eff.ret.
    cbv beta iota.
    destruct (f None "general" "filter" 1); reflexivity.
Qed.

(** Clearing on a host that accepts every call, and on one that rejects the
    advanced scope. *)
Lemma clearFilter_outcomes_witness :
  Civil.shows_success
    (Eff.trace (DirectQuery.clearFilter
                  {| DirectQuery.host := Some Examples.accepting_host;
                     DirectQuery.dateColumn := None |})) = true
  /\ Civil.shows_success
       (Eff.trace (DirectQuery.clearFilter
                     {| DirectQuery.host := Some Examples.general_scope_only_host;
                        DirectQuery.dateColumn := None |})) = false.
Proof.
  split.
  - refine (proj1 (proj1 clearFilter_outcomes
                      {| DirectQuery.host := Some Examples.accepting_host;
                         DirectQuery.dateColumn := None |}
                      Examples.accepting_host eq_refl _)).
    repeat split.
    + intros f [= <-] a b c d. reflexivity.
    + intros fm o [=].
    + intros sm o [=].
  - refine (proj1 (proj1 (proj2 clearFilter_outcomes)
                      {| DirectQuery.host := Some Examples.general_scope_only_host;
                         DirectQuery.dateColumn := None |}
                      Examples.general_scope_only_host _ "unsupported scope"
                      eq_refl eq_refl _ eq_refl eq_refl)).
    intros fm o [=].
Defined.

(** C7, as stated, fails when a clearing call throws (scenario E): on a host
    that clears the general scope and rejects the advanced one, the run shows
    the error and no success. *)
Lemma clearFilter_surfaces_a_thrown_call :
  let run := DirectQuery.clearFilter
               {| DirectQuery.host := Some Examples.general_scope_only_host;
                  DirectQuery.dateColumn := None |} in
  Eff.trace run
  = [ConsoleLog "Clearing all filters to restore full data access";
     HostApplyJsonFilter None "general" "filter" 1;
     HostApplyJsonFilter None "advanced" "filter" 1;
     ConsoleError "Clear filter error:";
     ShowError "Error clearing filters: unsupported scope"]
  /\ Civil.shows_success (Eff.trace run) = false
  /\ Civil.shows_error (Eff.trace run) = true.
Proof. vm_compute. repeat split. Qed.

(** ** C8: losing the column *)

(** C8 on [FilterManager]: the code does not do what the claim says.  After
    an update that binds [Sales.OrderDate], an update without a date column
    makes [hasDateColumn] answer false and leaves the three fields as they
    were; the next [applyDateFilter] hands the host a filter on the stale
    target. *)
Theorem hasDateColumn_keeps_the_stale_target :
  let bound := snd (FilterManager.hasDateColumn FilterManager.initial
                      Examples.update_with_date_column) in
  let lost := FilterManager.hasDateColumn bound Examples.update_without_date_column in
  let range := {| startDate := Int 0; endDate := Int msPerDay; type := Custom |} in
  fst lost = false
  /\ snd lost = bound
  /\ map target
         (Civil.filters_sent
            (Eff.trace (FilterManager.applyDateFilter (snd lost) (Some range)
                          Examples.accepting_host)))
     = [ {| table := "Sales"; column := "OrderDate" |} ].
Proof. vm_compute. repeat split. Qed.

(** The single-file visual does what the claim says: an update in which no
    column is found sets the binding of the visual and of its filter service
    to null, and the next apply ends in the error, without a call of the
    host. *)
Lemma updateDataColumnInfo_drops_the_binding {E : Engine} (now : Z)
      (st : DateTimePickerVisual.State) (dv : option DataView) (range : Picker.IDateRange) :
  DateTimePickerVisual.discover now dv = None ->
  let st' := DateTimePickerVisual.updateDataColumnInfo now st dv in
  DateTimePickerVisual.dateColumn st' = None
  /\ FilterService.dateColumn (DateTimePickerVisual.filterService st') = None
  /\ FilterService.applyFilter (DateTimePickerVisual.filterService st') range
     = ([ShowError "Unable to apply filter - add a date field"], Eff.Done tt).
Proof.
  intros H. cbv zeta. unfold DateTimePickerVisual.updateDataColumnInfo. rewrite H.
  cbn [DateTimePickerVisual.dateColumn DateTimePickerVisual.filterService
       FilterService.setDateColumn FilterService.dateColumn].
  repeat split. 
Qed.

Lemma discover_without_date_column {E : Engine} (now : Z) :
  DateTimePickerVisual.discover now Examples.update_without_date_column = None.
Proof. reflexivity. Qed.

(** ** C9: parseDate after formatDate *)

(** C9, as the code has it, in any time zone.  For a valid Date whose local
    year has four digits (1000 to 9999), [parseDate(formatDate(d))] is
    [new Date(y, m, d)] of the local fields of [d]: the moment that the zone
    gives the midnight of the local day of [d].  Where that midnight is on
    the clock, it is the start of the day of [d]: same year, month and date,
    time 00:00:00.000.  Whatever its input, [parseDate] returns an invalid
    Date or the moment of a local midnight, at 00:00:00.000 where the clock
    shows that midnight, and it returns the invalid Date for null,
    undefined, the empty string and every text that neither pattern matches
    and [Date.parse] does not read. *)
Theorem parseDate_formatDate_round_trip {K : Clock} :
  (forall t y,
      getFullYear (Int t) = Int y ->
      1000 <= y <= 9999 ->
      let p := DateUtils.parseDate (VString (DateUtils.formatDate (Some (Int t)))) in
      p = TimeClip (UTC (Civil.local_day t * msPerDay))
      /\ (Civil.on_the_clock (Civil.local_day t * msPerDay) ->
          p = Civil.start_of_day (Int t)
          /\ Civil.civil_date p = Civil.civil_date (Int t)
          /\ Civil.time_of_day p = (Int 0, Int 0, Int 0, Int 0)))
  /\ (forall input,
         DateUtils.parseDate input = NaN
         \/ exists day,
              DateUtils.parseDate input = Int (UTC (day * msPerDay))
              /\ (LocalTime (UTC (day * msPerDay)) = day * msPerDay ->
                  Civil.time_of_day (DateUtils.parseDate input)
                  = (Int 0, Int 0, Int 0, Int 0)))
  /\ DateUtils.parseDate (VString "") = NaN
  /\ DateUtils.parseDate VNull = NaN
  /\ DateUtils.parseDate VUndefined = NaN
  /\ (forall s,
         Regex.match_iso (Str.trim s) = None ->
         Regex.match_slash (Str.trim s) = None ->
         Date_parse (Str.trim s) = NaN ->
         DateUtils.parseDate (VString s) = NaN).
Proof.
  split; [| split; [| split; [| split; [| split]]]].
  - intros t y Hy Ry. apply getFullYear_Int in Hy. cbv zeta.
    rewrite parseDate_formatDate_local_day by (subst y; exact Ry).
    split; [reflexivity |]. intros C.
    rewrite (on_the_clock_valid _ C). cbn [Civil.start_of_day].
    split; [reflexivity |]. split.
    + apply civil_date_same_day, on_the_clock_midnight_day, C.
    + apply time_of_day_midnight, C.
  - intros input. destruct (parseDate_reads_a_midnight input) as [H | (day & H)].
    + left. exact H.
    + right. exists day. split; [exact H |]. intros L. rewrite H.
      apply time_of_day_midnight, L.
  - reflexivity.
  - reflexivity.
  - reflexivity.
  - apply parseDate_unrecognised.
Qed.

(** The afternoon of 2024-12-31 in New York, read back as the midnight of
    that day, five hours behind UTC. *)
Lemma parseDate_formatDate_round_trip_witness :
  @DateUtils.parseDate Engines.new_york_2024
    (VString (@DateUtils.formatDate Engines.new_york_2024
                (Some (Int Examples.dec_31_2024_afternoon))))
  = Int (Examples.dec_31_2024_midnight + 5 * msPerHour).
Proof.
  assert (R : 1000 <= 2024 <= 9999) by lia.
  rewrite (proj1 (proj1 (@parseDate_formatDate_round_trip Engines.new_york_2024)
                    Examples.dec_31_2024_afternoon 2024 eq_refl R)).
  vm_compute. reflexivity.
Defined.

(** C9, as stated, fails on a year that [formatDate] writes with a sign and
    six digits.  [Date.parse] reads such a text as UTC (the standard fixes
    this for date-only forms), so five hours behind UTC one o'clock in the
    morning of 1 January -100000 comes back as 31 December -100001. *)
Lemma expanded_year_comes_back_a_day_early :
  let d := Int Examples.jan_1_year_minus_100000 in
  let p := @DateUtils.parseDate Engines.utc_minus_5
             (VString (@DateUtils.formatDate Engines.utc_minus_5 (Some d))) in
  @DateUtils.formatDate Engines.utc_minus_5 (Some d) = "-100000-01-01"
  /\ @Civil.civil_date Engines.utc_minus_5 d = (Int (-100000), Int 0, Int 1)
  /\ @Civil.civil_date Engines.utc_minus_5 p = (Int (-100001), Int 11, Int 31)
  /\ @Civil.civil_date Engines.utc_minus_5 p <> @Civil.civil_date Engines.utc_minus_5 d.
Proof. vm_compute. repeat split. discriminate. Qed.

(** ** C10: findMinMaxDates *)

(** C10.  [findMinMaxDates] (both visuals) returns a null minimum exactly
    when it returns a null maximum; two dates it returns are in order, each is
    the parsed value of an element of the array, and every valid parsed value
    lies between them; an array that is null, empty or without a valid date
    gives the two nulls. *)
Theorem findMinMaxDates_gives_the_extremes {E : Engine} (arr : option (list JsValue)) :
  Civil.extremes_of DateUtils.parseDate arr (DateUtils.findMinMaxDates arr)
  /\ Civil.extremes_of DirectQuery.new_Date_value arr (DirectQuery.findMinMaxDates arr).
Proof.
  split; [apply findMinMaxDates_extremes | apply DirectQuery_findMinMaxDates_extremes].
Qed.

(** * Part IV: further properties of the sources *)

(** The order of the two paths of [applyFilter] in the DirectQuery visual.
    With a column bound and a host that has [createSelectionManager]: the
    filter manager's [applyFilter] takes the filter when the host has it, and
    [applyJsonFilter] is then not called; without it, [applyJsonFilter] takes
    the filter with action code 2.  A host without [createSelectionManager]
    gets no filter at all. *)
Theorem applyFilter_path_order {E : Engine} (st : DirectQuery.State)
        (col : Picker.IDateColumnInfo) (range : Picker.IDateRange) (h : Host) (f : AdvancedFilter) :
  DirectQuery.dateColumn st = Some col ->
  DirectQuery.host st = Some h ->
  DirectQuery.createAdvancedFilter st range = Some f ->
  (forall sm fm apply,
      createSelectionManager h = Some sm ->
      filterManager h = Some fm -> fm_applyFilter fm = Some apply ->
      Civil.host_calls (Eff.trace (DirectQuery.applyFilter st range))
      = [HostCreateSelectionManager; HostFilterManagerApply f]
      /\ Civil.shows_success (Eff.trace (DirectQuery.applyFilter st range))
         = match apply f with Returns => true | Throws _ => false end)
  /\ (forall sm js,
         createSelectionManager h = Some sm ->
         (filterManager h = None
          \/ exists fm, filterManager h = Some fm /\ fm_applyFilter fm = None) ->
         applyJsonFilter h = Some js ->
         Civil.host_calls (Eff.trace (DirectQuery.applyFilter st range))
         = [HostCreateSelectionManager; HostApplyJsonFilter (Some f) "general" "filter" 2]
         /\ Civil.shows_success (Eff.trace (DirectQuery.applyFilter st range))
            = match js (Some f) "general" "filter" 2 with
              | Returns => true
              | Throws _ => false
              end)
  /\ (createSelectionManager h = None ->
      Eff.trace (DirectQuery.applyFilter st range)
      = [ShowError "Filter service not available"]).
Proof.
  intros Hc Hh Hf. unfold DirectQuery.applyFilter. rewrite Hc, Hf, Hh.
  split; [| split].
  - intros sm fm apply Hs Hm Ha. rewrite Hs, Hm.
    destruct fm as [fa fc]. cbn [fm_applyFilter] in Ha. subst fa.
    unfold Eff.bind, Eff.call, Eff.emit, Eff.ret. cbv beta iota.
    destruct (apply f); split; reflexivity.
  - intros sm js Hs Hm Hj. rewrite Hs.
    assert (R : match filterManager h with
                | Some {| fm_applyFilter := Some _ |} => false
                | _ => true
                end = true).
    { destruct Hm as [-> | (fm & -> & Hn)]; [reflexivity |].
      destruct fm as [fa fc]. cbn [fm_applyFilter] in Hn. subst fa. reflexivity. }
    destruct (filterManager h) as [[[apply|] fc]|]; try discriminate R;
      rewrite Hj; unfold call_applyJsonFilter; rewrite Hj;
      unfold Eff.bind, Eff.call, Eff.emit, Eff.ret; cbv beta iota;
      destruct (js (Some f) "general" "filter" 2); split; reflexivity.
  - intros Hs. rewrite Hs. reflexivity.
Qed.

(** The fall-back path on a host without a filter manager. *)
Lemma applyFilter_path_order_witness :
  let h := {| applyJsonFilter := Some (fun _ _ _ _ => Returns);
              filterManager := None;
              createSelectionManager := Some {| sm_clear := None |} |} in
  let st := {| DirectQuery.host := Some h;
               DirectQuery.dateColumn :=
                 Some {| Picker.displayName := "OrderDate"; Picker.queryName := "Sales.OrderDate";
                         Picker.minDate := None; Picker.maxDate := None |} |} in
  let range := {| Picker.startDate := Int 0; Picker.endDate := Int msPerDay |} in
  Civil.shows_success (Eff.trace (@DirectQuery.applyFilter Engines.utc st range)) = true.
Proof.
  intros h st range.
  destruct (@DirectQuery.createAdvancedFilter Engines.utc st range) as [f|] eqn:Hf;
    [| discriminate Hf].
  destruct (@applyFilter_path_order Engines.utc st _ range h f eq_refl eq_refl Hf)
    as (_ & H & _).
  destruct (H _ _ eq_refl (or_introl eq_refl) eq_refl) as [_ S].
  exact S.
Defined.

(** A range that is not valid reaches no host: [applyDateFilter] logs the
    error and returns (the reversed pair of scenario B). *)
Theorem applyDateFilter_refuses_invalid_range (st : FilterManager.State)
        (r : option IDateRange) (host : Host) :
  FilterManager.isValidDateRange r = false ->
  Civil.host_calls (Eff.trace (FilterManager.applyDateFilter st r host)) = []
  /\ Eff.completed (FilterManager.applyDateFilter st r host) = true.
Proof.
  intros Hv. unfold FilterManager.applyDateFilter.
  destruct (FilterManager.dateColumnTarget st);
    destruct (FilterManager.truthy_name (FilterManager.dateColumnName st));
    destruct (FilterManager.truthy_name (FilterManager.tableQualifiedName st));
    try (split; reflexivity).
  destruct r as [rg|]; [rewrite Hv |]; split; reflexivity.
Qed.

Lemma applyDateFilter_refuses_invalid_range_witness :
  Civil.host_calls
    (Eff.trace
       (FilterManager.applyDateFilter
          (FilterManager.setDateColumnTarget {| source := None |} "OrderDate" "Sales")
          (Some (@DateRangeCalculator.createCustomRange Engines.utc
                   (Int Examples.mar_10_2025_09h)
                   (Int (Examples.mar_10_2025_09h - 9 * msPerDay))))
          Examples.accepting_host)) = [].
Proof.
  refine (proj1 (applyDateFilter_refuses_invalid_range _ _ _ _)).
  vm_compute. reflexivity.
Defined.

(** What [updateDataColumnInfo] leaves bound is read off the update alone:
    the visual and its filter service hold the column found in this update,
    whatever was bound before. *)
Theorem updateDataColumnInfo_rebinds {E : Engine} (now : Z)
        (st : DateTimePickerVisual.State) (dv : option DataView) :
  let st' := DateTimePickerVisual.updateDataColumnInfo now st dv in
  DateTimePickerVisual.dateColumn st' = DateTimePickerVisual.discover now dv
  /\ FilterService.dateColumn (DateTimePickerVisual.filterService st')
     = DateTimePickerVisual.discover now dv
  /\ FilterService.host (DateTimePickerVisual.filterService st')
     = FilterService.host (DateTimePickerVisual.filterService st).
Proof. cbv zeta. repeat split. Qed.

(** The fields of the filter manager after the column was lost are those of
    the binding before. *)
Lemma hasDateColumn_false_keeps_fields_witness :
  let bound := snd (FilterManager.hasDateColumn FilterManager.initial
                      Examples.update_with_date_column) in
  snd (FilterManager.hasDateColumn bound Examples.update_without_date_column) = bound.
Proof.
  intros bound.
  apply (hasDateColumn_false_keeps_fields bound Examples.update_without_date_column).
  reflexivity.
Defined.

(** ** The debug logger *)

Section DebugLog.
Variable toLocaleTimeString : Date -> string.

Lemma slice_last_short {A : Type} (n : nat) (a : list A) :
  (List.length a <= n)%nat -> DebugLogger.slice_last n a = a.
Proof.
  intros H. unfold DebugLogger.slice_last.
  replace (List.length a - n)%nat with O by lia. reflexivity.
Qed.

Lemma slice_last_length {A : Type} (n : nat) (a : list A) :
  List.length (DebugLogger.slice_last n a) = Nat.min n (List.length a).
Proof. unfold DebugLogger.slice_last. rewrite length_skipn. lia. Qed.

(** Pushing on the kept part and cutting again is cutting the whole history. *)
Lemma slice_last_push {A : Type} (n : nat) (h : list A) (x : A) :
  (1 <= n)%nat ->
  (let pushed := (DebugLogger.slice_last n h ++ [x])%list in
   if (n <? List.length pushed)%nat then DebugLogger.slice_last n pushed else pushed)
  = DebugLogger.slice_last n (h ++ [x]).
Proof.
  intros Hn. cbv zeta.
  rewrite length_app, slice_last_length. cbn [List.length].
  destruct (Nat.ltb_spec n (Nat.min n (List.length h) + 1)) as [L | L].
  - assert (Hh : (n <= List.length h)%nat) by lia.
    unfold DebugLogger.slice_last.
    rewrite !length_app, length_skipn. cbn [List.length].
    replace (List.length h - (List.length h - n) + 1 - n)%nat with 1%nat by lia.
    rewrite skipn_app, skipn_skipn, length_skipn.
    replace (1 - (List.length h - (List.length h - n)))%nat with O by lia.
    rewrite (skipn_app (List.length h + 1 - n)).
    replace (List.length h + 1 - n - List.length h)%nat with O by lia.
    replace (1 + (List.length h - n))%nat with (List.length h + 1 - n)%nat by lia.
    reflexivity.
  - assert (Hh : (List.length h < n)%nat) by lia.
    rewrite (slice_last_short n h) by lia.
    rewrite slice_last_short by (rewrite length_app; cbn [List.length]; lia).
    reflexivity.
Qed.

Lemma addLog_run (log : string) (st : DebugLogger.State) :
  DebugLogger.addLog log st
  = ([ConsoleLog log],
     Eff.Done
       {| DebugLogger.debugLogs :=
            let pushed := (DebugLogger.debugLogs st ++ [log])%list in
            if (DebugLogger.maxLogs <? List.length pushed)%nat
            then DebugLogger.slice_last DebugLogger.maxLogs pushed else pushed |}).
Proof. reflexivity. Qed.

Lemma step_run (c : LogCalls.Call) (st : DebugLogger.State) (h : list string) :
  DebugLogger.debugLogs st = DebugLogger.slice_last DebugLogger.maxLogs h ->
  exists st',
    LogCalls.step toLocaleTimeString c st
    = (match LogCalls.line toLocaleTimeString c with
       | Some l => [ConsoleLog l]
       | None => []
       end, Eff.Done st')
    /\ DebugLogger.debugLogs st'
       = DebugLogger.slice_last DebugLogger.maxLogs
           (match LogCalls.line toLocaleTimeString c with
            | Some l => h ++ [l]
            | None => []
            end)%list.
Proof.
  intros Hst.
  destruct c as [now m | now m | now m |];
    cbn [LogCalls.step LogCalls.line];
    unfold DebugLogger.logInfo, DebugLogger.logWarning, DebugLogger.logError;
    try (rewrite addLog_run; eexists; split; [reflexivity |];
         cbn [DebugLogger.debugLogs]; rewrite Hst;
         apply (slice_last_push DebugLogger.maxLogs h); unfold DebugLogger.maxLogs; lia).
  eexists. split; reflexivity.
Qed.

Lemma run_from (calls : list LogCalls.Call) :
  forall (st : DebugLogger.State) (h : list string),
    DebugLogger.debugLogs st = DebugLogger.slice_last DebugLogger.maxLogs h ->
    exists st',
      LogCalls.run toLocaleTimeString calls st
      = (map ConsoleLog (LogCalls.all_lines toLocaleTimeString calls), Eff.Done st')
      /\ DebugLogger.debugLogs st'
         = DebugLogger.slice_last DebugLogger.maxLogs
             (LogCalls.since_clear toLocaleTimeString calls h).
Proof.
  induction calls as [| c rest IH]; intros st h Hst.
  - exists st. split; [reflexivity | exact Hst].
  - destruct (step_run c st h Hst) as (st1 & Hrun & Hlogs).
    cbn [LogCalls.run LogCalls.since_clear LogCalls.all_lines].
    rewrite Hrun. unfold Eff.bind.
    destruct (LogCalls.line toLocaleTimeString c) as [l |].
    + destruct (IH st1 (h ++ [l])%list Hlogs) as (st2 & Hrun2 & Hlogs2).
      rewrite Hrun2. exists st2. split; [reflexivity | exact Hlogs2].
    + destruct (IH st1 [] Hlogs) as (st2 & Hrun2 & Hlogs2).
      rewrite Hrun2. exists st2. split; [reflexivity | exact Hlogs2].
Qed.

End DebugLog.

(** The buffer of the debug logger.  Whatever calls a client makes on a new
    logger, the run ends normally, every line reaches the console in the
    order of the calls, and the buffer holds the last 50 lines added since
    the last [clearLogs] (all of them while there are fewer), oldest first;
    it never holds more than 50. *)
Theorem debugLogs_hold_the_last_fifty (toLocaleTimeString : Date -> string)
        (calls : list LogCalls.Call) :
  exists st,
    LogCalls.run toLocaleTimeString calls DebugLogger.initial
    = (map ConsoleLog (LogCalls.all_lines toLocaleTimeString calls), Eff.Done st)
    /\ DebugLogger.getLogs st
       = DebugLogger.slice_last 50 (LogCalls.since_clear toLocaleTimeString calls [])
    /\ (List.length (DebugLogger.getLogs st) <= 50)%nat.
Proof.
  destruct (run_from toLocaleTimeString calls DebugLogger.initial [] eq_refl)
    as (st & Hrun & Hlogs).
  exists st. split; [exact Hrun |]. split; [exact Hlogs |].
  unfold DebugLogger.getLogs. rewrite Hlogs, slice_last_length.
  unfold DebugLogger.maxLogs. lia.
Qed.

(** ** Reversal, trimming and splitting of strings *)

Section StringsMore.

Lemma append_empty_r (s : string) : (s ++ "")%string = s.
Proof. induction s as [| c r IH]; [reflexivity | cbn; rewrite IH; reflexivity]. Qed.

Lemma rev_onto_eq (s : string) : forall acc, Str.rev_onto s acc = (Str.rev s ++ acc)%string.
Proof.
  unfold Str.rev. induction s as [| c r IH]; intros acc; [reflexivity |].
  cbn [Str.rev_onto]. rewrite (IH (String c acc)), (IH (String c "")).
  rewrite append_assoc. reflexivity.
Qed.

Lemma rev_cons (c : ascii) (s : string) :
  Str.rev (String c s) = (Str.rev s ++ String c "")%string.
Proof. unfold Str.rev at 1. cbn [Str.rev_onto]. apply rev_onto_eq. Qed.

Lemma rev_app (a b : string) : Str.rev (a ++ b) = (Str.rev b ++ Str.rev a)%string.
Proof.
  induction a as [| c r IH].
  - cbn [append]. rewrite append_empty_r. reflexivity.
  - cbn [append]. rewrite !rev_cons, IH, append_assoc. reflexivity.
Qed.

Lemma rev_involutive (s : string) : Str.rev (Str.rev s) = s.
Proof.
  induction s as [| c r IH]; [reflexivity |].
  rewrite rev_cons, rev_app, IH. reflexivity.
Qed.

Lemma rev_nonempty (s : string) : s <> "" -> Str.rev s <> "".
Proof.
  destruct s as [| c r]; [congruence |]. intros _. rewrite rev_cons.
  destruct (Str.rev r); discriminate.
Qed.

Lemma is_empty_false (s : string) : Str.is_empty s = false <-> s <> "".
Proof. destruct s; cbn; split; congruence. Qed.

Lemma trim_start_head (c : ascii) (r : string) :
  Str.is_space c = false -> Str.trim_start (String c r) = String c r.
Proof. intros H. cbn [Str.trim_start]. rewrite H. reflexivity. Qed.

Lemma trim_start_app (a b : string) :
  Str.trim_start (a ++ b)
  = if Str.all_chars Str.is_space a then Str.trim_start b
    else (Str.trim_start a ++ b)%string.
Proof.
  induction a as [| c r IH]; [reflexivity |].
  cbn [append Str.trim_start Str.all_chars].
  destruct (Str.is_space c); [exact IH | reflexivity].
Qed.

Lemma all_chars_rev (p : ascii -> bool) (s : string) :
  Str.all_chars p (Str.rev s) = Str.all_chars p s.
Proof.
  induction s as [| c r IH]; [reflexivity |].
  rewrite rev_cons, all_chars_app, IH. cbn [Str.all_chars].
  rewrite andb_true_r. apply andb_comm.
Qed.

(** A text that starts and ends with a character that is no white space
    keeps that text at its head when more follows and the whole is trimmed. *)
Lemma trim_keeps_head (c l : ascii) (t rest : string) :
  Str.is_space c = false -> Str.is_space l = false ->
  exists rest',
    Str.trim (String c (t ++ String l rest))
    = String c (t ++ String l rest').
Proof.
  intros Hc Hl. unfold Str.trim. rewrite (trim_start_head c _ Hc).
  change (String c (t ++ String l rest)) with ((String c t) ++ String l rest)%string.
  rewrite rev_app, rev_cons.
  rewrite append_assoc.
  rewrite trim_start_app.
  destruct (Str.all_chars Str.is_space (Str.rev rest)).
  - exists "". cbn [append]. rewrite (trim_start_head l _ Hl).
    change (String l (Str.rev (String c t))) with (String l "" ++ Str.rev (String c t))%string.
    rewrite <- (rev_involutive (String l "")) at 1.
    rewrite <- rev_app, rev_involutive. 
    change (Str.rev (String l "")) with (String l ""). reflexivity.
  - exists (Str.rev (Str.trim_start (Str.rev rest))).
    cbn [append].
    change (String l (Str.rev (String c t))) with (String l "" ++ Str.rev (String c t))%string.
    rewrite <- (rev_involutive (String l "")) at 1.
    rewrite <- rev_app.
    rewrite rev_app, rev_involutive.
    change (Str.rev (String l "")) with (String l "").
    cbn [append]. rewrite append_assoc. reflexivity.
Qed.

(** Such a text alone is left as it is. *)
Lemma trim_fixed (c l : ascii) (t : string) :
  Str.is_space c = false -> Str.is_space l = false ->
  Str.trim (String c (t ++ String l "")) = String c (t ++ String l "").
Proof.
  intros Hc Hl. unfold Str.trim. rewrite (trim_start_head c _ Hc).
  change (String c (t ++ String l "")) with ((String c t) ++ String l "")%string.
  rewrite rev_app. change (Str.rev (String l "")) with (String l "").
  cbn [append]. rewrite (trim_start_head l _ Hl).
  change (String l (Str.rev (String c t))) with (String l "" ++ Str.rev (String c t))%string.
  rewrite rev_app, rev_involutive. reflexivity.
Qed.

Lemma split_on_cons (c : ascii) (s : string) :
  exists p ps, Str.split_on c s = p :: ps.
Proof.
  induction s as [| d r IH]; [eexists; eexists; reflexivity |].
  destruct IH as (p & ps & H). cbn [Str.split_on]. rewrite H.
  destruct (Str.eqb_ascii c d); eexists; eexists; reflexivity.
Qed.

Lemma split_on_absent (c : ascii) (s : string) :
  Str.contains_char c s = false -> Str.split_on c s = [s].
Proof.
  induction s as [| d r IH]; [reflexivity |].
  cbn [Str.contains_char Str.split_on]. intros H.
  apply orb_false_elim in H. destruct H as [H1 H2].
  rewrite (IH H2), H1. reflexivity.
Qed.

Lemma split_on_at (c : ascii) (t r : string) :
  Str.contains_char c t = false ->
  Str.split_on c (t ++ String c r) = t :: Str.split_on c r.
Proof.
  induction t as [| d q IH]; intros H.
  - cbn [append Str.split_on].
    destruct (split_on_cons c r) as (p & ps & Hr). rewrite Hr.
    unfold Str.eqb_ascii. rewrite Ascii.eqb_refl. reflexivity.
  - cbn [Str.contains_char] in H. apply orb_false_elim in H. destruct H as [H1 H2].
    cbn [append Str.split_on]. rewrite (IH H2), H1. reflexivity.
Qed.

(** The first piece of a split is empty exactly when the text is empty or
    starts with the separator. *)
Lemma split_on_first_empty (c : ascii) (s : string) :
  nth 0 (Str.split_on c s) "" = ""
  <-> s = "" \/ exists r, s = String c r.
Proof.
  destruct s as [| d r].
  - cbn. split; [intros _; left; reflexivity | reflexivity].
  - cbn [Str.split_on]. destruct (split_on_cons c r) as (p & ps & H). rewrite H.
    unfold Str.eqb_ascii. destruct (Ascii.eqb_spec c d) as [-> | N]; cbn [nth].
    + split; [intros _; right; eexists; reflexivity | reflexivity].
    + split; [discriminate |].
      intros [D | (q & D)]; [discriminate D | injection D as D _; congruence].
Qed.

Lemma or_else_nonempty (a b : string) : b <> "" -> Str.or_else a b <> "".
Proof. destruct a; cbn; [trivial | discriminate]. Qed.

End StringsMore.

(** ** The pattern of the bracket form *)

Section Brackets.

Lemma strip_closing_bracket_some (r g : string) :
  Regex.strip_closing_bracket r = Some g -> g <> "" /\ r = (g ++ "]")%string.
Proof.
  unfold Regex.strip_closing_bracket. destruct (Str.rev r) as [| c q] eqn:H; [discriminate |].
  unfold Str.eqb_ascii. destruct (Ascii.eqb_spec c "]") as [-> | N]; [| discriminate].
  cbn [andb]. destruct q as [| d q']; [discriminate |]. cbn [Str.is_empty negb].
  intros [= <-]. split.
  - apply rev_nonempty. discriminate.
  - rewrite <- (rev_involutive r), H, rev_cons. reflexivity.
Qed.

Lemma strip_closing_bracket_app (g : string) :
  g <> "" -> Regex.strip_closing_bracket (g ++ "]") = Some g.
Proof.
  intros Hg. unfold Regex.strip_closing_bracket. rewrite rev_app.
  change (Str.rev "]") with "]". cbn [append].
  unfold Str.eqb_ascii. rewrite Ascii.eqb_refl. cbn [andb].
  assert (R : Str.rev g <> "") by (apply rev_nonempty, Hg).
  destruct (Str.rev g) eqn:E; [congruence |]. cbn [Str.is_empty negb].
  rewrite <- E, rev_involutive. reflexivity.
Qed.

(** Both groups of a match of the bracket form are non-empty. *)
Lemma bracket_split_nonempty (s : string) :
  forall pre g1 g2, Regex.bracket_split pre s = Some (g1, g2) -> g1 <> "" /\ g2 <> "".
Proof.
  induction s as [| c r IH]; intros pre g1 g2 H; [discriminate H |].
  cbn [Regex.bracket_split] in H.
  destruct (Regex.bracket_split (String c pre) r) as [[h1 h2] |] eqn:Hr.
  - injection H as <- <-. exact (IH _ _ _ Hr).
  - destruct (Str.eqb_ascii c "[" && negb (Str.is_empty pre)) eqn:Hc; [| discriminate H].
    apply andb_prop in Hc. destruct Hc as [_ Hp].
    destruct (Regex.strip_closing_bracket r) as [g |] eqn:Hs; [| discriminate H].
    injection H as <- <-.
    split.
    + apply rev_nonempty. destruct pre; [discriminate Hp | discriminate].
    + exact (proj1 (strip_closing_bracket_some r g Hs)).
Qed.

(** No opening bracket, no match. *)
Lemma bracket_split_none (s : string) :
  forall pre, Str.contains_char "[" s = false -> Regex.bracket_split pre s = None.
Proof.
  induction s as [| c r IH]; intros pre H; [reflexivity |].
  cbn [Str.contains_char] in H. apply orb_false_elim in H. destruct H as [H1 H2].
  cbn [Regex.bracket_split]. rewrite (IH _ H2).
  unfold Str.eqb_ascii in *. rewrite Ascii.eqb_sym in H1. rewrite H1. reflexivity.
Qed.

(** The greedy first group runs to the last opening bracket: with none in
    the bracketed part, the split is at the bracket that opens it. *)
Lemma bracket_split_at (t : string) :
  forall pre c,
    (t <> "" \/ pre <> "") -> c <> "" -> Str.contains_char "[" c = false ->
    Regex.bracket_split pre (t ++ String "[" (c ++ "]"))
    = Some (Str.rev (Str.rev_onto t pre), c).
Proof.
  induction t as [| d q IH]; intros pre c Hne Hc Hb.
  - cbn [append Regex.bracket_split Str.rev_onto].
    rewrite bracket_split_none
      by (rewrite contains_char_app, Hb; reflexivity).
    unfold Str.eqb_ascii. rewrite Ascii.eqb_refl. cbn [andb].
    destruct pre as [| p pre']; [destruct Hne; congruence |].
    cbn [Str.is_empty negb]. rewrite (strip_closing_bracket_app c Hc). reflexivity.
  - cbn [append Regex.bracket_split Str.rev_onto].
    rewrite (IH (String d pre) c) by (try right; try discriminate; assumption).
    reflexivity.
Qed.

End Brackets.

(** ** The target of a reference *)

Section Targets.

Lemma contains_char_head (c : ascii) (r : string) :
  Str.contains_char c (String c r) = true.
Proof. cbn. unfold Str.eqb_ascii. rewrite Ascii.eqb_refl. reflexivity. Qed.

Lemma getTargetFromQueryName_dotted (qn displayName : string) :
  Str.contains_char "." qn = true ->
  FilterService.getTargetFromQueryName qn displayName
  = {| table := nth 0 (Str.split_on "." qn) "";
       column := Str.or_else (nth 1 (Str.split_on "." qn) "")
                             (Str.or_else displayName "Date") |}.
Proof.
  intros H. unfold FilterService.getTargetFromQueryName. rewrite H.
  destruct qn; [discriminate H | reflexivity].
Qed.

End Targets.

(** The column of a target is never empty.  Whatever the reference and the
    display name, [getTargetFromQueryName] returns a column that is not the
    empty string; the table is empty only for a reference that starts with
    a dot. *)
Theorem getTargetFromQueryName_column_never_empty (qn displayName : string) :
  column (FilterService.getTargetFromQueryName qn displayName) <> ""
  /\ (table (FilterService.getTargetFromQueryName qn displayName) = ""
      <-> exists r, qn = String "." r).
Proof.
  destruct (Str.contains_char "." qn) eqn:Hd.
  - rewrite (getTargetFromQueryName_dotted qn displayName Hd). cbn [column table].
    split.
    + apply or_else_nonempty, or_else_nonempty. discriminate.
    + rewrite split_on_first_empty. split.
      * intros [-> | H]; [discriminate Hd | exact H].
      * intros H. right. exact H.
  - unfold FilterService.getTargetFromQueryName. rewrite Hd.
    assert (Hnd : ~ exists r, qn = String "." r).
    { intros (r & ->). rewrite contains_char_head in Hd. discriminate Hd. }
    destruct (Str.is_empty qn) eqn:He.
    + cbn [column table]. split.
      * apply or_else_nonempty. discriminate.
      * split; [discriminate | intros H; destruct (Hnd H)].
    + destruct (Regex.match_bracket qn) as [[g1 g2] |] eqn:Hm.
      * unfold Regex.match_bracket in Hm.
        destruct (Str.all_chars _ qn); [| discriminate Hm].
        destruct (bracket_split_nonempty qn "" g1 g2 Hm) as [H1 H2].
        cbn [column table]. split; [exact H2 |].
        split; [intros H; destruct (H1 H) | intros H; destruct (Hnd H)].
      * cbn [column table]. split.
        -- apply or_else_nonempty, is_empty_false, He.
        -- split; [discriminate | intros H; destruct (Hnd H)].
Qed.

(** A table and a column written as a reference are read back.  For names
    without dots, the dotted form [t.c] gives table [t] and column [c]
    (also in the DirectQuery visual); for names without dots and line
    terminators, and no opening bracket in the column, the bracket form
    [t[c]] gives them too.  The display name plays no part. *)
Theorem getTargetFromQueryName_reads_back (t c displayName : string) :
  Str.contains_char "." t = false ->
  Str.contains_char "." c = false ->
  c <> "" ->
  FilterService.getTargetFromQueryName (t ++ "." ++ c) displayName
  = {| table := t; column := c |}
  /\ (forall (E : Engine) host range,
         option_map target
           (DirectQuery.createAdvancedFilter
              {| DirectQuery.host := host;
                 DirectQuery.dateColumn :=
                   Some {| Picker.displayName := displayName;
                           Picker.queryName := t ++ "." ++ c;
                           Picker.minDate := None; Picker.maxDate := None |} |}
              range)
         = Some {| table := t; column := c |})
  /\ (t <> "" ->
      Str.contains_char "[" c = false ->
      Str.all_chars (fun x => negb (Regex.is_line_terminator x)) (t ++ c) = true ->
      FilterService.getTargetFromQueryName (t ++ "[" ++ c ++ "]") displayName
      = {| table := t; column := c |}).
Proof.
  intros Ht Hc Hne.
  assert (Hsplit : Str.split_on "." (t ++ "." ++ c) = [t; c]).
  { change (t ++ "." ++ c)%string with (t ++ String "." c)%string.
    rewrite (split_on_at "." t c Ht), (split_on_absent "." c Hc). reflexivity. }
  assert (Hdot : Str.contains_char "." (t ++ "." ++ c) = true).
  { rewrite contains_char_app.
    change ("." ++ c)%string with (String "." c). rewrite contains_char_head.
    apply orb_true_r. }
  split; [| split].
  - rewrite (getTargetFromQueryName_dotted _ displayName Hdot), Hsplit. cbn [nth].
    destruct c; [congruence | reflexivity].
  - intros E host range. unfold DirectQuery.createAdvancedFilter.
    cbn [DirectQuery.dateColumn Picker.queryName Picker.displayName option_map target].
    assert (Hq : Str.or_else (t ++ "." ++ c) displayName = (t ++ "." ++ c)%string).
    { destruct t; reflexivity. }
    rewrite Hq, Hdot, Hsplit. reflexivity.
  - intros Hte Hb Hl.
    rewrite all_chars_app in Hl. apply andb_prop in Hl. destruct Hl as [Hlt Hlc].
    unfold FilterService.getTargetFromQueryName.
    assert (He : Str.is_empty (t ++ "[" ++ c ++ "]") = false).
    { destruct t; [congruence | reflexivity]. }
    assert (Hd : Str.contains_char "." (t ++ "[" ++ c ++ "]") = false).
    { rewrite contains_char_app, Ht.
      change ("[" ++ c ++ "]")%string with (String "[" (c ++ "]")).
      cbn [Str.contains_char orb]. rewrite contains_char_app, Hc. reflexivity. }
    rewrite He, Hd. unfold Regex.match_bracket.
    assert (Ha : Str.all_chars (fun x => negb (Regex.is_line_terminator x))
                               (t ++ "[" ++ c ++ "]") = true).
    { rewrite all_chars_app, Hlt.
      change ("[" ++ c ++ "]")%string with (String "[" (c ++ "]")).
      cbn [Str.all_chars andb]. rewrite all_chars_app, Hlc. reflexivity. }
    rewrite Ha.
    change (t ++ "[" ++ c ++ "]")%string with (t ++ String "[" (c ++ "]"))%string.
    rewrite (bracket_split_at t "" c (or_introl Hte) Hne Hb).
    change (Str.rev_onto t "") with (Str.rev t). rewrite rev_involutive. reflexivity.
Qed.

(** The references [Sales.Order Date] and [Fact Sales[Order Date]]. *)
Lemma getTargetFromQueryName_reads_back_witness :
  FilterService.getTargetFromQueryName "Sales.Order Date" "Date"
  = {| table := "Sales"; column := "Order Date" |}
  /\ FilterService.getTargetFromQueryName "Fact Sales[Order Date]" "Date"
     = {| table := "Fact Sales"; column := "Order Date" |}.
Proof.
  split.
  - exact (proj1 (getTargetFromQueryName_reads_back "Sales" "Order Date" "Date"
                    eq_refl eq_refl ltac:(discriminate))).
  - assert (N1 : "Order Date" <> "") by discriminate.
    assert (N2 : "Fact Sales" <> "") by discriminate.
    exact (proj2 (proj2 (getTargetFromQueryName_reads_back "Fact Sales" "Order Date" "Date"
                           eq_refl eq_refl N1))
             N2 eq_refl eq_refl).
Defined.

(** ** From a civil date to its day, and back *)

(** The offsets of the months, for a month and a leap flag that are given. *)
Ltac month_offsets :=
  repeat match goal with
         | |- context [DaysBeforeMonth ?l ?m] =>
             let v := eval vm_compute in (DaysBeforeMonth l m) in
             change (DaysBeforeMonth l m) with v
         | |- context [?a =? ?b] =>
             let v := eval vm_compute in (a =? b) in
             change (a =? b) with v
         end;
  cbv iota.

Section CivilDates.

Lemma YearFromDay_unique (d y : Z) :
  DayFromYear y <= d < DayFromYear (y + 1) -> YearFromDay d = y.
Proof.
  intros H. pose proof (YearFromDay_spec d) as S.
  destruct (Z.lt_trichotomy (YearFromDay d) y) as [L | [L | L]]; [| exact L |].
  - pose proof (DayFromYear_mono (YearFromDay d + 1) y ltac:(lia)). lia.
  - pose proof (DayFromYear_mono (y + 1) (YearFromDay d) ltac:(lia)). lia.
Qed.

Lemma MakeDay_in_year (y mo d : Z) :
  0 <= mo <= 11 ->
  MakeDay y mo d = DayFromYear y + DaysBeforeMonth (IsLeapYear y) mo + d - 1.
Proof.
  intros H. unfold MakeDay.
  replace (mo / 12) with 0 by div_lia. replace (mo mod 12) with mo by div_lia.
  rewrite Z.add_0_r. reflexivity.
Qed.

Lemma DaysBeforeMonth_range (leap : bool) (m : Z) :
  0 <= DaysBeforeMonth leap m <= 334 + (if leap then 1 else 0).
Proof.
  unfold DaysBeforeMonth.
  repeat match goal with
         | |- context [?a <=? ?b] => destruct (Z.leb_spec a b)
         | |- context [?a =? ?b] => destruct (Z.eqb_spec a b)
         end; destruct leap; lia.
Qed.

(** The days of a month, by its offsets in the year. *)
Lemma days_in_month_offsets (y mo : Z) :
  0 <= mo <= 11 ->
  DaysBeforeMonth (IsLeapYear y) mo + Engines.days_in_month y (mo + 1)
  = if mo =? 11 then DaysInYear y else DaysBeforeMonth (IsLeapYear y) (mo + 1).
Proof.
  intros H. unfold Engines.days_in_month, DaysInYear.
  assert (C : mo = 0 \/ mo = 1 \/ mo = 2 \/ mo = 3 \/ mo = 4 \/ mo = 5 \/ mo = 6
              \/ mo = 7 \/ mo = 8 \/ mo = 9 \/ mo = 10 \/ mo = 11) by lia.
  destruct (IsLeapYear y);
    repeat (destruct C as [-> | C]; [vm_compute; reflexivity |]);
    subst mo; vm_compute; reflexivity.
Qed.

Lemma days_in_month_le (y m : Z) : Engines.days_in_month y m <= 31.
Proof.
  unfold Engines.days_in_month, DaysBeforeMonth.
  repeat match goal with
         | |- context [?a <=? ?b] => destruct (Z.leb_spec a b)
         | |- context [?a =? ?b] => destruct (Z.eqb_spec a b)
         end; destruct (IsLeapYear y); lia.
Qed.

Lemma MonthOfDayWithinYear_offsets (leap : bool) (mo k : Z) :
  0 <= mo <= 11 ->
  0 <= k ->
  DaysBeforeMonth leap mo + k
  < (if mo =? 11 then (if leap then 366 else 365) else DaysBeforeMonth leap (mo + 1)) ->
  MonthOfDayWithinYear leap (DaysBeforeMonth leap mo + k) = mo.
Proof.
  intros H Hk.
  assert (C : mo = 0 \/ mo = 1 \/ mo = 2 \/ mo = 3 \/ mo = 4 \/ mo = 5 \/ mo = 6
              \/ mo = 7 \/ mo = 8 \/ mo = 9 \/ mo = 10 \/ mo = 11) by lia.
  unfold MonthOfDayWithinYear.
  destruct leap;
    decompose [or] C; subst mo; month_offsets; intros B;
    repeat match goal with
           | |- context [?a <? ?b] => destruct (Z.ltb_spec a b); try lia
           end.
Qed.

(** The fields of a moment on the day of a real civil date are that date. *)
Lemma fields_of_MakeDay (y mo d t : Z) :
  0 <= mo <= 11 ->
  1 <= d <= Engines.days_in_month y (mo + 1) ->
  Day t = MakeDay y mo d ->
  YearFromTime t = y /\ MonthFromTime t = mo /\ DateFromTime t = d.
Proof.
  intros Hm Hd Ht. rewrite (MakeDay_in_year y mo d Hm) in Ht.
  pose proof (days_in_month_offsets y mo Hm) as O.
  pose proof (IsLeapYear_days y) as L.
  assert (B : 0 <= DaysBeforeMonth (IsLeapYear y) mo
              /\ DaysBeforeMonth (IsLeapYear y) mo + d - 1 < DaysInYear y).
  { pose proof (DaysBeforeMonth_range (IsLeapYear y) mo) as R0.
    pose proof (DaysBeforeMonth_range (IsLeapYear y) (mo + 1)) as R1.
    unfold DaysInYear in *.
    destruct (mo =? 11); destruct (IsLeapYear y); lia. }
  assert (Y : YearFromTime t = y).
  { unfold YearFromTime. apply YearFromDay_unique. lia. }
  assert (W : DayWithinYear t = DaysBeforeMonth (IsLeapYear y) mo + (d - 1)).
  { unfold DayWithinYear. rewrite Y. lia. }
  assert (M : MonthFromTime t = mo).
  { unfold MonthFromTime, InLeapYear. rewrite Y, W.
    apply MonthOfDayWithinYear_offsets; [exact Hm | lia |].
    unfold DaysInYear in O.
    destruct (mo =? 11); lia. }
  split; [exact Y |]. split; [exact M |].
  unfold DateFromTime, InLeapYear. rewrite M, Y, W. lia.
Qed.

Lemma DayFromYear_bounds (y : Z) :
  - 270000 <= y <= 270000 -> - 99500000 <= DayFromYear y <= 99000000.
Proof. intros H. unfold DayFromYear. div_lia. Qed.

End CivilDates.

Section CivilDateObjects.
Context {E : Engine}.

(** [new Date(y, m, d)] for a real civil date: the local midnight of the date. *)
Lemma new_Date_ymd_civil (y mo d : Z) :
  - 270000 <= y <= 270000 -> y < 0 \/ 99 < y ->
  0 <= mo <= 11 -> 1 <= d <= Engines.days_in_month y (mo + 1) ->
  new_Date_ymd (Int y) (Int mo) (Int d) = Int (UTC (MakeDay y mo d * msPerDay))
  /\ Civil.local_day (UTC (MakeDay y mo d * msPerDay)) = MakeDay y mo d
  /\ Civil.civil_date (new_Date_ymd (Int y) (Int mo) (Int d)) = (Int y, Int mo, Int d).
Proof.
  intros Hy Hf Hm Hd.
  assert (V : new_Date_ymd (Int y) (Int mo) (Int d) = Int (UTC (MakeDay y mo d * msPerDay))).
  { cbn [new_Date_ymd]. rewrite (MakeFullYear_outside y Hf).
    replace (MakeDate (MakeDay y mo d) (MakeTime 0 0 0 0)) with (MakeDay y mo d * msPerDay)
      by (unfold MakeDate, MakeTime; lia).
    apply TimeClip_in_range.
    rewrite (MakeDay_in_year y mo d Hm).
    pose proof (DayFromYear_bounds y Hy) as B.
    pose proof (days_in_month_offsets y mo Hm) as O.
    pose proof LocalTZA_bound as HZ.
    assert (Q : 0 <= DaysBeforeMonth (IsLeapYear y) mo + d - 1 <= 366).
    { pose proof (DaysBeforeMonth_range (IsLeapYear y) mo) as R0.
      pose proof (DaysBeforeMonth_range (IsLeapYear y) (mo + 1)) as R1.
      unfold DaysInYear in O.
      destruct (mo =? 11); destruct (IsLeapYear y); lia. }
    unfold UTC, fixed_offset, maxTimeValue, msPerDay in *. lia. }
  assert (D : Civil.local_day (UTC (MakeDay y mo d * msPerDay)) = MakeDay y mo d).
  { unfold Civil.local_day. rewrite LocalTime_UTC. unfold Day, msPerDay.
    apply Z.div_mul. lia. }
  split; [exact V |]. split; [exact D |].
  rewrite V. unfold Civil.civil_date. cbn [getFullYear getMonth getDate local_field].
  destruct (fields_of_MakeDay y mo d (LocalTime (UTC (MakeDay y mo d * msPerDay))) Hm Hd D)
    as (F1 & F2 & F3).
  rewrite F1, F2, F3. reflexivity.
Qed.

(** [new Date(y, m, d)] of the fields of a moment: the local midnight of its
    day, unless the year is one of 0 to 99. *)
Lemma new_Date_ymd_of_local_fields (t : Z) :
  - maxTimeValue + msPerDay <= t <= maxTimeValue ->
  YearFromTime (LocalTime t) < 0 \/ 99 < YearFromTime (LocalTime t) ->
  new_Date_ymd (getFullYear (Int t)) (getMonth (Int t)) (getDate (Int t))
  = Civil.start_of_day (Int t).
Proof.
  intros Ht Hy. cbn [getFullYear getMonth getDate local_field new_Date_ymd Civil.start_of_day].
  rewrite (MakeFullYear_outside _ Hy).
  pose proof (MakeDay_of_fields (LocalTime t) 0) as D. rewrite !Z.add_0_r in D.
  rewrite D. unfold Civil.local_day.
  replace (MakeDate (Day (LocalTime t)) (MakeTime 0 0 0 0)) with (Day (LocalTime t) * msPerDay)
    by (unfold MakeDate, MakeTime; lia).
  apply TimeClip_in_range.
  pose proof (local_day_bounds t) as B. unfold Civil.local_day in B. lia.
Qed.

End CivilDateObjects.

Section CivilDateTexts.
Context {K : Clock}.


Lemma formatDate_civil (d : Date) (y mo dd : Z) :
  Civil.civil_date d = (Int y, Int mo, Int dd) ->
  DateUtils.formatDate (Some d) = Texts.date_text y (mo + 1) dd.
Proof.
  unfold Civil.civil_date. intros [= H1 H2 H3].
  unfold DateUtils.formatDate, Texts.date_text. rewrite H1, H2, H3. reflexivity.
Qed.

Lemma date_text_iso (y m d : Z) :
  1000 <= y <= 9999 -> 0 <= m <= 99 -> 0 <= d <= 99 ->
  exists a b c e f g h i,
    Texts.date_text y m d = Civil.iso_text a b c e f g h i
    /\ Str.is_digit a = true /\ Str.is_digit b = true /\ Str.is_digit c = true
    /\ Str.is_digit e = true /\ Str.is_digit f = true /\ Str.is_digit g = true
    /\ Str.is_digit h = true /\ Str.is_digit i = true
    /\ Str.digits_value (Regex.str4 a b c e) = y
    /\ Str.digits_value (Regex.str2 f g) = m
    /\ Str.digits_value (Regex.str2 h i) = d.
Proof.
  intros Hy Hm Hd.
  destruct (year_text _ Hy) as (a & b & c & e & Ey & Da & Db & Dc & De & Vy).
  destruct (two_digit_text _ Hm) as (f & g & Em & Df & Dg & Vm).
  destruct (two_digit_text _ Hd) as (h & i & Ed & Dh & Di & Vd).
  exists a, b, c, e, f, g, h, i.
  unfold Texts.date_text, Civil.iso_text. rewrite Ey, Em, Ed.
  repeat split; assumption.
Qed.

Lemma match_iso_text_more (a b c d e f g h : ascii) (rest : string) :
  Str.is_digit a = true -> Str.is_digit b = true -> Str.is_digit c = true ->
  Str.is_digit d = true -> Str.is_digit e = true -> Str.is_digit f = true ->
  Str.is_digit g = true -> Str.is_digit h = true ->
  Regex.match_iso (Civil.iso_text a b c d e f g h ++ rest)
  = Some (Regex.str4 a b c d, Regex.str2 e f, Regex.str2 g h).
Proof.
  intros Ha Hb Hc Hd He Hf Hg Hh.
  unfold Civil.iso_text, Regex.str4, Regex.str2. cbn [append Regex.match_iso].
  rewrite Ha, Hb, Hc, Hd, He, Hf, Hg, Hh. reflexivity.
Qed.

Lemma trim_iso_text_more (a b c d e f g h : ascii) (rest : string) :
  Str.is_digit a = true -> Str.is_digit h = true ->
  exists rest',
    Str.trim (Civil.iso_text a b c d e f g h ++ rest)
    = (Civil.iso_text a b c d e f g h ++ rest')%string.
Proof.
  intros Ha Hh.
  destruct (trim_keeps_head a h
              (String b (String c (String d (String "-" (String e (String f
                 (String "-" (String g ""))))))))
              rest (digit_not_space a Ha) (digit_not_space h Hh)) as (rest' & T).
  exists rest'. exact T.
Qed.

(** [parseDate] on a text that starts with a date [YYYY-MM-DD]. *)
Lemma parseDate_date_text (y m d : Z) (rest : string) :
  1000 <= y <= 9999 -> 0 <= m <= 99 -> 0 <= d <= 99 ->
  DateUtils.parseDate (VString (Texts.date_text y m d ++ rest))
  = new_Date_ymd (Int y) (Int (m - 1)) (Int d).
Proof.
  intros Hy Hm Hd.
  destruct (date_text_iso y m d Hy Hm Hd)
    as (a & b & c & e & f & g & h & i & T & Da & Db & Dc & De & Df & Dg & Dh & Di
        & Vy & Vm & Vd).
  rewrite T. unfold DateUtils.parseDate.
  replace (falsy (VString (Civil.iso_text a b c e f g h i ++ rest))) with false by reflexivity.
  unfold DateUtils.parseText.
  destruct (trim_iso_text_more a b c e f g h i rest Da Di) as (rest' & R). rewrite R.
  rewrite match_iso_text_more by assumption.
  rewrite Vy, Vm, Vd. reflexivity.
Qed.

(** [new Date(y, m, d)] for a real civil date of a year outside 0 to 99: the
    moment of the midnight of that date, which has the fields of the date
    where that midnight is on the clock. *)
Lemma new_Date_ymd_real_date (y mo d : Z) :
  y < 0 \/ 99 < y ->
  0 <= mo <= 11 -> 1 <= d <= Engines.days_in_month y (mo + 1) ->
  new_Date_ymd (Int y) (Int mo) (Int d) = TimeClip (UTC (MakeDay y mo d * msPerDay))
  /\ (Civil.on_the_clock (MakeDay y mo d * msPerDay) ->
      new_Date_ymd (Int y) (Int mo) (Int d) = Int (UTC (MakeDay y mo d * msPerDay))
      /\ Civil.civil_date (Int (UTC (MakeDay y mo d * msPerDay))) = (Int y, Int mo, Int d)).
Proof.
  intros Hf Hm Hd.
  assert (V : new_Date_ymd (Int y) (Int mo) (Int d)
              = TimeClip (UTC (MakeDay y mo d * msPerDay))).
  { cbn [new_Date_ymd]. rewrite (MakeFullYear_outside y Hf). unfold MakeDate.
    change (MakeTime 0 0 0 0) with 0. rewrite Z.add_0_r. reflexivity. }
  split; [exact V |]. intros C.
  split; [rewrite V; apply on_the_clock_valid, C |].
  pose proof (on_the_clock_midnight_day _ C) as D. unfold Civil.local_day in D.
  unfold Civil.civil_date. cbn [getFullYear getMonth getDate local_field].
  destruct (fields_of_MakeDay y mo d (LocalTime (UTC (MakeDay y mo d * msPerDay))) Hm Hd D)
    as (F1 & F2 & F3).
  rewrite F1, F2, F3. reflexivity.
Qed.

End CivilDateTexts.

(** A text that starts with a date is read by its date, as a local date.
    For a real date of a four-digit year written [YYYY-MM-DD], whatever
    follows it (a time, a zone), [parseDate] returns [new Date(y, m - 1, d)],
    the moment that the zone gives the midnight of that date; where that
    midnight is on the clock, the result has the fields of the date, the
    time 00:00:00.000, and [formatDate] writes the date back. *)
Theorem parseDate_reads_the_date_part {K : Clock} (y m d : Z) (rest : string) :
  1000 <= y <= 9999 ->
  Texts.valid_civil_date y m d ->
  let p := DateUtils.parseDate (VString (Texts.date_text y m d ++ rest)) in
  let midnight := MakeDay y (m - 1) d * msPerDay in
  p = new_Date_ymd (Int y) (Int (m - 1)) (Int d)
  /\ p = TimeClip (UTC midnight)
  /\ (Civil.on_the_clock midnight ->
      p = Int (UTC midnight)
      /\ Civil.civil_date p = (Int y, Int (m - 1), Int d)
      /\ Civil.time_of_day p = (Int 0, Int 0, Int 0, Int 0)
      /\ DateUtils.formatDate (Some p) = Texts.date_text y m d).
Proof.
  intros Hy [Hm Hd]. cbv zeta.
  assert (Hd' : 1 <= d <= Engines.days_in_month y (m - 1 + 1))
    by (replace (m - 1 + 1) with m by lia; exact Hd).
  assert (D31 : d <= 31) by (pose proof (days_in_month_le y m); lia).
  assert (Rm : 0 <= m <= 99) by lia.
  assert (Rd : 0 <= d <= 99) by lia.
  assert (Ho : y < 0 \/ 99 < y) by lia.
  assert (Mo : 0 <= m - 1 <= 11) by lia.
  rewrite (parseDate_date_text y m d rest Hy Rm Rd).
  destruct (new_Date_ymd_real_date y (m - 1) d Ho Mo Hd') as (V & H).
  split; [reflexivity |]. split; [exact V |]. intros C.
  destruct (H C) as (V' & F). rewrite V'.
  split; [reflexivity |]. split; [exact F |]. split.
  - apply time_of_day_midnight, C.
  - rewrite (formatDate_civil _ y (m - 1) d F). replace (m - 1 + 1) with m by lia.
    reflexivity.
Qed.

(** The date part of a time stamp, in New York in winter. *)
Lemma parseDate_reads_the_date_part_witness :
  @DateUtils.parseDate Engines.new_york_2024 (VString "2024-12-31T22:30:00.000Z")
  = Int (Examples.dec_31_2024_midnight + 5 * msPerHour).
Proof.
  assert (Y : 1000 <= 2024 <= 9999) by lia.
  assert (V : Texts.valid_civil_date 2024 12 31).
  { unfold Texts.valid_civil_date. change (Engines.days_in_month 2024 12) with 31. lia. }
  destruct (@parseDate_reads_the_date_part Engines.new_york_2024 2024 12 31
              "T22:30:00.000Z" Y V) as (_ & H & _).
  change (Texts.date_text 2024 12 31 ++ "T22:30:00.000Z")%string
    with "2024-12-31T22:30:00.000Z" in H.
  rewrite H. vm_compute. reflexivity.
Defined.

(** ** [parseDate] on a Date object *)

Section ParseDateObjectAnyClock.
Context {K : Clock}.

(** The year of a day of the year [y], counted from one of its months. *)
Lemma YearFromDay_MakeDay (y mo d : Z) :
  - 270000 <= y <= 270000 -> 0 <= mo <= 11 -> 1 <= d <= 31 ->
  YearFromDay (MakeDay y mo d) = y.
Proof.
  intros Hy Hm Hd. rewrite (MakeDay_in_year y mo d Hm).
  pose proof (DaysBeforeMonth_range (IsLeapYear y) mo) as R.
  pose proof (IsLeapYear_days y) as L.
  apply YearFromDay_unique.
  unfold DaysInYear in *. destruct (IsLeapYear y); lia.
Qed.

End ParseDateObjectAnyClock.

(** [parseDate] on a Date object keeps the day and drops the time, in any
    time zone.  For a valid Date whose local year lies outside 0 to 99, the
    result is [new Date(y, m, d)] of its local fields, the moment that the
    zone gives the midnight of its local day; where that midnight is on the
    clock, the result is the start of the same calendar day, at
    00:00:00.000, and a second [parseDate] changes nothing.  A Date in the
    years 0 to 99 is read 1900 years later; the invalid Date stays invalid. *)
Theorem parseDate_cuts_a_Date_to_its_day {K : Clock} (t y : Z) :
  getFullYear (Int t) = Int y ->
  (y < 0 \/ 99 < y ->
   DateUtils.parseDate (VDate (Int t)) = TimeClip (UTC (Civil.local_day t * msPerDay))
   /\ (Civil.on_the_clock (Civil.local_day t * msPerDay) ->
       DateUtils.parseDate (VDate (Int t)) = Civil.start_of_day (Int t)
       /\ Civil.civil_date (DateUtils.parseDate (VDate (Int t))) = Civil.civil_date (Int t)
       /\ Civil.time_of_day (DateUtils.parseDate (VDate (Int t)))
          = (Int 0, Int 0, Int 0, Int 0)
       /\ DateUtils.parseDate (VDate (DateUtils.parseDate (VDate (Int t))))
          = DateUtils.parseDate (VDate (Int t))))
  /\ (0 <= y <= 99 ->
      let later :=
        MakeDay (1900 + y) (MonthFromTime (LocalTime t)) (DateFromTime (LocalTime t))
        * msPerDay in
      DateUtils.parseDate (VDate (Int t)) = TimeClip (UTC later)
      /\ (Civil.on_the_clock later ->
          getFullYear (DateUtils.parseDate (VDate (Int t))) = Int (1900 + y)))
  /\ DateUtils.parseDate (VDate NaN) = NaN.
Proof.
  intros Hy. apply getFullYear_Int in Hy.
  split; [| split; [| reflexivity]].
  - intros Ho.
    assert (Ho' : YearFromTime (LocalTime t) < 0 \/ 99 < YearFromTime (LocalTime t))
      by (rewrite Hy; exact Ho).
    assert (P : DateUtils.parseDate (VDate (Int t))
                = TimeClip (UTC (Civil.local_day t * msPerDay))).
    { unfold DateUtils.parseDate. cbn [falsy]. apply new_Date_ymd_of_local_day, Ho'. }
    split; [exact P |]. intros C. rewrite P, (on_the_clock_valid _ C).
    pose proof (on_the_clock_midnight_day _ C) as D.
    cbn [Civil.start_of_day].
    split; [reflexivity |].
    split; [apply civil_date_same_day, D |].
    split; [apply time_of_day_midnight, C |].
    unfold DateUtils.parseDate. cbn [falsy].
    rewrite new_Date_ymd_of_local_day.
    + rewrite D. apply on_the_clock_valid, C.
    + unfold Civil.local_day in D |- *. rewrite (YearFromTime_day _ _ D). exact Ho'.
  - intros Hi. cbv zeta.
    pose proof (MonthFromTime_range (LocalTime t)) as Rm.
    pose proof (DateFromTime_range (LocalTime t)) as Rd.
    assert (F : MakeFullYear y = 1900 + y).
    { unfold MakeFullYear.
      destruct (Z.leb_spec 0 y); destruct (Z.leb_spec y 99); cbn; lia || reflexivity. }
    assert (P : DateUtils.parseDate (VDate (Int t))
                = TimeClip (UTC (MakeDay (1900 + y) (MonthFromTime (LocalTime t))
                                   (DateFromTime (LocalTime t)) * msPerDay))).
    { unfold DateUtils.parseDate. cbn [falsy getFullYear getMonth getDate local_field
                                       new_Date_ymd].
      rewrite Hy, F. unfold MakeDate. change (MakeTime 0 0 0 0) with 0.
      rewrite Z.add_0_r. reflexivity. }
    split; [exact P |]. intros C. rewrite P, (on_the_clock_valid _ C).
    cbn [getFullYear local_field]. rewrite (proj2 C).
    unfold YearFromTime, Day. rewrite Z.div_mul by (unfold msPerDay; lia).
    rewrite YearFromDay_MakeDay by lia. reflexivity.
Qed.

(** The afternoon of 2024-12-31 in New York is cut to the midnight before it. *)
Lemma parseDate_cuts_a_Date_to_its_day_witness :
  @DateUtils.parseDate Engines.new_york_2024 (VDate (Int Examples.dec_31_2024_afternoon))
  = Int (Examples.dec_31_2024_midnight + 5 * msPerHour).
Proof.
  assert (Y : @getFullYear Engines.new_york_2024 (Int Examples.dec_31_2024_afternoon)
              = Int 2024)
    by (vm_compute; reflexivity).
  assert (O : 2024 < 0 \/ 99 < 2024) by lia.
  destruct (@parseDate_cuts_a_Date_to_its_day Engines.new_york_2024 _ 2024 Y) as [H _].
  destruct (H O) as [P _].
  rewrite P. vm_compute. reflexivity.
Defined.

(** ** Dates written with slashes *)

Section SlashTexts.





End SlashTexts.

Section SlashParsing.
Context {E : Engine}.




End SlashParsing.



(** ** Ranges of whole days *)

Section WholeDays.
Context {E : Engine}.





End WholeDays.

(** The presets cover whole days, one more than their number, in any time
    zone.  Where the three local times that [calculateDateRange] passes
    through are on the clock, its range ends at 23:59:59.999 of today and
    starts at 00:00:00.000 of the day that many days earlier: Last 7 Days
    spans the eight calendar days up to today, and Custom is today alone.
    The length of the range is that many days and 86399999 ms, less the
    change of the offset from UTC between its start and its end; the range
    is valid unless that change reaches a day. *)
Theorem calculateDateRange_spans_whole_days {K : Clock} (now : Z)
        (rangeType : DateRangeType) :
  let today := Civil.local_day now in
  let first := today - Civil.preset_days rangeType in
  let r := DateRangeCalculator.calculateDateRange now rangeType in
  Z.abs now <= maxTimeValue ->
  Civil.on_the_clock (today * msPerDay + (msPerDay - 1)) ->
  Civil.on_the_clock (first * msPerDay + (msPerDay - 1)) ->
  Civil.on_the_clock (first * msPerDay) ->
  exists s e,
    startDate r = Int s /\ endDate r = Int e
    /\ Civil.local_day e = today
    /\ Civil.local_day s = first
    /\ e - s = Civil.preset_days rangeType * msPerDay + (msPerDay - 1)
               - (Civil.offset_at e - Civil.offset_at s)
    /\ (Civil.offset_at e - Civil.offset_at s < msPerDay ->
        DateRangeCalculator.isValidDateRange (Some r) = true).
Proof.
  cbv zeta. intros Hn He Hb Hs.
  rewrite (calculateDateRange_on_the_clock now rangeType Hn He Hb Hs).
  cbn [startDate endDate DateRangeCalculator.isValidDateRange Civil.end_of_day le].
  assert (P : 0 <= Civil.preset_days rangeType) by (destruct rangeType; cbn; lia).
  eexists. eexists. split; [reflexivity |]. split; [reflexivity |].
  split; [apply on_the_clock_day; [unfold msPerDay; lia | exact He] |].
  split; [apply on_the_clock_midnight_day, Hs |].
  unfold Civil.offset_at. rewrite (proj2 He), (proj2 Hs).
  split; [lia |]. intros D. apply Z.leb_le. unfold msPerDay in *. lia.
Qed.

(** Last 30 Days on 2024-03-20 in New York, where the clocks went forward on
    2024-03-10: an hour short of 30 days and 86399999 ms. *)
Lemma calculateDateRange_spans_whole_days_witness :
  let r := @DateRangeCalculator.calculateDateRange Engines.new_york_2024
             Examples.mar_20_2024_15h Last30Days in
  toISOString (startDate r) = Some "2024-02-19T05:00:00.000Z"
  /\ toISOString (endDate r) = Some "2024-03-21T03:59:59.999Z"
  /\ exists s e,
       startDate r = Int s /\ endDate r = Int e
       /\ e - s = 30 * msPerDay + 82799999.
Proof.
  assert (A : Z.abs Examples.mar_20_2024_15h <= maxTimeValue) by (vm_compute; discriminate).
  assert (C1 : @Civil.on_the_clock Engines.new_york_2024
                 (@Civil.local_day Engines.new_york_2024 Examples.mar_20_2024_15h * msPerDay
                  + (msPerDay - 1)))
    by (split; vm_compute; [discriminate | reflexivity]).
  assert (C2 : @Civil.on_the_clock Engines.new_york_2024
                 ((@Civil.local_day Engines.new_york_2024 Examples.mar_20_2024_15h
                   - Civil.preset_days Last30Days) * msPerDay + (msPerDay - 1)))
    by (split; vm_compute; [discriminate | reflexivity]).
  assert (C3 : @Civil.on_the_clock Engines.new_york_2024
                 ((@Civil.local_day Engines.new_york_2024 Examples.mar_20_2024_15h
                   - Civil.preset_days Last30Days) * msPerDay))
    by (split; vm_compute; [discriminate | reflexivity]).
  destruct (@calculateDateRange_spans_whole_days Engines.new_york_2024
              Examples.mar_20_2024_15h Last30Days A C1 C2 C3)
    as (s & e & Hs & He & _ & _ & Hd & _).
  cbv zeta. split; [vm_compute; reflexivity |]. split; [vm_compute; reflexivity |].
  exists s, e. split; [exact Hs |]. split; [exact He |].
  rewrite Hd. vm_compute in Hs, He. injection Hs as <-. injection He as <-.
  vm_compute. reflexivity.
Defined.


(** ** Runs of the filter manager *)

Section FilterManagerSafety.

Lemma call_applyJsonFilter_run (host : Host) (filter : option AdvancedFilter)
      (scope property : string) (action : Z) :
  call_applyJsonFilter host filter scope property action
  = match applyJsonFilter host with
    | Some f =>
        ([HostApplyJsonFilter filter scope property action],
         match f filter scope property action with
         | Returns => Eff.Done tt
         | Throws m => Eff.Raised m
         end)
    | None => ([], Eff.Raised not_a_function)
    end.
Proof.
  unfold call_applyJsonFilter. destruct (applyJsonFilter host) as [f |]; [| reflexivity].
  unfold Eff.call, Eff.bind, Eff.emit, Eff.ret, Eff.raise.
  destruct (f filter scope property action); reflexivity.
Qed.

Lemma bind_ret_l {A B : Type} (a : A) (k : A -> Eff.t B) :
  Eff.bind (Eff.ret a) k = k a.
Proof. unfold Eff.bind, Eff.ret. destruct (k a). reflexivity. Qed.

End FilterManagerSafety.

(** The filter manager never throws.  Whatever its fields, the range and
    the host, [applyDateFilter] and [clearFilters] end normally, also when
    the host lacks [applyJsonFilter] or its call throws; each makes at most
    one call of the host, [applyDateFilter] with a filter, the scope
    "general" and the action merge, [clearFilters] with null and the action
    remove. *)
Theorem FilterManager_never_throws (st : FilterManager.State) (r : option IDateRange)
        (host : Host) :
  Eff.completed (FilterManager.applyDateFilter st r host) = true
  /\ (Civil.host_calls (Eff.trace (FilterManager.applyDateFilter st r host)) = []
      \/ exists f,
           Civil.host_calls (Eff.trace (FilterManager.applyDateFilter st r host))
           = [HostApplyJsonFilter (Some f) "general" "filter" 0])
  /\ Eff.completed (FilterManager.clearFilters host) = true
  /\ Civil.host_calls (Eff.trace (FilterManager.clearFilters host))
     = match applyJsonFilter host with
       | Some _ => [HostApplyJsonFilter None "general" "filter" 1]
       | None => []
       end.
Proof.
  split; [| split; [| split]].
  - unfold FilterManager.applyDateFilter, FilterManager.isoString.
    destruct (FilterManager.dateColumnTarget st);
      destruct (FilterManager.truthy_name (FilterManager.dateColumnName st));
      destruct (FilterManager.truthy_name (FilterManager.tableQualifiedName st));
      try reflexivity.
    destruct r as [rg |]; [| reflexivity].
    destruct (FilterManager.isValidDateRange (Some rg)); [| reflexivity].
    destruct (toISOString (startDate rg)); [| reflexivity].
    destruct (toISOString (endDate rg)); [| reflexivity].
    rewrite !bind_ret_l. cbv zeta. rewrite call_applyJsonFilter_run.
    destruct (applyJsonFilter host) as [f |]; [| reflexivity].
    match goal with |- context [f ?a ?b ?c ?d] => destruct (f a b c d) end; reflexivity.
  - unfold FilterManager.applyDateFilter, FilterManager.isoString.
    destruct (FilterManager.dateColumnTarget st);
      destruct (FilterManager.truthy_name (FilterManager.dateColumnName st));
      destruct (FilterManager.truthy_name (FilterManager.tableQualifiedName st));
      try (left; reflexivity).
    destruct r as [rg |]; [| left; reflexivity].
    destruct (FilterManager.isValidDateRange (Some rg)); [| left; reflexivity].
    destruct (toISOString (startDate rg)); [| left; reflexivity].
    destruct (toISOString (endDate rg)); [| left; reflexivity].
    rewrite !bind_ret_l. cbv zeta. rewrite call_applyJsonFilter_run.
    destruct (applyJsonFilter host) as [f |]; [| left; reflexivity].
    right. eexists.
    match goal with |- context [f ?a ?b ?c ?d] => destruct (f a b c d) end; reflexivity.
  - unfold FilterManager.clearFilters. rewrite call_applyJsonFilter_run.
    destruct (applyJsonFilter host) as [f |]; [| reflexivity].
    match goal with |- context [f ?a ?b ?c ?d] => destruct (f a b c d) end; reflexivity.
  - unfold FilterManager.clearFilters. rewrite call_applyJsonFilter_run.
    destruct (applyJsonFilter host) as [f |]; [| reflexivity].
    match goal with |- context [f ?a ?b ?c ?d] => destruct (f a b c d) end; reflexivity.
Qed.

Section FilterManagerBinding.

Lemma truthy_name_or_else (a b : string) :
  b <> "" -> FilterManager.truthy_name (Some (Str.or_else a b)) = Some (Str.or_else a b).
Proof.
  intros H. pose proof (or_else_nonempty a b H) as N.
  unfold FilterManager.truthy_name. destruct (Str.or_else a b); [congruence | reflexivity].
Qed.

(** What [hasDateColumn] stores when it answers true. *)
Lemma hasDateColumn_true (st : FilterManager.State) (dv : option DataView) :
  fst (FilterManager.hasDateColumn st dv) = true ->
  exists d md columns col expr,
    dv = Some d /\ dv_metadata d = Some md /\ md_columns md = Some columns
    /\ find FilterManager.is_dateTime columns = Some col
    /\ m_expr col = Some expr
    /\ snd (FilterManager.hasDateColumn st dv)
       = {| FilterManager.dateColumnTarget := Some expr;
            FilterManager.dateColumnName := Some (Str.or_else (m_displayName col) "Date");
            FilterManager.tableQualifiedName :=
              match source expr with
              | Some src => Some (Str.or_else (entity src) "Table")
              | None => FilterManager.tableQualifiedName st
              end |}.
Proof.
  unfold FilterManager.hasDateColumn.
  destruct dv as [d |]; [| discriminate].
  destruct (dv_metadata d) as [md |] eqn:Hmd; [| discriminate].
  destruct (md_columns md) as [columns |] eqn:Hc; [| discriminate].
  destruct (find FilterManager.is_dateTime columns) as [col |] eqn:Hf; [| discriminate].
  destruct (m_expr col) as [expr |] eqn:He; [| discriminate].
  intros _. exists d, md, columns, col, expr. repeat split; assumption || reflexivity.
Qed.

End FilterManagerBinding.

(** From finding the column to filtering on it.  When [hasDateColumn]
    answers true it has taken the first column of type dateTime; a valid
    range applied next goes to the host as one filter on the column's
    display name (or "Date") in the entity of its expression (or "Table").
    When the expression has no source, the table name is not written: on a
    manager that had none, [hasDateColumn] answers true and the next
    [applyDateFilter] still makes no call of the host. *)
Theorem hasDateColumn_then_applyDateFilter (st : FilterManager.State)
        (dv : option DataView) (r : IDateRange) (host : Host)
        (js : option AdvancedFilter -> string -> string -> Z -> Outcome) :
  fst (FilterManager.hasDateColumn st dv) = true ->
  FilterManager.isValidDateRange (Some r) = true ->
  applyJsonFilter host = Some js ->
  let st' := snd (FilterManager.hasDateColumn st dv) in
  exists d md columns col expr,
    dv = Some d /\ dv_metadata d = Some md /\ md_columns md = Some columns
    /\ find FilterManager.is_dateTime columns = Some col
    /\ m_expr col = Some expr
    /\ match source expr with
       | Some src =>
           map target
               (Civil.filters_sent
                  (Eff.trace (FilterManager.applyDateFilter st' (Some r) host)))
           = [ {| table := Str.or_else (entity src) "Table";
                  column := Str.or_else (m_displayName col) "Date" |} ]
       | None =>
           FilterManager.tableQualifiedName st' = FilterManager.tableQualifiedName st
           /\ (FilterManager.truthy_name (FilterManager.tableQualifiedName st) = None ->
               Eff.trace (FilterManager.applyDateFilter st' (Some r) host)
               = [ConsoleWarn "No date column available for filtering"])
       end.
Proof.
  intros Ht Hv Hj. cbv zeta.
  destruct (hasDateColumn_true st dv Ht) as (d & md & columns & col & expr & H1 & H2 & H3
                                              & H4 & H5 & H6).
  exists d, md, columns, col, expr.
  split; [exact H1 |]. split; [exact H2 |]. split; [exact H3 |].
  split; [exact H4 |]. split; [exact H5 |].
  rewrite H6. destruct (source expr) as [src |].
  - assert (N1 : "Date" <> "") by discriminate. assert (N2 : "Table" <> "") by discriminate.
    destruct (applyDateFilter_bound
                {| FilterManager.dateColumnTarget := Some expr;
                   FilterManager.dateColumnName :=
                     Some (Str.or_else (m_displayName col) "Date");
                   FilterManager.tableQualifiedName :=
                     Some (Str.or_else (entity src) "Table") |}
                r host js expr
                (Str.or_else (m_displayName col) "Date")
                (Str.or_else (entity src) "Table")
                eq_refl (truthy_name_or_else _ _ N1) (truthy_name_or_else _ _ N2) Hv Hj)
      as (s & e & _ & _ & _ & F).
    rewrite F. reflexivity.
  - split; [reflexivity |]. intros Hn.
    rewrite applyDateFilter_unbound; [reflexivity |].
    right. right. exact Hn.
Qed.

(** The column [OrderDate] of the entity [Sales], found and filtered on. *)
Lemma hasDateColumn_then_applyDateFilter_witness :
  map target
      (Civil.filters_sent
         (Eff.trace
            (FilterManager.applyDateFilter
               (snd (FilterManager.hasDateColumn FilterManager.initial
                       Examples.update_with_date_column))
               (Some {| startDate := Int 0; endDate := Int msPerDay; type := Custom |})
               Examples.accepting_host)))
  = [ {| table := "Sales"; column := "OrderDate" |} ].
Proof.
  destruct (hasDateColumn_then_applyDateFilter FilterManager.initial
              Examples.update_with_date_column
              {| startDate := Int 0; endDate := Int msPerDay; type := Custom |}
              Examples.accepting_host (fun _ _ _ _ => Returns)
              eq_refl eq_refl eq_refl)
    as (d & md & columns & col & expr & H1 & H2 & H3 & H4 & H5 & H6).
  injection H1 as <-. injection H2 as <-. injection H3 as <-.
  injection H4 as <-. injection H5 as <-.
  exact H6.
Defined.

(** ** What a date input keeps *)

Section DateInputs.





End DateInputs.

Section DateInputsWithEngine.
Context {E : Engine}.


End DateInputsWithEngine.

(** ** Runs of the filter service *)

Section FilterServiceRuns.
Context {E : Engine}.

(** The run of [applyFilter] on a bound column. *)
Lemma FilterService_applyFilter_bound (st : FilterService.State) (range : Picker.IDateRange)
      (col : Picker.IDateColumnInfo) (f : AdvancedFilter) :
  FilterService.dateColumn st = Some col ->
  FilterService.createAdvancedFilter st range = Some f ->
  FilterService.applyFilter st range
  = match applyJsonFilter (FilterService.host st) with
    | Some js =>
        match js (Some f) "general" "filter" 0 with
        | Returns =>
            ([HostApplyJsonFilter (Some f) "general" "filter" 0;
              ShowSuccess "Filter applied successfully!"], Eff.Done tt)
        | Throws m =>
            ([HostApplyJsonFilter (Some f) "general" "filter" 0;
              ConsoleError m; ShowError "Error applying filter."], Eff.Done tt)
        end
    | None =>
        ([ConsoleError not_a_function; ShowError "Error applying filter."], Eff.Done tt)
    end.
Proof.
  intros Hc Hf. unfold FilterService.applyFilter. rewrite Hc, Hf.
  rewrite call_applyJsonFilter_run. unfold FilterService.MERGE.
  destruct (applyJsonFilter (FilterService.host st)) as [js |]; [| reflexivity].
  destruct (js (Some f) "general" "filter" 0); reflexivity.
Qed.

Lemma FilterService_applyFilter_never_asks (st : FilterService.State)
      (range : Picker.IDateRange) :
  ~ In (ShowError "Please select both start and end dates")
       (Eff.trace (FilterService.applyFilter st range)).
Proof.
  destruct (FilterService.dateColumn st) as [col |] eqn:Hc.
  - destruct (FilterService.createAdvancedFilter st range) as [f |] eqn:Hf.
    + rewrite (FilterService_applyFilter_bound st range col f Hc Hf).
      destruct (applyJsonFilter (FilterService.host st)) as [js |].
      * destruct (js (Some f) "general" "filter" 0); cbn;
          intros H; repeat (destruct H as [H | H]; [discriminate H |]); exact H.
      * cbn. intros H; repeat (destruct H as [H | H]; [discriminate H |]); exact H.
    + rewrite (createAdvancedFilter_bound st range col Hc) in Hf. discriminate Hf.
  - rewrite (applyFilter_unbound st range Hc). cbn.
    intros [H | H]; [discriminate H | exact H].
Qed.

End FilterServiceRuns.

(** The button Apply of the single-file visual.  The message that asks for
    both dates is never shown: an input left empty, or holding a text that
    [parseDate] does not read, makes the range invalid, and Apply answers
    "Start date must be before end date" without a call of the host.  Two
    dates in order are handed to the filter service as they are read. *)
Theorem visual_applyFilter_reads_the_inputs {E : Engine} (st : PickerVisual.State) :
  let inputs := PickerVisual.dateInputsComponent st in
  let r := DateInputsComponent.getDateRange inputs in
  ~ In (ShowError "Please select both start and end dates")
       (Eff.trace (PickerVisual.applyFilter st))
  /\ (DateInput.value (DateInputsComponent.startDateInput inputs) = ""
      \/ DateInput.value (DateInputsComponent.endDateInput inputs) = ""
      \/ Picker.startDate r = NaN \/ Picker.endDate r = NaN ->
      PickerVisual.applyFilter st
      = ([ShowError "Start date must be before end date"], Eff.Done tt))
  /\ (DateUtils.isValidDateRange (Picker.startDate r) (Picker.endDate r) = true ->
      PickerVisual.applyFilter st
      = FilterService.applyFilter (PickerVisual.filterService st) r).
Proof.
  cbv zeta. unfold PickerVisual.applyFilter. cbn [falsy orb].
  split; [| split].
  - destruct (DateUtils.isValidDateRange _ _); cbn [negb].
    + apply FilterService_applyFilter_never_asks.
    + cbn. intros [H | H]; [discriminate H | exact H].
  - intros H.
    assert (V : DateUtils.isValidDateRange
                  (Picker.startDate
                     (DateInputsComponent.getDateRange (PickerVisual.dateInputsComponent st)))
                  (Picker.endDate
                     (DateInputsComponent.getDateRange (PickerVisual.dateInputsComponent st)))
                = false).
    { unfold DateUtils.isValidDateRange, DateInputsComponent.getDateRange.
      cbn [Picker.startDate Picker.endDate].
      destruct H as [H | [H | [H | H]]].
      - rewrite H. reflexivity.
      - rewrite H.
        destruct (DateUtils.parseDate
                    (VString (DateInput.value (DateInputsComponent.startDateInput _))));
          reflexivity.
      - unfold DateInputsComponent.getDateRange in H. cbn [Picker.startDate] in H.
        rewrite H. reflexivity.
      - unfold DateInputsComponent.getDateRange in H. cbn [Picker.endDate] in H.
        rewrite H.
        destruct (DateUtils.parseDate
                    (VString (DateInput.value (DateInputsComponent.startDateInput _))));
          reflexivity. }
    rewrite V. reflexivity.
  - intros V. rewrite V. reflexivity.
Qed.

(** ** Years and days *)

Section YearsOfDays.

Lemma YearFromDay_within (d lo hi : Z) :
  DayFromYear lo <= d < DayFromYear (hi + 1) -> lo <= YearFromDay d <= hi.
Proof.
  intros H. pose proof (YearFromDay_spec d) as S.
  split.
  - destruct (Z.le_gt_cases lo (YearFromDay d)) as [L | L]; [exact L |].
    pose proof (DayFromYear_mono (YearFromDay d + 1) lo ltac:(lia)). lia.
  - destruct (Z.le_gt_cases (YearFromDay d) hi) as [L | L]; [exact L |].
    pose proof (DayFromYear_mono (hi + 1) (YearFromDay d) ltac:(lia)). lia.
Qed.

End YearsOfDays.

Section PresetRuns.
Context {E : Engine}.



End PresetRuns.



(** ** The range of a bound column *)

Section BoundRange.
Context {E : Engine}.

Lemma extremes_ordered (parse : JsValue -> Date) (arr : option (list JsValue)) (mm : MinMax) :
  Civil.extremes_of parse arr mm ->
  (minDate mm = None /\ maxDate mm = None)
  \/ exists lo hi, minDate mm = Some (Int lo) /\ maxDate mm = Some (Int hi) /\ lo <= hi.
Proof.
  intros (Hn & Ho & _).
  destruct (minDate mm) as [lo |] eqn:Hlo.
  - destruct (maxDate mm) as [hi |] eqn:Hhi.
    + right. destruct (Ho lo hi eq_refl eq_refl) as [L _].
      destruct lo as [| lo]; [discriminate L |].
      destruct hi as [| hi]; [discriminate L |].
      exists lo, hi. cbn [le] in L. apply Z.leb_le in L. repeat split; assumption.
    + destruct Hn as [_ Hn]. discriminate (Hn eq_refl).
  - left. split; [reflexivity | apply Hn; reflexivity].
Qed.

(** The wide range, from 1 January 1900 to 31 December of the tenth year
    after the clock's, for a clock from 1970 on. *)
Lemma wide_range (now : Z) :
  0 <= now <= 8000000000000000 ->
  exists lo hi,
    DateTimePickerVisual.wide_minDate = Int lo
    /\ DateTimePickerVisual.wide_maxDate now = Int hi
    /\ lo <= hi.
Proof.
  intros Hn. pose proof LocalTZA_bound as HZ.
  assert (Y : 1969 <= YearFromTime (LocalTime now) <= 260000).
  { unfold YearFromTime. apply YearFromDay_within.
    change (DayFromYear 1969) with (-365).
    change (DayFromYear (260000 + 1)) with 94243888.
    unfold Day, LocalTime, fixed_offset, msPerDay in *. div_lia. }
  assert (V31 : 1 <= 31 <= Engines.days_in_month (YearFromTime (LocalTime now) + 10) (11 + 1))
    by (unfold Engines.days_in_month; cbn; lia).
  assert (V1 : 1 <= 1 <= Engines.days_in_month 1900 (0 + 1)) by (vm_compute; split; discriminate).
  assert (A1 : - 270000 <= 1900 <= 270000) by lia.
  assert (A2 : 1900 < 0 \/ 99 < 1900) by lia.
  assert (A3 : 0 <= 0 <= 11) by lia.
  assert (B1 : - 270000 <= YearFromTime (LocalTime now) + 10 <= 270000) by lia.
  assert (B2 : YearFromTime (LocalTime now) + 10 < 0 \/ 99 < YearFromTime (LocalTime now) + 10)
    by lia.
  assert (B3 : 0 <= 11 <= 11) by lia.
  destruct (new_Date_ymd_civil 1900 0 1 A1 A2 A3 V1) as (L & _ & _).
  destruct (new_Date_ymd_civil (YearFromTime (LocalTime now) + 10) 11 31 B1 B2 B3 V31)
    as (H & _ & _).
  eexists. eexists. split; [exact L |]. split.
  - unfold DateTimePickerVisual.wide_maxDate, new_Date_now.
    rewrite TimeClip_in_range by (unfold maxTimeValue; lia).
    cbn [getFullYear local_field num_add]. exact H.
  - rewrite (MakeDay_in_year 1900 0 1 A3).
    rewrite (MakeDay_in_year (YearFromTime (LocalTime now) + 10) 11 31 B3).
    assert (Q : 1900 <= YearFromTime (LocalTime now) + 10) by lia.
    pose proof (DayFromYear_mono 1900 (YearFromTime (LocalTime now) + 10) Q) as M.
    pose proof (DaysBeforeMonth_range (IsLeapYear (YearFromTime (LocalTime now) + 10)) 11).
    pose proof (DaysBeforeMonth_range (IsLeapYear 1900) 0).
    change (DaysBeforeMonth (IsLeapYear 1900) 0) with 0.
    unfold UTC, LocalTime, fixed_offset, msPerDay in *. lia.
Qed.

Lemma bind_column_range (now : Z) (c : MetadataColumn) (mm : MinMax) :
  0 <= now <= 8000000000000000 ->
  (minDate mm = None /\ maxDate mm = None)
  \/ (exists lo hi, minDate mm = Some (Int lo) /\ maxDate mm = Some (Int hi) /\ lo <= hi) ->
  exists lo hi,
    Picker.minDate (DateTimePickerVisual.bind_column now c mm) = Some (Int lo)
    /\ Picker.maxDate (DateTimePickerVisual.bind_column now c mm) = Some (Int hi)
    /\ lo <= hi.
Proof.
  intros Hn [[H1 H2] | (lo & hi & H1 & H2 & L)];
    unfold DateTimePickerVisual.bind_column; cbn [Picker.minDate Picker.maxDate];
    rewrite H1, H2; cbn [DateTimePickerVisual.date_or].
  - destruct (wide_range now Hn) as (lo & hi & -> & -> & L). exists lo, hi. repeat split; exact L.
  - exists lo, hi. repeat split; exact L.
Qed.

(** The column that [discover] binds carries a range of two valid dates in order. *)
Lemma discover_range (now : Z) (dv : option DataView) (col : Picker.IDateColumnInfo) :
  0 <= now <= 8000000000000000 ->
  DateTimePickerVisual.discover now dv = Some col ->
  exists lo hi,
    Picker.minDate col = Some (Int lo) /\ Picker.maxDate col = Some (Int hi) /\ lo <= hi.
Proof.
  intros Hn. unfold DateTimePickerVisual.discover.
  destruct (match dv with Some v => dv_categories v | None => None end) as [[| first more] |].
  - destruct (DateTimePickerVisual.pickMetaDateCol _) as [[metaDate idx] |]; [| discriminate].
    intros [= <-]. apply bind_column_range; [exact Hn |].
    destruct (match dv with Some v => dv_rows v | None => None end) as [rows |].
    + match goal with
      | |- context [DateUtils.scanMinMax DateUtils.parseDate ?l] =>
          exact (extremes_ordered _ _ _ (findMinMaxDates_extremes (Some l)))
      end.
    + left. split; reflexivity.
  - intros [= <-]. apply bind_column_range; [exact Hn |].
    match goal with
      | |- context [DateUtils.scanMinMax DateUtils.parseDate ?l] =>
          exact (extremes_ordered _ _ _ (findMinMaxDates_extremes (Some l)))
      end.
  - destruct (DateTimePickerVisual.pickMetaDateCol _) as [[metaDate idx] |]; [| discriminate].
    intros [= <-]. apply bind_column_range; [exact Hn |].
    destruct (match dv with Some v => dv_rows v | None => None end) as [rows |].
    + match goal with
      | |- context [DateUtils.scanMinMax DateUtils.parseDate ?l] =>
          exact (extremes_ordered _ _ _ (findMinMaxDates_extremes (Some l)))
      end.
    + left. split; reflexivity.
Qed.

End BoundRange.

(** What an update of the single-file visual leaves behind.  After
    [updateDataColumnInfo] the visual and its filter service hold the same
    column, the one found in this update.  A bound column carries a range of
    two valid dates in order (from the data, or the wide range from 1900 to
    ten years ahead, for a clock from 1970 on), and both inputs take the two
    dates as their [min] and [max]; without a column the inputs are left as
    they are and the field line asks for a date field. *)
Theorem update_binds_an_ordered_range {E : Engine} (now : Z) (st : PickerVisual.State)
        (dv : option DataView) :
  0 <= now <= 8000000000000000 ->
  let st' := PickerVisual.updateDataColumnInfo now st dv in
  let inputs := PickerVisual.dateInputsComponent st' in
  PickerVisual.dateColumn st' = DateTimePickerVisual.discover now dv
  /\ FilterService.dateColumn (PickerVisual.filterService st') = PickerVisual.dateColumn st'
  /\ (forall col,
         PickerVisual.dateColumn st' = Some col ->
         exists lo hi,
           Picker.minDate col = Some (Int lo) /\ Picker.maxDate col = Some (Int hi)
           /\ lo <= hi
           /\ DateInput.min (DateInputsComponent.startDateInput inputs)
              = DateUtils.formatDate (Some (Int lo))
           /\ DateInput.min (DateInputsComponent.endDateInput inputs)
              = DateUtils.formatDate (Some (Int lo))
           /\ DateInput.max (DateInputsComponent.startDateInput inputs)
              = DateUtils.formatDate (Some (Int hi))
           /\ DateInput.max (DateInputsComponent.endDateInput inputs)
              = DateUtils.formatDate (Some (Int hi)))
  /\ (PickerVisual.dateColumn st' = None ->
      PickerVisual.dateInputsComponent st' = PickerVisual.dateInputsComponent st
      /\ PickerVisual.fieldInfo st' = "Add a date field to the Fields area").
Proof.
  intros Hn. cbv zeta. unfold PickerVisual.updateDataColumnInfo.
  destruct (DateTimePickerVisual.discover now dv) as [c |] eqn:Hd.
  - cbn [PickerVisual.updateFieldInfoLabel PickerVisual.dateColumn
         PickerVisual.filterService PickerVisual.dateInputsComponent
         FilterService.setDateColumn FilterService.dateColumn].
    split; [reflexivity |]. split; [reflexivity |]. split; [| discriminate].
    intros col [= <-].
    destruct (discover_range now dv c Hn Hd) as (lo & hi & Hlo & Hhi & L).
    exists lo, hi. rewrite Hlo, Hhi.
    repeat split; try assumption; reflexivity.
  - cbn [PickerVisual.updateFieldInfoLabel PickerVisual.dateColumn
         PickerVisual.filterService PickerVisual.dateInputsComponent
         PickerVisual.fieldInfo FilterService.setDateColumn FilterService.dateColumn].
    split; [reflexivity |]. split; [reflexivity |]. split; [discriminate |].
    intros _. split; reflexivity.
Qed.

(** An update with the column [Sales.OrderDate] and no rows, in 2024. *)
Lemma update_binds_an_ordered_range_witness :
  let st' := @PickerVisual.updateDataColumnInfo Engines.utc Examples.dec_31_2024_afternoon
               (PickerVisual.initial Examples.accepting_host)
               Examples.update_with_date_column in
  FilterService.dateColumn (PickerVisual.filterService st') = PickerVisual.dateColumn st'.
Proof.
  assert (R : 0 <= Examples.dec_31_2024_afternoon <= 8000000000000000)
    by (unfold Examples.dec_31_2024_afternoon; lia).
  exact (proj1 (proj2 (@update_binds_an_ordered_range Engines.utc _
                         (PickerVisual.initial Examples.accepting_host)
                         Examples.update_with_date_column R))).
Defined.

(** ** Dates that the [Date] constructor reads from a text *)

Section ReadAsUtcAnyClock.
Context {K : Clock}.

Lemma MakeDay_bounds (y mo d : Z) :
  1000 <= y <= 9999 -> 0 <= mo <= 11 -> 1 <= d <= 31 ->
  - 354285 <= MakeDay y mo d <= 2932897.
Proof.
  intros Hy Hm Hd. rewrite (MakeDay_in_year y mo d Hm).
  pose proof (DaysBeforeMonth_range (IsLeapYear y) mo) as R.
  assert (B : DayFromYear 1000 <= DayFromYear y <= DayFromYear 9999)
    by (split; apply DayFromYear_mono; lia).
  change (DayFromYear 1000) with (-354285) in B.
  change (DayFromYear 9999) with 2932532 in B.
  destruct (IsLeapYear y); lia.
Qed.

(** [new Date(text)] for a date that the engine reads as the standard says. *)
Lemma new_Date_string_date (y m d : Z) :
  1000 <= y <= 9999 -> Texts.valid_civil_date y m d ->
  Texts.reads_date_as_utc K y m d ->
  new_Date_string (Texts.date_text y m d) = Int (MakeDay y (m - 1) d * msPerDay)
  /\ - 354285 <= MakeDay y (m - 1) d <= 2932897.
Proof.
  intros Hy [Hm Hd] Hr. pose proof (days_in_month_le y m) as L.
  assert (A1 : 0 <= m - 1 <= 11) by lia. assert (A2 : 1 <= d <= 31) by lia.
  pose proof (MakeDay_bounds y (m - 1) d Hy A1 A2) as B.
  split; [| exact B].
  unfold new_Date_string. rewrite Hr. apply TimeClip_in_range.
  unfold maxTimeValue, msPerDay. lia.
Qed.

(** The local day of a UTC midnight: the day itself where local time is
    ahead of UTC or equal to it, the day before where it is behind. *)
Lemma local_day_by_offset (D : Z) :
  (0 <= Civil.offset_at (D * msPerDay) < msPerDay -> Civil.local_day (D * msPerDay) = D)
  /\ (- msPerDay <= Civil.offset_at (D * msPerDay) < 0 ->
      Civil.local_day (D * msPerDay) = D - 1).
Proof.
  unfold Civil.offset_at, Civil.local_day, Day.
  generalize (LocalTime (D * msPerDay)). intros x. unfold msPerDay. split; intros H; div_lia.
Qed.

Lemma date_text_not_empty (y m d : Z) : Str.is_empty (Texts.date_text y m d) = false.
Proof.
  unfold Texts.date_text. destruct (Str.string_of_Z y); reflexivity.
Qed.

End ReadAsUtcAnyClock.

Section ReadAsUtc.
Context {E : Engine}.






End ReadAsUtc.



(** ** The custom dates of the range selector *)

Section CustomDates.
Context {E : Engine}.

Lemma calculateDateRange_valid (now : Z) (rangeType : DateRangeType) :
  Civil.in_window now ->
  DateRangeCalculator.isValidDateRange
    (Some (DateRangeCalculator.calculateDateRange now rangeType)) = true.
Proof.
  intros W. rewrite (calculateDateRange_eq now rangeType W).
  cbn [DateRangeCalculator.isValidDateRange startDate endDate Civil.days_before].
  apply start_le_end_iff. rewrite local_day_shift.
  destruct rangeType; cbn [Civil.preset_days]; lia.
Qed.


End CustomDates.

(** Custom dates of the range selector are read as UTC, in any time zone.
    With Custom selected and two real dates typed into the custom inputs,
    [handleApplyFilter] builds its range from the UTC midnights of the two
    dates: it runs from the start of the local day on which the first falls
    to the end of the local day on which the second falls (the typed date
    where local time is then ahead of UTC or equal to it, the day before
    where it is behind).  Where these two local times are on the clock they
    are 00:00:00.000 and 23:59:59.999, and the callback gets the range,
    unless its start is after its end. *)
Theorem custom_dates_are_read_as_utc {K : Clock} (now : Z) (st : UIManager.State)
        (handler : IDateRange -> Outcome) (y m d y' m' d' : Z) :
  let D := MakeDay y (m - 1) d in
  let D' := MakeDay y' (m' - 1) d' in
  let first := Civil.local_day (D * msPerDay) in
  let last := Civil.local_day (D' * msPerDay) in
  let r := {| startDate := Int (UTC (first * msPerDay));
              endDate := Int (UTC (last * msPerDay + (msPerDay - 1)));
              type := Custom |} in
  UIManager.rangeSelector st = Some Custom ->
  UIManager.customStartDate st = Some (Texts.date_text y m d) ->
  UIManager.customEndDate st = Some (Texts.date_text y' m' d') ->
  UIManager.onApplyFilter st = Some handler ->
  1000 <= y <= 9999 -> 1000 <= y' <= 9999 ->
  Texts.valid_civil_date y m d -> Texts.valid_civil_date y' m' d' ->
  Texts.reads_date_as_utc K y m d -> Texts.reads_date_as_utc K y' m' d' ->
  Civil.on_the_clock (first * msPerDay) ->
  Civil.on_the_clock (last * msPerDay + (msPerDay - 1)) ->
  UIManager.handleApplyFilter now st
  = (if le (startDate r) (endDate r)
     then UIManager.OnApplyFilter r
          :: match handler r with
             | Returns => [UIManager.LogInfo "Apply filter action triggered"]
             | Throws e =>
                 [UIManager.LogError ("Failed to apply filter: " ++ UIManager.error_text e)]
             end
     else [UIManager.LogError "Invalid date range selected"])
  /\ Civil.time_of_day (startDate r) = (Int 0, Int 0, Int 0, Int 0)
  /\ Civil.time_of_day (endDate r) = (Int 23, Int 59, Int 59, Int 999)
  /\ Civil.local_day (UTC (first * msPerDay)) = first
  /\ Civil.local_day (UTC (last * msPerDay + (msPerDay - 1))) = last
  /\ (0 <= Civil.offset_at (D * msPerDay) < msPerDay -> first = D)
  /\ (- msPerDay <= Civil.offset_at (D * msPerDay) < 0 -> first = D - 1)
  /\ (0 <= Civil.offset_at (D' * msPerDay) < msPerDay -> last = D')
  /\ (- msPerDay <= Civil.offset_at (D' * msPerDay) < 0 -> last = D' - 1).
Proof.
  cbv zeta. intros Hs Hcs Hce Hh Hy Hy' Hv Hv' Hr Hr' Cs Ce.
  destruct (new_Date_string_date y m d Hy Hv Hr) as [P B].
  destruct (new_Date_string_date y' m' d' Hy' Hv' Hr') as [P' B'].
  split; [| split; [| split; [| split; [| split; [| split; [| split; [| split]]]]]]].
  - unfold UIManager.handleApplyFilter, UIManager.custom_values.
    rewrite Hs, Hcs, Hce, !date_text_not_empty. cbn [orb]. rewrite P, P'.
    rewrite createCustomRange_local_days
      by (apply Z.abs_le; unfold maxTimeValue, msPerDay; lia).
    rewrite (on_the_clock_valid _ Cs), (on_the_clock_valid _ Ce), Hh.
    cbn [DateRangeCalculator.isValidDateRange startDate endDate].
    destruct (le _ _); reflexivity.
  - apply time_of_day_midnight, Cs.
  - apply time_of_day_last_ms, Ce.
  - apply on_the_clock_midnight_day, Cs.
  - apply on_the_clock_day; [unfold msPerDay; lia | exact Ce].
  - apply local_day_by_offset.
  - apply local_day_by_offset.
  - apply local_day_by_offset.
  - apply local_day_by_offset.
Qed.

(** In New York the custom dates 2024-03-08 and 2024-03-12, on either side
    of the change of 2024-03-10, give the range from 7 March 00:00 (05:00
    UTC) to 11 March 23:59:59.999 (03:59:59.999 UTC the next day). *)
Lemma custom_dates_are_read_as_utc_witness :
  let st := {| UIManager.rangeSelector := Some Custom;
               UIManager.customStartDate := Some "2024-03-08";
               UIManager.customEndDate := Some "2024-03-12";
               UIManager.customDateContainer := Some true;
               UIManager.applyButton := Some false;
               UIManager.onApplyFilter := Some (fun _ => Returns);
               UIManager.onClearFilter := None |} in
  match @UIManager.handleApplyFilter Engines.new_york_2024 0 st with
  | UIManager.OnApplyFilter r :: _ =>
      (toISOString (startDate r), toISOString (endDate r))
  | _ => (None, None)
  end
  = (Some "2024-03-07T05:00:00.000Z", Some "2024-03-12T03:59:59.999Z").
Proof.
  intros st.
  assert (Y : 1000 <= 2024 <= 9999) by lia.
  assert (V1 : Texts.valid_civil_date 2024 3 8).
  { unfold Texts.valid_civil_date. change (Engines.days_in_month 2024 3) with 31. lia. }
  assert (V2 : Texts.valid_civil_date 2024 3 12).
  { unfold Texts.valid_civil_date. change (Engines.days_in_month 2024 3) with 31. lia. }
  assert (R1 : Texts.reads_date_as_utc Engines.new_york_2024 2024 3 8)
    by (vm_compute; reflexivity).
  assert (R2 : Texts.reads_date_as_utc Engines.new_york_2024 2024 3 12)
    by (vm_compute; reflexivity).
  assert (C1 : @Civil.on_the_clock Engines.new_york_2024
                 (@Civil.local_day Engines.new_york_2024 (MakeDay 2024 (3 - 1) 8 * msPerDay)
                  * msPerDay))
    by (split; vm_compute; [discriminate | reflexivity]).
  assert (C2 : @Civil.on_the_clock Engines.new_york_2024
                 (@Civil.local_day Engines.new_york_2024 (MakeDay 2024 (3 - 1) 12 * msPerDay)
                  * msPerDay + (msPerDay - 1)))
    by (split; vm_compute; [discriminate | reflexivity]).
  destruct (@custom_dates_are_read_as_utc Engines.new_york_2024 0 st (fun _ => Returns)
              2024 3 8 2024 3 12 eq_refl eq_refl eq_refl eq_refl Y Y V1 V2 R1 R2 C1 C2)
    as [H _].
  rewrite H. vm_compute. reflexivity.
Defined.



(** A preset always reaches the callback.  With a preset selected,
    [handleApplyFilter] ignores the custom inputs: it calls the callback
    with the range that [calculateDateRange] computes at that moment, which
    is always valid. *)
Theorem preset_reaches_the_callback {E : Engine} (now : Z) (st : UIManager.State)
        (rangeType : DateRangeType) (handler : IDateRange -> Outcome) :
  Civil.in_window now ->
  UIManager.rangeSelector st = Some rangeType ->
  rangeType <> Custom ->
  UIManager.onApplyFilter st = Some handler ->
  let r := DateRangeCalculator.calculateDateRange now rangeType in
  UIManager.handleApplyFilter now st
  = UIManager.OnApplyFilter r
    :: match handler r with
       | Returns => [UIManager.LogInfo "Apply filter action triggered"]
       | Throws e => [UIManager.LogError ("Failed to apply filter: " ++ UIManager.error_text e)]
       end.
Proof.
  intros W Hs Hn Hh. cbv zeta. unfold UIManager.handleApplyFilter. rewrite Hs, Hh.
  destruct rangeType; try congruence;
    rewrite (calculateDateRange_valid now _ W); reflexivity.
Qed.

(** Last 30 Days on the afternoon of 2024-12-31, with custom inputs left empty. *)
Lemma preset_reaches_the_callback_witness :
  let st := {| UIManager.rangeSelector := Some Last30Days;
               UIManager.customStartDate := Some "";
               UIManager.customEndDate := Some "";
               UIManager.customDateContainer := Some false;
               UIManager.applyButton := Some false;
               UIManager.onApplyFilter := Some (fun _ => Returns);
               UIManager.onClearFilter := None |} in
  @UIManager.handleApplyFilter Engines.utc Examples.dec_31_2024_afternoon st
  = [UIManager.OnApplyFilter
       (@DateRangeCalculator.calculateDateRange Engines.utc
          Examples.dec_31_2024_afternoon Last30Days);
     UIManager.LogInfo "Apply filter action triggered"].
Proof.
  intros st.
  assert (W : Civil.in_window Examples.dec_31_2024_afternoon)
    by (unfold Civil.in_window, Examples.dec_31_2024_afternoon, maxTimeValue, msPerDay; lia).
  assert (N : Last30Days <> Custom) by discriminate.
  exact (@preset_reaches_the_callback Engines.utc _ st Last30Days (fun _ => Returns)
           W eq_refl N eq_refl).
Defined.

(** ** Updates of the DirectQuery visual *)

(** What the DirectQuery visual binds.  An update binds the first category
    of its data view, whatever the type of the column and the values it
    holds, with the wide range from 1900 to ten years ahead, and queues the
    initial selection; a data view without a category unbinds the visual and
    its filter service; an update without a data view changes nothing, so
    that the column bound before stays bound. *)
Theorem DirectQuery_update_binds_the_first_category {E : Engine} (now : Z)
        (st : DirectQueryVisual.State) :
  DirectQueryVisual.updateDataColumnInfo now st None = ([], Eff.Done st)
  /\ (forall d c rest,
         dv_categories d = Some (c :: rest) ->
         exists tr st',
           DirectQueryVisual.updateDataColumnInfo now st (Some d) = (tr, Eff.Done st')
           /\ Civil.host_calls tr = []
           /\ DirectQueryVisual.dateColumn st'
              = Some {| Picker.displayName :=
                          Str.or_else (m_displayName (cat_source c)) "Unknown Field";
                        Picker.queryName := m_queryName (cat_source c);
                        Picker.minDate := Some DateTimePickerVisual.wide_minDate;
                        Picker.maxDate := Some (DateTimePickerVisual.wide_maxDate now) |}
           /\ DirectQuery.dateColumn (DirectQueryVisual.filterService st')
              = DirectQueryVisual.dateColumn st'
           /\ DirectQueryVisual.timers st'
              = (DirectQueryVisual.timers st ++ [LATEST_7_DAYS])%list)
  /\ (forall d,
         dv_categories d = None \/ dv_categories d = Some [] ->
         exists st',
           DirectQueryVisual.updateDataColumnInfo now st (Some d) = ([], Eff.Done st')
           /\ DirectQueryVisual.dateColumn st' = None
           /\ DirectQuery.dateColumn (DirectQueryVisual.filterService st') = None
           /\ DirectQueryVisual.fieldInfo st' = "Add a date field to the Fields area").
Proof.
  split; [reflexivity |]. split.
  - intros d c rest Hc. unfold DirectQueryVisual.updateDataColumnInfo. rewrite Hc.
    eexists. eexists. split; [reflexivity |]. split; [reflexivity |].
    cbn [DirectQueryVisual.dateColumn DirectQueryVisual.filterService
         DirectQueryVisual.timers DirectQuery.setDateColumn DirectQuery.dateColumn].
    split; [| split; reflexivity].
    destruct (m_queryName (cat_source c)); reflexivity.
  - intros d [Hc | Hc]; unfold DirectQueryVisual.updateDataColumnInfo; rewrite Hc;
      eexists; repeat split.
Qed.

Section TodayRanges.
Context {E : Engine}.


End TodayRanges.



(** Apply on a bound column, in the single-file visual.  The filter
    service builds the filter and ends normally whatever the host does: a
    host with [applyJsonFilter] gets exactly one call, with the filter, the
    scope "general" and the action merge, and the user sees the success
    message when the call returns and the error message when it throws; a
    host without the function gets no call and the user sees the error. *)
Theorem FilterService_applyFilter_outcomes {E : Engine} (st : FilterService.State)
        (range : Picker.IDateRange) (col : Picker.IDateColumnInfo) :
  FilterService.dateColumn st = Some col ->
  exists f,
    FilterService.createAdvancedFilter st range = Some f
    /\ Eff.completed (FilterService.applyFilter st range) = true
    /\ Civil.shows_error (Eff.trace (FilterService.applyFilter st range))
       = negb (Civil.shows_success (Eff.trace (FilterService.applyFilter st range)))
    /\ match applyJsonFilter (FilterService.host st) with
       | Some js =>
           Civil.host_calls (Eff.trace (FilterService.applyFilter st range))
           = [HostApplyJsonFilter (Some f) "general" "filter" 0]
           /\ Civil.shows_success (Eff.trace (FilterService.applyFilter st range))
              = match js (Some f) "general" "filter" 0 with
                | Returns => true
                | Throws _ => false
                end
       | None =>
           Civil.host_calls (Eff.trace (FilterService.applyFilter st range)) = []
           /\ Civil.shows_success (Eff.trace (FilterService.applyFilter st range)) = false
       end.
Proof.
  intros Hc. pose proof (createAdvancedFilter_bound st range col Hc) as F.
  eexists. split; [exact F |].
  rewrite (FilterService_applyFilter_bound st range col _ Hc F).
  destruct (applyJsonFilter (FilterService.host st)) as [js |].
  - match goal with
    | |- context [js ?f ?s ?p ?n] => destruct (js f s p n)
    end; repeat split.
  - repeat split.
Qed.

(** A host that rejects the filter: the error is shown, no success. *)
Lemma FilterService_applyFilter_outcomes_witness :
  let st := {| FilterService.host :=
                 {| applyJsonFilter := Some (fun _ _ _ _ => Throws "rejected");
                    filterManager := None;
                    createSelectionManager := None |};
               FilterService.dateColumn :=
                 Some {| Picker.displayName := "OrderDate"; Picker.queryName := "Sales.OrderDate";
                         Picker.minDate := None; Picker.maxDate := None |} |} in
  let range := {| Picker.startDate := Int 0; Picker.endDate := Int msPerDay |} in
  Civil.shows_error (Eff.trace (@FilterService.applyFilter Engines.utc st range)) = true.
Proof.
  intros st range.
  destruct (@FilterService_applyFilter_outcomes Engines.utc st range _ eq_refl)
    as (f & _ & _ & He & _ & Hs).
  rewrite He, Hs. reflexivity.
Defined.

Section TodayThenApply.
Context {E : Engine}.


End TodayThenApply.



(** ** A midnight that the clocks skip *)

Section SkippedMidnight.
Context {K : Clock}.

(** The time of day does not depend on the day. *)
Lemma time_fields_of_day (day time : Z) :
  HourFromTime (day * msPerDay + time) = HourFromTime time
  /\ MinFromTime (day * msPerDay + time) = MinFromTime time
  /\ SecFromTime (day * msPerDay + time) = SecFromTime time
  /\ msFromTime (day * msPerDay + time) = msFromTime time.
Proof.
  unfold HourFromTime, MinFromTime, SecFromTime, msFromTime, msPerDay, msPerHour,
    msPerMinute, msPerSecond.
  pose proof (div_mod_shift time (- day) 3600000 24 1 eq_refl) as H1.
  pose proof (div_mod_shift time (- day) 60000 60 24 eq_refl) as H2.
  pose proof (div_mod_shift time (- day) 1000 60 1440 eq_refl) as H3.
  change (1 * 24 * 3600000) with 86400000 in H1.
  change (24 * 60 * 60000) with 86400000 in H2.
  change (1440 * 60 * 1000) with 86400000 in H3.
  replace (day * 86400000 + time) with (time - - day * 86400000) by ring.
  rewrite H1, H2, H3. repeat split.
  replace (time - - day * 86400000) with (time + (day * 86400) * 1000) by ring.
  apply Z_mod_plus_full.
Qed.

End SkippedMidnight.

(** Where the clocks skip midnight, the code's midnights come after the gap.
    When the moment that the zone gives the midnight of a day shows a time
    [gap] later (the length of the gap at a change of offset that skips
    midnight; 0 where midnight is on the clock), [parseDate(formatDate(d))]
    for a Date of that day, and the start of [createCustomRange], are that
    moment: on the same calendar day, at the time of day [gap], not at
    00:00:00.000. *)
Theorem skipped_midnight_is_read_after_the_gap {K : Clock} (t y gap : Z) :
  let midnight := Civil.local_day t * msPerDay in
  let p := DateUtils.parseDate (VString (DateUtils.formatDate (Some (Int t)))) in
  let r := DateRangeCalculator.createCustomRange (Int t) (Int t) in
  getFullYear (Int t) = Int y -> 1000 <= y <= 9999 ->
  Z.abs t <= maxTimeValue ->
  Z.abs (UTC midnight) <= maxTimeValue ->
  LocalTime (UTC midnight) = midnight + gap ->
  0 <= gap < msPerDay ->
  p = Int (UTC midnight)
  /\ startDate r = Int (UTC midnight)
  /\ Civil.civil_date p = Civil.civil_date (Int t)
  /\ Civil.time_of_day p
     = (Int (HourFromTime gap), Int (MinFromTime gap), Int (SecFromTime gap),
        Int (msFromTime gap)).
Proof.
  cbv zeta. intros Hy Ry Ht Hm Hl Hg. apply getFullYear_Int in Hy.
  rewrite parseDate_formatDate_local_day by (subst y; exact Ry).
  rewrite (createCustomRange_local_days t t Ht Ht). cbn [startDate].
  rewrite (TimeClip_abs _ Hm).
  split; [reflexivity |]. split; [reflexivity |]. split.
  - apply civil_date_same_day. unfold Civil.local_day at 1. rewrite Hl.
    unfold Day, msPerDay in *. div_lia.
  - unfold Civil.time_of_day.
    cbn [getHours getMinutes getSeconds getMilliseconds local_field]. rewrite Hl.
    destruct (time_fields_of_day (Civil.local_day t) gap) as (H1 & H2 & H3 & H4).
    rewrite H1, H2, H3, H4. reflexivity.
Qed.

(** In Havana the clocks went from 00:00 to 01:00 on 2024-03-10: noon of that
    day is read back, and a custom range of that day starts, at 01:00:00.000. *)
Lemma skipped_midnight_is_read_after_the_gap_witness :
  let d := Int Examples.mar_10_2024_noon in
  let p := @DateUtils.parseDate Engines.havana_2024
             (VString (@DateUtils.formatDate Engines.havana_2024 (Some d))) in
  @DateUtils.formatDate Engines.havana_2024 (Some d) = "2024-03-10"
  /\ @Civil.civil_date Engines.havana_2024 p = (Int 2024, Int 2, Int 10)
  /\ @Civil.time_of_day Engines.havana_2024 p = (Int 1, Int 0, Int 0, Int 0)
  /\ startDate (@DateRangeCalculator.createCustomRange Engines.havana_2024 d d) = p.
Proof.
  assert (Y : @getFullYear Engines.havana_2024 (Int Examples.mar_10_2024_noon) = Int 2024)
    by (vm_compute; reflexivity).
  assert (R : 1000 <= 2024 <= 9999) by lia.
  assert (A : Z.abs Examples.mar_10_2024_noon <= maxTimeValue) by (vm_compute; discriminate).
  assert (M : Z.abs (@UTC Engines.havana_2024
                       (@Civil.local_day Engines.havana_2024 Examples.mar_10_2024_noon
                        * msPerDay)) <= maxTimeValue)
    by (vm_compute; discriminate).
  assert (L : @LocalTime Engines.havana_2024
                (@UTC Engines.havana_2024
                   (@Civil.local_day Engines.havana_2024 Examples.mar_10_2024_noon
                    * msPerDay))
              = @Civil.local_day Engines.havana_2024 Examples.mar_10_2024_noon * msPerDay
                + msPerHour)
    by (vm_compute; reflexivity).
  assert (G : 0 <= msPerHour < msPerDay) by (unfold msPerHour, msPerDay; lia).
  destruct (@skipped_midnight_is_read_after_the_gap Engines.havana_2024
              Examples.mar_10_2024_noon 2024 msPerHour Y R A M L G)
    as (P & S & C & T).
  cbv zeta. rewrite S, P.
  split; [vm_compute; reflexivity |].
  split; [vm_compute; reflexivity |].
  split; [exact T | reflexivity].
Defined.

